(** * issue-sync: the reconciliation engine and its JIRA clients

  A shallow embedding of the Go sources of issue-sync
  (packages [config], [jira] and [sync]) and the properties of the
  reconciliation engine, the live and dry-run JIRA clients, the field
  registry and the GitHub query builder.

  Layout of the development:
  - [Go]         : what the Go runtime and [fmt] give the code (errors,
                   panics, decimal rendering, string slicing);
  - [time]       : [time.Time.Format], the layout interpreter;
  - [tcontainer] : the dynamically typed custom-field map of go-jira;
  - [jira], [github] : the data types of the two client libraries;
  - [config]     : pkg/config (field registry, configuration object);
  - [jiraclient] : pkg/jira (live and dry-run clients, retry wrapper);
  - [sync]       : pkg/sync (query builder, comparison engine). *)

From Stdlib Require Import ZArith String Ascii List Lia DecimalString.
From stdpp Require Import base option list strings gmap.

Set Default Proof Using "Type".
Local Open Scope string_scope.
Local Open Scope list_scope.

(* ===================================================================== *)
(** * The Go runtime                                                      *)
(* ===================================================================== *)

Module Go.

(** An [error] value is identified with the text [Error()] returns:
    every error the program builds comes from [errors.New] or
    [fmt.Errorf]. *)
Definition error := string.

(** Outcome of a Go call of result type [(A, error)] that may also
    panic. *)
Inductive Res (A : Type) : Type :=
| Ok (a : A)
| Err (e : error)
| Panic (v : string).
Arguments Ok {A} a.
Arguments Err {A} e.
Arguments Panic {A} v.

Definition isOk {A} (r : Res A) : bool :=
  match r with Ok _ => true | _ => false end.

(** [fmt.Sprint] and the verb [%d] on an integer. *)
Definition itoa (z : Z) : string := NilZero.string_of_int (Z.to_int z).

(** [len(s)]: Go strings are byte strings, as are Rocq strings. *)
Definition len (s : string) : Z := Z.of_nat (String.length s).

(** The slice expression [s[:n]]: a run-time panic when [n] is outside
    [0 .. len(s)]. *)
Definition slice_to (s : string) (n : Z) : Res string :=
  if (0 <=? n)%Z && (n <=? len s)%Z
  then Ok (substring 0 (Z.to_nat n) s)
  else Panic "runtime error: slice bounds out of range".

(** [strings.Join]. *)
Definition Join (l : list string) (sep : string) : string :=
  String.concat sep l.

(** [strings.Contains]. *)
Fixpoint Contains (s sub : string) : bool :=
  String.prefix sub s ||
  match s with
  | EmptyString => false
  | String _ t => Contains t sub
  end.

End Go.

(* ===================================================================== *)
(** * time.Time.Format                                                    *)
(* ===================================================================== *)

Module time.

(** A [time.Time] value as [Format] sees it: the civil date and clock
    reading in the value's own location, and that location's offset
    (seconds east of UTC) and abbreviation. *)
Record Time := mkTime {
  year : nat; month : nat; day : nat;
  hour : nat; minute : nat; second : nat;
  weekday : nat;
  zoneOffset : Z;
  zoneName : string
}.

Inductive zoneForm := ZShort | ZMinutes | ZSeconds.

(** The elements of a layout ([std...] constants of package time). *)
Inductive chunk :=
| Lit (c : ascii)
| stdLongMonth | stdMonth | stdNumMonth | stdZeroMonth
| stdLongWeekDay | stdWeekDay
| stdDay | stdUnderDay | stdZeroDay
| stdHour | stdHour12 | stdZeroHour12
| stdMinute | stdZeroMinute
| stdSecond | stdZeroSecond
| stdLongYear | stdYear
| stdPM | stdpm
| stdTZ
| stdZone (iso colon : bool) (form : zoneForm).

Definition startsWithLowerCase (s : string) : bool :=
  match s with
  | EmptyString => false
  | String c _ => (("a" <=? c) && (c <=? "z"))%char
  end.

Definition drop (n : nat) (s : string) : string :=
  substring n (String.length s - n) s.

(** Reference strings recognised at the head of a layout, in the order
    [nextStdChunk] tests them, with the number of bytes consumed.
    Day-of-year and fractional-second elements are not modelled; no
    layout of this repository contains them. *)
Definition stdTable : list (string * chunk) :=
  [ ("January", stdLongMonth); ("Jan", stdMonth);
    ("Monday", stdLongWeekDay); ("Mon", stdWeekDay); ("MST", stdTZ);
    ("01", stdZeroMonth); ("02", stdZeroDay); ("03", stdZeroHour12);
    ("04", stdZeroMinute); ("05", stdZeroSecond); ("06", stdYear);
    ("15", stdHour); ("1", stdNumMonth);
    ("2006", stdLongYear); ("2", stdDay);
    ("_2", stdUnderDay);
    ("3", stdHour12); ("4", stdMinute); ("5", stdSecond);
    ("PM", stdPM); ("pm", stdpm);
    ("-070000", stdZone false false ZSeconds);
    ("-07:00:00", stdZone false true ZSeconds);
    ("-0700", stdZone false false ZMinutes);
    ("-07:00", stdZone false true ZMinutes);
    ("-07", stdZone false false ZShort);
    ("Z070000", stdZone true false ZSeconds);
    ("Z07:00:00", stdZone true true ZSeconds);
    ("Z0700", stdZone true false ZMinutes);
    ("Z07:00", stdZone true true ZMinutes);
    ("Z07", stdZone true false ZShort) ].

(** Side conditions of [nextStdChunk]: "Jan" and "Mon" only count when
    no lower-case letter follows; "_2" followed by "006" is a literal
    underscore before the year. *)
Definition accepts (layout : string) (e : string * chunk) : bool :=
  String.prefix e.1 layout &&
  match e.2 with
  | stdMonth | stdWeekDay => negb (startsWithLowerCase (drop 3 layout))
  | stdUnderDay => negb (String.prefix "_2006" layout)
  | _ => true
  end.

Definition nextStdChunk (layout : string) : option (string * chunk) :=
  List.find (accepts layout) stdTable.

(** The layout split into its elements; [skip] counts the bytes of the
    current element still to be passed over. *)
Fixpoint chunks (skip : nat) (layout : string) : list chunk :=
  match layout with
  | EmptyString => []
  | String c rest =>
      match skip with
      | S k => chunks k rest
      | O =>
          match nextStdChunk layout with
          | Some (ref, ch) => ch :: chunks (String.length ref - 1) rest
          | None => Lit c :: chunks 0 rest
          end
      end
  end.

Fixpoint zeros (n : nat) : string :=
  match n with O => "" | S k => String "0" (zeros k) end.

(** [appendInt(b, x, width)] for a non-negative [x]. *)
Definition appendInt (x : Z) (width : nat) : string :=
  let s := Go.itoa x in zeros (width - String.length s) +:+ s.

Definition longMonthNames : list string :=
  [ "January"; "February"; "March"; "April"; "May"; "June"; "July";
    "August"; "September"; "October"; "November"; "December" ].

Definition longDayNames : list string :=
  [ "Sunday"; "Monday"; "Tuesday"; "Wednesday"; "Thursday"; "Friday";
    "Saturday" ].

Definition monthName (t : Time) : string :=
  nth (month t - 1) longMonthNames "".
Definition dayName (t : Time) : string :=
  nth (weekday t) longDayNames "".

Definition formatZone (iso colon : bool) (form : zoneForm) (offset : Z)
  : string :=
  if (offset =? 0)%Z && iso then "Z" else
  let zone := Z.quot offset 60 in
  let sign := if (zone <? 0)%Z then "-" else "+" in
  let zone := Z.abs zone in
  let absoffset := Z.abs offset in
  sign +:+ appendInt (Z.quot zone 60) 2
    +:+ (if colon then ":" else "")
    +:+ match form with
        | ZShort => ""
        | ZMinutes => appendInt (Z.rem zone 60) 2
        | ZSeconds =>
            appendInt (Z.rem zone 60) 2 +:+ (if colon then ":" else "")
              +:+ appendInt (Z.rem absoffset 60) 2
        end.

Definition hour12 (t : Time) : Z :=
  let hr := (Z.of_nat (hour t) mod 12)%Z in
  if (hr =? 0)%Z then 12%Z else hr.

Definition formatChunk (t : Time) (c : chunk) : string :=
  match c with
  | Lit a => String a ""
  | stdLongMonth => monthName t
  | stdMonth => substring 0 3 (monthName t)
  | stdNumMonth => appendInt (Z.of_nat (month t)) 0
  | stdZeroMonth => appendInt (Z.of_nat (month t)) 2
  | stdLongWeekDay => dayName t
  | stdWeekDay => substring 0 3 (dayName t)
  | stdDay => appendInt (Z.of_nat (day t)) 0
  | stdUnderDay =>
      (if (day t <? 10)%nat then " " else "") +:+ appendInt (Z.of_nat (day t)) 0
  | stdZeroDay => appendInt (Z.of_nat (day t)) 2
  | stdHour => appendInt (Z.of_nat (hour t)) 2
  | stdHour12 => appendInt (hour12 t) 0
  | stdZeroHour12 => appendInt (hour12 t) 2
  | stdMinute => appendInt (Z.of_nat (minute t)) 0
  | stdZeroMinute => appendInt (Z.of_nat (minute t)) 2
  | stdSecond => appendInt (Z.of_nat (second t)) 0
  | stdZeroSecond => appendInt (Z.of_nat (second t)) 2
  | stdLongYear => appendInt (Z.of_nat (year t)) 4
  | stdYear => appendInt (Z.of_nat (year t) mod 100) 2
  | stdPM => if (12 <=? hour t)%nat then "PM" else "AM"
  | stdpm => if (12 <=? hour t)%nat then "pm" else "am"
  | stdTZ =>
      if String.eqb (zoneName t) ""
      then formatZone false false ZMinutes (zoneOffset t)
      else zoneName t
  | stdZone iso colon form => formatZone iso colon form (zoneOffset t)
  end.

(** [t.Format(layout)]. *)
Definition Format (t : Time) (layout : string) : string :=
  String.concat "" (List.map (formatChunk t) (chunks 0 layout)).

End time.

(* ===================================================================== *)
(** * tcontainer.MarshalMap: the custom-field map                         *)
(* ===================================================================== *)

Module tcontainer.

(** The dynamically typed values found in [IssueFields.Unknowns]: what
    the engine stores there (strings and ints) and what a JSON response
    decodes to (strings, numbers, null, and anything else). A number is
    kept by its integral value. *)
Inductive Value :=
| VNull
| VString (s : string)
| VNumber (z : Z)
| VOther.

Abbreviation MarshalMap := (gmap string Value).

(** The double-quote character of the library's error texts. *)
Definition dq : string := String (ascii_of_nat 34) EmptyString.

(** [mmap.Value(key)]: the stored value and whether the key is set. The
    keys of this program are "customfield_" followed by decimal digits,
    so the path syntax of the library ('/' and '[') never applies. *)
Definition Value_ (mmap : MarshalMap) (key : string) : Value * bool :=
  match mmap !! key with
  | Some v => (v, true)
  | None => (VNull, false)
  end.

(** [mmap.String(key)]: the zero value and an error unless the key is set
    to a string. *)
Definition String_ (mmap : MarshalMap) (key : string)
  : string * option Go.error :=
  match mmap !! key with
  | None => ("", Some (dq +:+ key +:+ dq +:+ " is not set"))
  | Some (VString s) => (s, None)
  | Some _ => ("", Some (dq +:+ key +:+ dq +:+ " is expected to be a string"))
  end.

(** [mmap.Int(key)]: the zero value and an error unless the key is set to
    a number. *)
Definition Int (mmap : MarshalMap) (key : string) : Z * option Go.error :=
  match mmap !! key with
  | None => (0%Z, Some (dq +:+ key +:+ dq +:+ " is not set"))
  | Some (VNumber z) => (z, None)
  | Some _ => (0%Z, Some (dq +:+ key +:+ dq +:+ " is expected to be an integer"))
  end.

End tcontainer.

(* ===================================================================== *)
(** * logrus: what the program logs                                       *)
(* ===================================================================== *)

Module logrus.

Inductive Level := ErrorLevel | InfoLevel | DebugLevel.

(** An argument handed to a formatting log call. *)
Inductive Arg :=
| AStr (s : string)
| AInt (z : Z)
| AVal (v : option tcontainer.Value)
| ABool (b : bool).

(** One log call: level, format string, arguments. *)
Record Entry := mkEntry {
  level : Level;
  format : string;
  args : list Arg
}.

Definition Errorf := mkEntry ErrorLevel.
Definition Infof := mkEntry InfoLevel.
Definition Debugf := mkEntry DebugLevel.

End logrus.

(* ===================================================================== *)
(** * go-jira: data types and the REST client                             *)
(* ===================================================================== *)

Module jira.

Module IssueType.
Record t := mk { Name : string }.
End IssueType.
Definition IssueType := IssueType.t.

Module Project.
Record t := mk { Key : string }.
End Project.
Definition Project := Project.t.

Module IssueFields.
Record t := mk {
  Type_ : IssueType;
  Project : Project;
  Summary : string;
  Description : string;
  Unknowns : tcontainer.MarshalMap
}.
End IssueFields.
Definition IssueFields := IssueFields.t.

(** [Fields] is a pointer in go-jira; every issue this program builds or
    receives has it set, and the model keeps the pointee. *)
Module Issue.
Record t := mk {
  ID : string;
  Key : string;
  Fields : IssueFields
}.
End Issue.
Definition Issue := Issue.t.

Module Comment.
Record t := mk { ID : string; Body : string }.
End Comment.
Definition Comment := Comment.t.

Module SearchOptions.
Record t := mk { StartAt : Z; MaxResults : Z }.
End SearchOptions.
Definition SearchOptions := SearchOptions.t.

(** The part of [*jira.Response] the program reads: the total of a search
    and the outcome of reading the HTTP body to its end. *)
Module Response.
Record t := mk { Total : Z; Body : string + Go.error }.
End Response.
Definition Response := Response.t.

Definition emptyIssueFields : IssueFields :=
  IssueFields.mk (IssueType.mk "") (Project.mk "") "" "" ∅.

(** [jira.Issue{}] and [jira.Comment{}]. *)
Definition zeroIssue : Issue := Issue.mk "" "" emptyIssueFields.
Definition zeroComment : Comment := Comment.mk "" "".

Inductive Method := GET | POST | PUT.

(** A request built by [Client.NewRequest]: method, path, JSON body. *)
Module Request.
Record t := mk { method : Method; path : string; body : option string }.
End Request.
Definition Request := Request.t.

(** What a library call hands back: on success the decoded value and the
    response, on failure the response and the error. *)
Inductive Reply (A : Type) : Type :=
| Success (a : A) (res : Response)
| Failure (res : Response) (err : Go.error).
Arguments Success {A} a res.
Arguments Failure {A} res err.

(** The services of [jira.Client] this program calls, over a remote world
    [W]. Each one is a single HTTP exchange with the server.
    [DoFields] is [Client.Do] decoding the field-metadata listing: of each
    element the program reads the name and schema.customId, and the reply
    carries those two. *)
Record Client (W : Type) := mkClient {
  ProjectGet : string -> W -> Reply Project * W;
  IssueSearch : string -> option SearchOptions -> W -> Reply (list Issue) * W;
  IssueGet : string -> W -> Reply Issue * W;
  IssueCreate : Issue -> W -> Reply Issue * W;
  IssueUpdate : Issue -> W -> Reply Issue * W;
  IssueAddComment : string -> Comment -> W -> Reply Comment * W;
  NewRequest : Method -> string -> option string -> Request + Go.error;
  Do : Request -> W -> Reply unit * W;
  DoFields : Request -> W -> Reply (list (string * Z)) * W
}.
Arguments ProjectGet {W}.
Arguments IssueSearch {W}.
Arguments IssueGet {W}.
Arguments IssueCreate {W}.
Arguments IssueUpdate {W}.
Arguments IssueAddComment {W}.
Arguments NewRequest {W}.
Arguments Do {W}.
Arguments DoFields {W}.

(** The HTTP exchanges a run performs, in order. *)
Inductive Call :=
| CProjectGet (key : string)
| CIssueSearch (jql : string) (opts : option SearchOptions)
| CIssueGet (key : string)
| CIssueCreate (issue : Issue)
| CIssueUpdate (issue : Issue)
| CIssueAddComment (issueID : string) (comment : Comment)
| CDo (req : Request).

(** An exchange that asks the server to change data. *)
Definition mutating (c : Call) : bool :=
  match c with
  | CIssueCreate _ | CIssueUpdate _ | CIssueAddComment _ _ => true
  | CDo req =>
      match Request.method req with GET => false | _ => true end
  | _ => false
  end.

End jira.

(* ===================================================================== *)
(** * The state a run threads                                             *)
(* ===================================================================== *)

Module proc.

(** The state behind a layer of the program: the world below it, the
    calls made into that world so far and the log written so far (both
    oldest first). For the clients the world is the remote one and the
    calls are HTTP exchanges; for the engine the world is the client's
    state and the calls are those of the JIRAClient interface. *)
Record St (W E : Type) := mkSt {
  world : W;
  calls : list E;
  logs : list logrus.Entry
}.
Arguments mkSt {W E}.
Arguments world {W E}.
Arguments calls {W E}.
Arguments logs {W E}.

Definition M (W E A : Type) : Type := St W E -> A * St W E.

Definition ret {W E A} (a : A) : M W E A := fun st => (a, st).

Definition bind {W E A B} (m : M W E A) (k : A -> M W E B) : M W E B :=
  fun st => let (a, st') := m st in k a st'.

(** A log call. *)
Definition log {W E} (e : logrus.Entry) : M W E unit :=
  fun st => (tt, mkSt (world st) (calls st) (logs st ++ [e])).

(** One call into the world below: recorded, then run. *)
Definition exchange {W E A} (c : E) (f : W -> A * W) : M W E A :=
  fun st =>
    let (a, w') := f (world st) in
    (a, mkSt w' (calls st ++ [c]) (logs st)).

(** A step of the world below that is not a call of the recorded kind. *)
Definition lift {W E A} (f : W -> A * W) : M W E A :=
  fun st =>
    let (a, w') := f (world st) in
    (a, mkSt w' (calls st) (logs st)).

(** A value read off the world below. *)
Definition gets {W E A} (f : W -> A) : M W E A :=
  fun st => (f (world st), st).

End proc.

Declare Scope proc_scope.
Delimit Scope proc_scope with proc.
Notation "'let*' x ':=' m 'in' k" := (proc.bind m (fun x => k))
  (at level 10, x pattern, m at level 100, k at level 200) : proc_scope.
Notation "m ';;' k" := (proc.bind m (fun _ => k))
  (at level 100, k at level 200, right associativity) : proc_scope.

Local Open Scope proc_scope.

(* ===================================================================== *)
(** * go-github data types and the GitHub client interface                *)
(* ===================================================================== *)

Module github.

(** The fields of go-github's structs are pointers read through their
    [Get...] accessors or dereferenced; GitHub sets every one the program
    dereferences, and the model keeps the values ([Get...] of an unset
    text field is the empty string). *)
Module User.
Record t := mk { Login : string; Name : string; HTMLURL : string }.
End User.
Definition User := User.t.

Module Label.
Record t := mk { Name : string }.
End Label.
Definition Label := Label.t.

Module Issue.
Record t := mk {
  ID : Z;
  Number : Z;
  Title : string;
  Body : string;
  State : string;
  User : User;
  Labels : list Label
}.
End Issue.
Definition Issue := Issue.t.

Module IssueComment.
Record t := mk {
  ID : Z;
  HTMLURL : string;
  User : User;
  CreatedAt : time.Time;
  Body : string
}.
End IssueComment.
Definition IssueComment := IssueComment.t.

End github.

Module ghClient.

(** The methods of the [GitHubClient] interface (pkg/github) that the
    JIRA clients and the engine call, over the remote world. *)
Record GitHubClient (W : Type) := mk {
  GetUser : string -> W -> (github.User + Go.error) * W;
  GetMembers : string -> W -> (list github.User + Go.error) * W;
  SearchIssues : string -> W -> (list github.Issue + Go.error) * W
}.
Arguments GetUser {W}.
Arguments GetMembers {W}.
Arguments SearchIssues {W}.

End ghClient.

(* ===================================================================== *)
(** * pkg/config                                                          *)
(* ===================================================================== *)

Module config.

Module Organisation.
Record t := mk { Name : string; Repos : list string }.
End Organisation.
Definition Organisation := Organisation.t.

(** dateFormat is the format used for the `since` configuration
    parameter. *)
Definition dateFormat : string := "2006-01-02T15:04:05-0700".

(** jiraField: field metadata in JIRA; [Name] and [Schema.CustomID] are
    the members the program reads. *)
Record jiraField := mkJiraField {
  Name : string;
  Schema_CustomID : Z
}.

(** fields represents the custom field IDs of the JIRA custom fields we
    care about. *)
Record fields := mkFields {
  githubID : string;
  githubNumber : string;
  githubLabels : string;
  githubReporter : string;
  githubStatus : string;
  lastUpdate : string;
  githubURI : string
}.

(** fieldKey is an enum-like type to represent the customfield ID keys. *)
Inductive fieldKey :=
| GitHubID | GitHubNumber | GitHubLabels | GitHubStatus
| GitHubReporter | LastISUpdate | GitHubURI.

(** Config: its fields, and the Viper settings that the clients and the
    engine read through its accessors. [repos] is what
    [cmdConfig.Unmarshal] makes of the settings for GetRepos: the decoded
    `repos` list, or the error of the decoding. *)
Record Config := mkConfig {
  fieldIDs : fields;
  project : jira.Project;
  since : time.Time;
  basicAuth : bool;
  jira_project : string;
  dry_run : bool;
  repos : list Organisation + Go.error;
  github_user_source_org : string
}.

Definition IsDryRun (c : Config) : bool := dry_run c.
Definition GetSinceParam (c : Config) : time.Time := since c.
Definition GetProject (c : Config) : jira.Project := project c.
Definition GetProjectKey (c : Config) : string := jira.Project.Key (project c).
(** GetRepos decodes the settings and returns their `repos` list; an
    error of the decoding ends in [panic(err)]. *)
Definition GetRepos (c : Config) : Go.Res (list Organisation) :=
  match repos c with
  | inl orgs => Go.Ok orgs
  | inr err => Go.Panic err
  end.
Definition GetSourceOrganisation (c : Config) : string :=
  github_user_source_org c.

Definition zeroFields : fields := mkFields "" "" "" "" "" "" "".

(** The body of the loop of getFieldIDs: the switch on [field.Name]. *)
Definition recordField (fieldIDs : fields) (field : jiraField) : fields :=
  let id := Go.itoa (Schema_CustomID field) in
  let '(mkFields gid gnum glab grep gstat upd guri) := fieldIDs in
  if String.eqb (Name field) "GitHub ID" then
    mkFields id gnum glab grep gstat upd guri
  else if String.eqb (Name field) "GitHub Number" then
    mkFields gid id glab grep gstat upd guri
  else if String.eqb (Name field) "GitHub Labels" then
    mkFields gid gnum id grep gstat upd guri
  else if String.eqb (Name field) "GitHub Status" then
    mkFields gid gnum glab grep id upd guri
  else if String.eqb (Name field) "GitHub Reporter" then
    mkFields gid gnum glab id gstat upd guri
  else if String.eqb (Name field) "Last Issue-Sync Update" then
    mkFields gid gnum glab grep gstat id guri
  else if String.eqb (Name field) "GitHub URI" then
    mkFields gid gnum glab grep gstat upd id
  else fieldIDs.

Definition notFound (name : string) : Go.error :=
  "could not find ID of '" +:+ name
    +:+ "' custom field; check that it is named correctly".

(** The chain of checks that ends getFieldIDs, guard by guard. *)
Definition checkFields (fieldIDs : fields) : option Go.error :=
  if String.eqb (githubID fieldIDs) "" then
    Some (notFound "GitHub ID")
  else if String.eqb (githubNumber fieldIDs) "" then
    Some (notFound "GitHub Number")
  else if String.eqb (githubLabels fieldIDs) "" then
    Some (notFound "Github Labels")
  else if String.eqb (githubStatus fieldIDs) "" then
    Some (notFound "Github Status")
  else if String.eqb (githubReporter fieldIDs) "" then
    Some (notFound "Github Reporter")
  else if String.eqb (lastUpdate fieldIDs) "" then
    Some (notFound "Last Issue-Sync Update")
  else if String.eqb (lastUpdate fieldIDs) "" then
    Some (notFound "GitHub URI")
  else None.

(** The field IDs collected from a metadata listing, and the error
    getFieldIDs returns with them. *)
Definition resolveFields (jFields : list jiraField)
  : fields * option Go.error :=
  let fieldIDs := fold_left recordField jFields zeroFields in
  (fieldIDs, checkFields fieldIDs).

Section Remote.
Context {W : Type}.

(** getFieldIDs requests the metadata of every issue field in the JIRA
    project, and saves the IDs of the custom fields used by issue-sync. *)
Definition getFieldIDs (c : Config) (client : jira.Client W)
  : proc.M W jira.Call (fields * option Go.error) :=
  proc.log (logrus.Debugf "Collecting field IDs." []);;
  match jira.NewRequest client jira.GET "/rest/api/2/field" None with
  | inr err => proc.ret (zeroFields, Some err)
  | inl req =>
      let* r := proc.exchange (jira.CDo req) (jira.DoFields client req) in
      match r with
      | jira.Failure _ err => proc.ret (zeroFields, Some err)
      | jira.Success jFields _ =>
          let '(fieldIDs, err) :=
            resolveFields (List.map (fun p => mkJiraField p.1 p.2) jFields) in
          match err with
          | Some e => proc.ret (fieldIDs, Some e)
          | None =>
              proc.log (logrus.Debugf "All fields have been checked." []);;
              proc.ret (fieldIDs, None)
          end
      end
  end.

Definition withProject (c : Config) (p : jira.Project) : Config :=
  mkConfig (fieldIDs c) p (since c) (basicAuth c) (jira_project c)
    (dry_run c) (repos c) (github_user_source_org c).

Definition withFieldIDs (c : Config) (f : fields) : Config :=
  mkConfig f (project c) (since c) (basicAuth c) (jira_project c)
    (dry_run c) (repos c) (github_user_source_org c).

(** LoadJIRAConfig loads the JIRA configuration (project key, custom
    field IDs) from a remote JIRA server. The receiver is a pointer: the
    updated configuration is returned beside the error. *)
Definition LoadJIRAConfig (c : Config) (client : jira.Client W)
  : proc.M W jira.Call (Config * option Go.error) :=
  let* r := proc.exchange (jira.CProjectGet (jira_project c))
              (jira.ProjectGet client (jira_project c)) in
  match r with
  | jira.Failure res err =>
      proc.log (logrus.Errorf
        "Error retrieving JIRA project; check key and credentials. Error: %v"
        [logrus.AStr err]);;
      match jira.Response.Body res with
      | inr err' =>
          proc.log (logrus.Errorf
            "Error occured trying to read error body: %v" [logrus.AStr err']);;
          proc.ret (c, Some err')
      | inl body =>
          proc.log (logrus.Debugf "Error body: %s" [logrus.AStr body]);;
          proc.ret (c, Some body)
      end
  | jira.Success proj _ =>
      let c := withProject c proj in
      let* r := getFieldIDs c client in
      let c := withFieldIDs c r.1 in
      proc.ret (c, r.2)
  end.

End Remote.

(** GetFieldID returns the customfield ID of a JIRA custom field. *)
Definition GetFieldID (c : Config) (key : fieldKey) : string :=
  match key with
  | GitHubID => githubID (fieldIDs c)
  | GitHubNumber => githubNumber (fieldIDs c)
  | GitHubLabels => githubLabels (fieldIDs c)
  | GitHubReporter => githubReporter (fieldIDs c)
  | GitHubStatus => githubStatus (fieldIDs c)
  | LastISUpdate => lastUpdate (fieldIDs c)
  | GitHubURI => githubURI (fieldIDs c)
  end.

(** GetFieldKey returns customfield_XXXXX, where XXXXX is the custom
    field ID (see GetFieldID). *)
Definition GetFieldKey (c : Config) (key : fieldKey) : string :=
  "customfield_" +:+ GetFieldID c key.

End config.

(* ===================================================================== *)
(** * cenkalti/backoff as the clients use it                              *)
(* ===================================================================== *)

Module backoff.

(** An [ExponentialBackOff] whose [MaxElapsedTime] is the configured
    timeout: [schedule w] lists the waits (in nanoseconds) that
    [NextBackOff] grants, before it answers [Stop], to a request begun in
    world [w]; [Sleep] lets that time pass. *)
Record BackOff (W : Type) := mk {
  schedule : W -> list Z;
  Sleep : Z -> W -> W
}.
Arguments schedule {W}.
Arguments Sleep {W}.

End backoff.

(* ===================================================================== *)
(** * pkg/jira: the JIRA clients                                          *)
(* ===================================================================== *)

Module jiraclient.

(** commentDateFormat is the format used in the headers of JIRA
    comments. *)
Definition commentDateFormat : string := "15:04 PM, January 2 2006".

(** maxJQLIssueLength is the maximum number of GitHub issues we can use
    before we need to stop using JQL and filter issues ourself. *)
Definition maxJQLIssueLength : Z := 100.

(** maxBodyLength is the maximum length of a JIRA comment body. *)
Definition maxBodyLength : Z := Z.shiftl 1 15.

(** Modelled from the spec: RetryBackoffRoundRatio, a constant of
    pkg/github. The wait shown to the operator is "rounded to whole
    milliseconds", so the ratio is that of a millisecond to a
    nanosecond. *)
Definition RetryBackoffRoundRatio : Z := 1000000.

Definition nl : string := String (ascii_of_nat 10) EmptyString.
Definition cr : string := String (ascii_of_nat 13) EmptyString.

(** JIRAClient is a wrapper around the JIRA API clients library we use.
    The interface as the engine sees it, over any client state [S]; a
    method yields its value or its error. *)
Record JIRAClient (S : Type) := mkJIRAClient {
  ListIssues : list Z -> S -> (list jira.Issue + Go.error) * S;
  GetIssue : string -> S -> (jira.Issue + Go.error) * S;
  CreateIssue : jira.Issue -> S -> (jira.Issue + Go.error) * S;
  UpdateIssue : jira.Issue -> S -> (jira.Issue + Go.error) * S;
  CreateComment : jira.Issue -> github.IssueComment -> S
                  -> (jira.Comment + Go.error) * S;
  UpdateComment : jira.Issue -> string -> github.IssueComment -> S
                  -> (jira.Comment + Go.error) * S
}.
Arguments ListIssues {S}.
Arguments GetIssue {S}.
Arguments CreateIssue {S}.
Arguments UpdateIssue {S}.
Arguments CreateComment {S}.
Arguments UpdateComment {S}.

(** The dynamic values ([interface{}]) the request closures return. *)
Inductive Any :=
| ANil
| AIssues (l : list jira.Issue)
| AIssue (i : jira.Issue)
| AComment (c : jira.Comment).

(** The verb [%T]. *)
Definition typeName (a : Any) : string :=
  match a with
  | ANil => "<nil>"
  | AIssues _ => "[]jira.Issue"
  | AIssue _ => "*jira.Issue"
  | AComment _ => "*jira.Comment"
  end.

Definition wrap {W A} (inj : A -> Any) (f : W -> jira.Reply A * W)
  : W -> jira.Reply Any * W :=
  fun w =>
    match f w with
    | (jira.Success a res, w') => (jira.Success (inj a) res, w')
    | (jira.Failure res err, w') => (jira.Failure res err, w')
    end.

(** newlineReplaceRegex.ReplaceAllString(s, "\\n"): every "\r\n" and
    every "\n" becomes a backslash followed by the letter n. *)
Fixpoint replaceNewlines (s : string) : string :=
  match s with
  | EmptyString => EmptyString
  | String c rest =>
      if Ascii.eqb c (ascii_of_nat 10) then "\n" +:+ replaceNewlines rest
      else if Ascii.eqb c (ascii_of_nat 13) then
        match rest with
        | String c' rest' =>
            if Ascii.eqb c' (ascii_of_nat 10)
            then "\n" +:+ replaceNewlines rest'
            else String c (replaceNewlines rest)
        | EmptyString => String c EmptyString
        end
      else String c (replaceNewlines rest)
  end.

(** truncate is a utility function to replace all the newlines in the
    string with the characters "\n", then truncate it to no more than
    [length] characters. *)
Definition truncate (s : string) (length : Z) : string :=
  if String.eqb s "" then "empty"
  else
    let s := replaceNewlines s in
    if (Go.len s <=? length)%Z then s
    else substring 0 (Z.to_nat length) s +:+ "...".

(** The query ListIssues sends (the same text in both clients). *)
Definition listJQL (c : config.Config) (ids : list Z) : string :=
  let idStrs := List.map Go.itoa ids in
  if (Z.of_nat (length ids) <? maxJQLIssueLength)%Z then
    "project='" +:+ config.GetProjectKey c +:+ "' AND cf["
      +:+ config.GetFieldID c config.GitHubID +:+ "] in ("
      +:+ Go.Join idStrs "," +:+ ")"
  else "project='" +:+ config.GetProjectKey c +:+ "'".

(** The test of the client-side filter (the same text in both clients):
    the issue has a defined GitHub ID and that ID is in the list of IDs. *)
Definition hasListedID (c : config.Config) (ids : list Z) (v : jira.Issue)
  : bool :=
  let ghIDFieldKey := config.GetFieldKey c config.GitHubID in
  let unknowns := jira.IssueFields.Unknowns (jira.Issue.Fields v) in
  match (tcontainer.Value_ unknowns ghIDFieldKey).1 with
  | tcontainer.VNull => false
  | _ =>
      match tcontainer.Int unknowns ghIDFieldKey with
      | (id, None) => existsb (fun idOpt => (id =? idOpt)%Z) ids
      | (_, Some _) => false
      end
  end.

Definition filterIssues (c : config.Config) (ids : list Z)
  (jiraIssues : list jira.Issue) : list jira.Issue :=
  if (Z.of_nat (length ids) <? maxJQLIssueLength)%Z then jiraIssues
  else List.filter (hasListedID c ids) jiraIssues.

Section Shared.
Context {W : Type}.
Variable bo : backoff.BackOff W.

(** getErrorBody reads the HTTP response body of a JIRA API response,
    logs it as an error, and returns an error object with the contents of
    the body. If an error occurs during reading, that error is instead
    printed and returned. *)
Definition getErrorBody (res : jira.Response) : proc.M W jira.Call Go.error :=
  match jira.Response.Body res with
  | inr err =>
      proc.log (logrus.Errorf
        "Error occured trying to read error body: %v" [logrus.AStr err]);;
      proc.ret err
  | inl body =>
      proc.log (logrus.Debugf "Error body: %s" [logrus.AStr body]);;
      proc.ret body
  end.

(** [backoff.RetryNotify]: run the operation; on an error ask the policy
    for the next wait, tell the observer, sleep and run it again; when
    the policy stops, hand back the last outcome. *)
Fixpoint RetryNotify {A} (what : string) (op : proc.M W jira.Call (jira.Reply A))
  (waits : list Z) : proc.M W jira.Call (jira.Reply A) :=
  let* r := op in
  match r with
  | jira.Success _ _ => proc.ret r
  | jira.Failure _ err =>
      match waits with
      | [] => proc.ret r
      | next :: waits' =>
          let duration :=
            (Z.quot next RetryBackoffRoundRatio * RetryBackoffRoundRatio)%Z in
          proc.log (logrus.Errorf
            ("unable to complete " +:+ what +:+ " request; retrying in %v: %v")
            [logrus.AInt duration; logrus.AStr err]);;
          proc.lift (fun w => (tt, backoff.Sleep bo next w));;
          RetryNotify what op waits'
      end
  end.

(** request takes an API function from the JIRA library and calls it with
    exponential backoff. ([what] is the word by which the two clients'
    copies of this function differ in their retry message.) *)
Definition request (what : string) (f : proc.M W jira.Call (jira.Reply Any))
  : proc.M W jira.Call (jira.Reply Any) :=
  fun st => RetryNotify what f (backoff.schedule bo (proc.world st)) st.

End Shared.

(** ** realJIRAClient *)

Module real.
Section Methods.
Context {W : Type}.
Variable bo : backoff.BackOff W.
Variable github : ghClient.GitHubClient W.

(** realJIRAClient is a standard JIRA clients, which actually makes of
    the requests against the JIRA REST API. *)
Record realJIRAClient := mk {
  cfg : config.Config;
  client : jira.Client W
}.

Definition maxResults : Z := 50.

(** The loop of getIssues from [page] on, with [totalResults] as last
    reported and [issues] as gathered so far; [fuel] bounds the number of
    pages, and [None] tells that it ran out. *)
Fixpoint getIssuesFrom (j : realJIRAClient) (fuel : nat) (jql : string)
  (page totalResults : Z) (issues : list jira.Issue)
  : proc.M W jira.Call (option (list jira.Issue + Go.error)) :=
  if (page * maxResults <? totalResults)%Z then
    match fuel with
    | O => proc.ret None
    | S fuel' =>
        let opts := jira.SearchOptions.mk (maxResults * page) maxResults in
        let* r := request bo "jira"
          (proc.exchange (jira.CIssueSearch jql (Some opts))
             (wrap AIssues (jira.IssueSearch (client j) jql (Some opts)))) in
        match r with
        | jira.Failure res err =>
            proc.log (logrus.Errorf "Error retrieving JIRA issues: %v"
                        [logrus.AStr err]);;
            let* e := getErrorBody res in
            proc.ret (Some (inr e))
        | jira.Success ji res =>
            let totalResults := jira.Response.Total res in
            match ji with
            | AIssues jiraIssues =>
                getIssuesFrom j fuel' jql (page + 1) totalResults
                  (issues ++ jiraIssues)
            | _ =>
                proc.log (logrus.Errorf
                  "Get JIRA issues did not return issues! Got: %v"
                  [logrus.AStr (typeName ji)]);;
                proc.ret (Some (inr
                  ("get JIRA issues failed: expected []jira.Issue; got "
                     +:+ typeName ji)))
            end
        end
    end
  else proc.ret (Some (inl issues)).

Definition getIssues (j : realJIRAClient) (fuel : nat) (jql : string)
  : proc.M W jira.Call (option (list jira.Issue + Go.error)) :=
  getIssuesFrom j fuel jql 0 1 [].

(** ListIssues returns a list of JIRA issues on the configured project
    which have GitHub IDs in the provided list. *)
Definition ListIssues (j : realJIRAClient) (fuel : nat) (ids : list Z)
  : proc.M W jira.Call (option (list jira.Issue + Go.error)) :=
  let jql := listJQL (cfg j) ids in
  let* r := getIssues j fuel jql in
  match r with
  | None => proc.ret None
  | Some (inr err) => proc.ret (Some (inr err))
  | Some (inl jiraIssues) =>
      proc.ret (Some (inl (filterIssues (cfg j) ids jiraIssues)))
  end.

(** GetIssue returns a single JIRA issue within the configured project
    according to the issue key (e.g. "PROJ-13"). *)
Definition GetIssue (j : realJIRAClient) (key : string)
  : proc.M W jira.Call (jira.Issue + Go.error) :=
  let* r := request bo "jira"
    (proc.exchange (jira.CIssueGet key)
       (wrap AIssue (jira.IssueGet (client j) key))) in
  match r with
  | jira.Failure res err =>
      proc.log (logrus.Errorf "Error retrieving JIRA issue: %v"
                  [logrus.AStr err]);;
      let* e := getErrorBody res in
      proc.ret (inr e)
  | jira.Success (AIssue issue) _ => proc.ret (inl issue)
  | jira.Success i _ =>
      proc.log (logrus.Errorf "Get JIRA issue did not return issue! Got %v"
                  [logrus.AStr (typeName i)]);;
      proc.ret (inr ("Get JIRA issue failed: expected *jira.Issue; got "
                       +:+ typeName i))
  end.

(** CreateIssue creates a new JIRA issue according to the fields provided
    in the provided issue object. It returns the created issue. *)
Definition CreateIssue (j : realJIRAClient) (issue : jira.Issue)
  : proc.M W jira.Call (jira.Issue + Go.error) :=
  let* r := request bo "jira"
    (proc.exchange (jira.CIssueCreate issue)
       (wrap AIssue (jira.IssueCreate (client j) issue))) in
  match r with
  | jira.Failure res err =>
      proc.log (logrus.Errorf "Error creating JIRA issue: %v"
                  [logrus.AStr err]);;
      let* e := getErrorBody res in
      proc.ret (inr e)
  | jira.Success (AIssue is_) _ => proc.ret (inl is_)
  | jira.Success i _ =>
      proc.log (logrus.Errorf
        "Create JIRA issue did not return issue! Got: %v"
        [logrus.AStr (typeName i)]);;
      proc.ret (inr ("Create JIRA issue failed: expected *jira.Issue; got "
                       +:+ typeName i))
  end.

(** UpdateIssue updates a given issue (identified by the Key field of the
    provided issue object) with the fields on the provided issue. It
    returns the updated issue as it exists on JIRA. *)
Definition UpdateIssue (j : realJIRAClient) (issue : jira.Issue)
  : proc.M W jira.Call (jira.Issue + Go.error) :=
  let* r := request bo "jira"
    (proc.exchange (jira.CIssueUpdate issue)
       (wrap AIssue (jira.IssueUpdate (client j) issue))) in
  match r with
  | jira.Failure res err =>
      proc.log (logrus.Errorf "Error updating JIRA issue %s: %v"
                  [logrus.AStr (jira.Issue.Key issue); logrus.AStr err]);;
      let* e := getErrorBody res in
      proc.ret (inr e)
  | jira.Success (AIssue is_) _ => proc.ret (inl is_)
  | jira.Success i _ =>
      proc.log (logrus.Errorf
        "Update JIRA issue did not return issue! Got: %v"
        [logrus.AStr (typeName i)]);;
      proc.ret (inr ("Update JIRA issue failed: expected *jira.Issue; got "
                       +:+ typeName i))
  end.

(** The attribution header followed by the original comment body, as
    CreateComment and UpdateComment both compose it (four Sprintf calls,
    the third only for a user with a display name). *)
Definition composeBody (comment : github.IssueComment) (user : github.User)
  : string :=
  let body := "Comment [(ID " +:+ Go.itoa (github.IssueComment.ID comment)
                +:+ ")|" +:+ github.IssueComment.HTMLURL comment +:+ "]" in
  let body := body +:+ " from GitHub user [" +:+ github.User.Login user
                +:+ "|" +:+ github.User.HTMLURL user +:+ "]" in
  let body := if negb (String.eqb (github.User.Name user) "")
              then body +:+ " (" +:+ github.User.Name user +:+ ")"
              else body in
  body +:+ " at "
    +:+ time.Format (github.IssueComment.CreatedAt comment) commentDateFormat
    +:+ ":" +:+ nl +:+ nl +:+ github.IssueComment.Body comment.

(** The length cap of CreateComment:
    [if len(body) >= maxBodyLength { body = body[:maxBodyLength] }]. *)
Definition capCreate (body : string) : Go.Res string :=
  if (Go.len body >=? maxBodyLength)%Z
  then Go.slice_to body maxBodyLength
  else Go.Ok body.

(** The same step as UpdateComment has it:
    [if len(body) < maxBodyLength { body = body[:maxBodyLength] }]. *)
Definition capUpdate (body : string) : Go.Res string :=
  if (Go.len body <? maxBodyLength)%Z
  then Go.slice_to body maxBodyLength
  else Go.Ok body.

(** CreateComment adds a comment to the provided JIRA issue using the
    fields from the provided GitHub comment. It then returns the created
    comment. *)
Definition CreateComment (j : realJIRAClient) (issue : jira.Issue)
  (comment : github.IssueComment) : proc.M W jira.Call (Go.Res jira.Comment) :=
  let* u := proc.lift (ghClient.GetUser github
              (github.User.Login (github.IssueComment.User comment))) in
  match u with
  | inr err => proc.ret (Go.Err err)
  | inl user =>
      match capCreate (composeBody comment user) with
      | Go.Panic v => proc.ret (Go.Panic v)
      | Go.Err e => proc.ret (Go.Err e)
      | Go.Ok body =>
          let jComment := jira.Comment.mk "" body in
          let* r := request bo "jira"
            (proc.exchange
               (jira.CIssueAddComment (jira.Issue.ID issue) jComment)
               (wrap AComment
                  (jira.IssueAddComment (client j) (jira.Issue.ID issue)
                     jComment))) in
          match r with
          | jira.Failure res err =>
              proc.log (logrus.Errorf
                "Error creating JIRA comment on issue %s. Error: %v"
                [logrus.AStr (jira.Issue.Key issue); logrus.AStr err]);;
              let* e := getErrorBody res in
              proc.ret (Go.Err e)
          | jira.Success (AComment co) _ => proc.ret (Go.Ok co)
          | jira.Success com _ =>
              proc.log (logrus.Errorf
                "Create JIRA comment did not return comment! Got: %v"
                [logrus.AStr (typeName com)]);;
              proc.ret (Go.Err
                ("Create JIRA comment failed: expected *jira.Comment; got "
                   +:+ typeName com))
          end
      end
  end.

(** UpdateComment updates a comment (identified by the `id` parameter) on
    a given JIRA with a new body from the fields of the given GitHub
    comment. The request is built by hand; its JSON object has the one
    member [body], which the model's request carries. The closure handed
    to [request] returns a nil value beside the response. *)
Definition UpdateComment (j : realJIRAClient) (issue : jira.Issue)
  (id : string) (comment : github.IssueComment)
  : proc.M W jira.Call (Go.Res jira.Comment) :=
  let* u := proc.lift (ghClient.GetUser github
              (github.User.Login (github.IssueComment.User comment))) in
  match u with
  | inr err => proc.ret (Go.Err err)
  | inl user =>
      match capUpdate (composeBody comment user) with
      | Go.Panic v => proc.ret (Go.Panic v)
      | Go.Err e => proc.ret (Go.Err e)
      | Go.Ok body =>
          match jira.NewRequest (client j) jira.PUT
                  ("rest/api/2/issue/" +:+ jira.Issue.Key issue
                     +:+ "/comment/" +:+ id) (Some body) with
          | inr err =>
              proc.log (logrus.Errorf
                "Error creating comment update request: %s"
                [logrus.AStr err]);;
              proc.ret (Go.Err err)
          | inl req =>
              let* r := request bo "jira"
                (proc.exchange (jira.CDo req)
                   (wrap (fun _ : unit => ANil)
                      (jira.Do (client j) req))) in
              match r with
              | jira.Failure res err =>
                  proc.log (logrus.Errorf "Error updating comment: %v"
                              [logrus.AStr err]);;
                  let* e := getErrorBody res in
                  proc.ret (Go.Err e)
              | jira.Success (AComment co) _ => proc.ret (Go.Ok co)
              | jira.Success com _ =>
                  proc.log (logrus.Errorf
                    "Update JIRA comment did not return comment! Got: %v"
                    [logrus.AStr (typeName com)]);;
                  proc.ret (Go.Err
                    ("Update JIRA comment failed: expected *jira.Comment; got "
                       +:+ typeName com))
              end
          end
      end
  end.

End Methods.
End real.

(** ** dryrunJIRAClient *)

Module dryrun.
Section Methods.
Context {W : Type}.
Variable bo : backoff.BackOff W.
Variable github : ghClient.GitHubClient W.

(** dryrunJIRAClient is an implementation of JIRAClient which performs
    all GET requests the same as the realJIRAClient, but does not perform
    any unsafe requests which may modify server data, instead printing
    out the actions it is asked to perform without making the request. *)
Record dryrunJIRAClient := mk {
  cfg : config.Config;
  client : jira.Client W
}.

(** ListIssues: one search, sent without paging options. *)
Definition ListIssues (j : dryrunJIRAClient) (ids : list Z)
  : proc.M W jira.Call (list jira.Issue + Go.error) :=
  let jql := listJQL (cfg j) ids in
  let* r := request bo "dryrun"
    (proc.exchange (jira.CIssueSearch jql None)
       (wrap AIssues (jira.IssueSearch (client j) jql None))) in
  match r with
  | jira.Failure res err =>
      proc.log (logrus.Errorf "Error retrieving JIRA issues: %v"
                  [logrus.AStr err]);;
      let* e := getErrorBody res in
      proc.ret (inr e)
  | jira.Success (AIssues jiraIssues) _ =>
      proc.ret (inl (filterIssues (cfg j) ids jiraIssues))
  | jira.Success ji _ =>
      proc.log (logrus.Errorf
        "Get JIRA issues did not return issues! Got: %v"
        [logrus.AStr (typeName ji)]);;
      proc.ret (inr ("get JIRA issues failed: expected []jira.Issue; got "
                       +:+ typeName ji))
  end.

(** GetIssue: identical to that in realJIRAClient. *)
Definition GetIssue (j : dryrunJIRAClient) (key : string)
  : proc.M W jira.Call (jira.Issue + Go.error) :=
  let* r := request bo "dryrun"
    (proc.exchange (jira.CIssueGet key)
       (wrap AIssue (jira.IssueGet (client j) key))) in
  match r with
  | jira.Failure res err =>
      proc.log (logrus.Errorf "Error retrieving JIRA issue: %v"
                  [logrus.AStr err]);;
      let* e := getErrorBody res in
      proc.ret (inr e)
  | jira.Success (AIssue issue) _ => proc.ret (inl issue)
  | jira.Success i _ =>
      proc.log (logrus.Errorf "Get JIRA issue did not return issue! Got %v"
                  [logrus.AStr (typeName i)]);;
      proc.ret (inr ("Get JIRA issue failed: expected *jira.Issue; got "
                       +:+ typeName i))
  end.

Definition unknown (j : dryrunJIRAClient) (fields : jira.IssueFields)
  (key : config.fieldKey) : logrus.Arg :=
  logrus.AVal (jira.IssueFields.Unknowns fields
                 !! config.GetFieldKey (cfg j) key).

(** CreateIssue prints out the fields that would be set on a new issue
    were it to be created according to the provided issue object. It
    returns the provided issue object as-is. *)
Definition CreateIssue (j : dryrunJIRAClient) (issue : jira.Issue)
  : proc.M W jira.Call (jira.Issue + Go.error) :=
  let fields := jira.Issue.Fields issue in
  proc.log (logrus.Infof "" []);;
  proc.log (logrus.Infof "Create new JIRA issue:" []);;
  proc.log (logrus.Infof "  Summary: %s"
              [logrus.AStr (jira.IssueFields.Summary fields)]);;
  proc.log (logrus.Infof "  Description: %s"
              [logrus.AStr (truncate (jira.IssueFields.Description fields) 50)]);;
  proc.log (logrus.Infof "  GitHub ID: %d" [unknown j fields config.GitHubID]);;
  proc.log (logrus.Infof "  GitHub Number: %d"
              [unknown j fields config.GitHubNumber]);;
  proc.log (logrus.Infof "  Labels: %s" [unknown j fields config.GitHubLabels]);;
  proc.log (logrus.Infof "  State: %s" [unknown j fields config.GitHubStatus]);;
  proc.log (logrus.Infof "  Reporter: %s"
              [unknown j fields config.GitHubReporter]);;
  proc.log (logrus.Infof "" []);;
  proc.ret (inl issue).

(** A line of UpdateIssue printed only when the field holds a string. *)
Definition logIfString (j : dryrunJIRAClient) (fields : jira.IssueFields)
  (key : config.fieldKey) (format : string) : proc.M W jira.Call unit :=
  match tcontainer.String_ (jira.IssueFields.Unknowns fields)
          (config.GetFieldKey (cfg j) key) with
  | (s, None) => proc.log (logrus.Infof format [logrus.AStr s])
  | (_, Some _) => proc.ret tt
  end.

(** UpdateIssue prints out the fields that would be set on a JIRA issue
    (identified by issue.Key) were it to be updated according to the
    issue object. It then returns the provided issue object as-is. *)
Definition UpdateIssue (j : dryrunJIRAClient) (issue : jira.Issue)
  : proc.M W jira.Call (jira.Issue + Go.error) :=
  let fields := jira.Issue.Fields issue in
  proc.log (logrus.Infof "" []);;
  proc.log (logrus.Infof "Update JIRA issue %s:"
              [logrus.AStr (jira.Issue.Key issue)]);;
  proc.log (logrus.Infof "  Summary: %s"
              [logrus.AStr (jira.IssueFields.Summary fields)]);;
  proc.log (logrus.Infof "  Description: %s"
              [logrus.AStr (truncate (jira.IssueFields.Description fields) 50)]);;
  logIfString j fields config.GitHubLabels "  Labels: %s";;
  logIfString j fields config.GitHubStatus "  State: %s";;
  proc.log (logrus.Infof "" []);;
  proc.ret (inl issue).

(** The body the dry-run client composes for a comment. *)
Definition composeBody (comment : github.IssueComment) (user : github.User)
  : string :=
  let body := "Comment (ID " +:+ Go.itoa (github.IssueComment.ID comment)
                +:+ ") from GitHub user " +:+ github.User.Login user in
  let body := if negb (String.eqb (github.User.Name user) "")
              then body +:+ " (" +:+ github.User.Name user +:+ ")"
              else body in
  body +:+ " at "
    +:+ time.Format (github.IssueComment.CreatedAt comment) commentDateFormat
    +:+ ":" +:+ nl +:+ nl +:+ github.IssueComment.Body comment.

(** The lines both comment methods print after their heading. *)
Definition logComment (comment : github.IssueComment) (user : github.User)
  : proc.M W jira.Call unit :=
  proc.log (logrus.Infof "  GitHub ID: %d"
              [logrus.AInt (github.IssueComment.ID comment)]);;
  (if negb (String.eqb (github.User.Name user) "")
   then proc.log (logrus.Infof "  User: %s (%s)"
          [logrus.AStr (github.User.Login user);
           logrus.AStr (github.User.Name user)])
   else proc.log (logrus.Infof "  User: %s"
          [logrus.AStr (github.User.Login user)]));;
  proc.log (logrus.Infof "  Posted at: %s"
    [logrus.AStr (time.Format (github.IssueComment.CreatedAt comment)
                    commentDateFormat)]);;
  proc.log (logrus.Infof "  Body: %s"
    [logrus.AStr (truncate (github.IssueComment.Body comment) 100)]);;
  proc.log (logrus.Infof "" []).

(** CreateComment prints the body that would be set on a new comment if
    it were to be created according to the fields of the provided GitHub
    comment. It then returns a comment object containing the body that
    would be used. *)
Definition CreateComment (j : dryrunJIRAClient) (issue : jira.Issue)
  (comment : github.IssueComment) : proc.M W jira.Call (Go.Res jira.Comment) :=
  let* u := proc.lift (ghClient.GetUser github
              (github.User.Login (github.IssueComment.User comment))) in
  match u with
  | inr err => proc.ret (Go.Err err)
  | inl user =>
      let body := composeBody comment user in
      proc.log (logrus.Infof "" []);;
      proc.log (logrus.Infof "Create comment on JIRA issue %s:"
                  [logrus.AStr (jira.Issue.Key issue)]);;
      logComment comment user;;
      proc.ret (Go.Ok (jira.Comment.mk "" body))
  end.

(** UpdateComment prints the body that would be set on a comment were it
    to be updated according to the provided GitHub comment. It then
    returns a comment object containing the body that would be used. *)
Definition UpdateComment (j : dryrunJIRAClient) (issue : jira.Issue)
  (id : string) (comment : github.IssueComment)
  : proc.M W jira.Call (Go.Res jira.Comment) :=
  let* u := proc.lift (ghClient.GetUser github
              (github.User.Login (github.IssueComment.User comment))) in
  match u with
  | inr err => proc.ret (Go.Err err)
  | inl user =>
      let body := composeBody comment user in
      proc.log (logrus.Infof "" []);;
      proc.log (logrus.Infof "Update JIRA comment %s on issue %s:"
                  [logrus.AStr id; logrus.AStr (jira.Issue.Key issue)]);;
      logComment comment user;;
      proc.ret (Go.Ok (jira.Comment.mk id body))
  end.

End Methods.
End dryrun.

(** ** NewJIRAClient *)

(** The two implementations of JIRAClient. *)
Inductive Impl (W : Type) :=
| Dryrun (j : @dryrun.dryrunJIRAClient W)
| Real (j : @real.realJIRAClient W).
Arguments Dryrun {W} j.
Arguments Real {W} j.

Section Construction.
Context {W : Type}.

(** The OAuth handshake (newJIRAHTTPClient) and [jira.NewClient] on the
    configured base URI: the error of the first, if any, and the client
    or the error of the second. *)
Variable newJIRAHTTPClient : config.Config -> option Go.error.
Variable jira_NewClient : config.Config -> jira.Client W + Go.error.

(** NewJIRAClient creates a new JIRAClient and configures it with the
    config object provided. [cfg] is a pointer: the configuration as
    LoadJIRAConfig left it is returned beside the client. The error that
    LoadJIRAConfig returns is dropped by the call statement. *)
Definition NewJIRAClient (cfg : config.Config)
  : proc.M W jira.Call (config.Config * (Impl W + Go.error)) :=
  let oauthErr :=
    if negb (config.basicAuth cfg) then newJIRAHTTPClient cfg else None in
  match oauthErr with
  | Some err =>
      proc.log (logrus.Errorf "Error getting OAuth config: %v"
                  [logrus.AStr err]);;
      proc.ret (cfg, inr err)
  | None =>
      match jira_NewClient cfg with
      | inr err =>
          proc.log (logrus.Errorf
            "Error initializing JIRA clients; check your base URI. Error: %v"
            [logrus.AStr err]);;
          proc.ret (cfg, inr err)
      | inl client =>
          proc.log (logrus.Debugf "JIRA clients initialized" []);;
          let* r := config.LoadJIRAConfig cfg client in
          let cfg := r.1 in
          if config.IsDryRun cfg
          then proc.ret (cfg, inl (Dryrun (dryrun.mk cfg client)))
          else proc.ret (cfg, inl (Real (real.mk cfg client)))
      end
  end.

End Construction.

End jiraclient.

(* ===================================================================== *)
(** * pkg/sync: the query builder and the comparison engine               *)
(* ===================================================================== *)

Module sync.

(** dateFormat is the format used for the Last IS Update field. *)
Definition dateFormat : string := "2006-01-02T15:04:05-0700".

(** ** The query builder *)

Definition buildSinceQuery (since : time.Time) : string :=
  "updated:>=" +:+ time.Format since "2006-01-02T15:04:05+07:00" +:+ " ".

Definition buildRepoQuery (org : config.Organisation) : string :=
  fold_left
    (fun q repo =>
       q +:+ ("repo:" +:+ config.Organisation.Name org +:+ "/" +:+ repo
                +:+ " "))
    (config.Organisation.Repos org) "".

Definition buildOrgQuery (orgs : list config.Organisation) : string :=
  fold_left
    (fun q org =>
       if (length (config.Organisation.Repos org) =? 0)%nat
       then q +:+ ("org:" +:+ config.Organisation.Name org +:+ " ")
       else q +:+ buildRepoQuery org)
    orgs "".

Section Query.
Context {W : Type}.
Variable gh : ghClient.GitHubClient W.

(** buildUserQuery: a failed membership lookup ends in [panic(err)]. *)
Definition buildUserQuery (cfg : config.Config) (w : W)
  : Go.Res string * W :=
  match ghClient.GetMembers gh (config.GetSourceOrganisation cfg) w with
  | (inr err, w') => (Go.Panic err, w')
  | (inl users, w') =>
      (Go.Ok (fold_left
                (fun q user =>
                   q +:+ ("involves:" +:+ github.User.Login user +:+ " "))
                users ""),
       w')
  end.

(** buildQuery has the one result [q]; a panic of buildUserQuery, and
    after it one of GetRepos, unwinds through it. *)
Definition buildQuery (cfg : config.Config) (w : W) : Go.Res string * W :=
  let q := "" in
  match buildUserQuery cfg w with
  | (Go.Ok u, w') =>
      let q := q +:+ u in
      match config.GetRepos cfg with
      | Go.Ok orgs =>
          let q := q +:+ buildOrgQuery orgs in
          let q := q +:+ buildSinceQuery (config.GetSinceParam cfg) in
          (Go.Ok q, w')
      | Go.Err e => (Go.Err e, w')
      | Go.Panic v => (Go.Panic v, w')
      end
  | (Go.Err e, w') => (Go.Err e, w')
  | (Go.Panic v, w') => (Go.Panic v, w')
  end.

Definition getGitHubIssues (cfg : config.Config) (w : W)
  : Go.Res (list github.Issue) * W :=
  match buildQuery cfg w with
  | (Go.Ok query, w') =>
      match ghClient.SearchIssues gh query w' with
      | (inl issues, w'') => (Go.Ok issues, w'')
      | (inr err, w'') => (Go.Err err, w'')
      end
  | (Go.Err e, w') => (Go.Err e, w')
  | (Go.Panic v, w') => (Go.Panic v, w')
  end.

End Query.

(** ** The engine *)

(** The calls the engine makes through the JIRAClient interface, and its
    call of CompareComments. *)
Inductive Invocation :=
| ListIssues (ids : list Z)
| GetIssue (key : string)
| CreateIssue_ (issue : jira.Issue)
| UpdateIssue_ (issue : jira.Issue)
| CompareComments_ (ghIssue : github.Issue) (jIssue : jira.Issue).

(** The comma join of the label names. *)
Definition labelNames (ghIssue : github.Issue) : list string :=
  List.map github.Label.Name (github.Issue.Labels ghIssue).

Definition isErr (err : option Go.error) : bool :=
  match err with Some _ => true | None => false end.

(** The value of [anyDifferent] when DidIssueChange returns, statement by
    statement. *)
Definition anyDifferent (cfg : config.Config) (ghIssue : github.Issue)
  (jIssue : jira.Issue) : bool :=
  let fields := jira.Issue.Fields jIssue in
  let unknowns := jira.IssueFields.Unknowns fields in
  let anyDifferent := false in
  let anyDifferent :=
    anyDifferent
    || negb (String.eqb (github.Issue.Title ghIssue)
                        (jira.IssueFields.Summary fields)) in
  let anyDifferent :=
    anyDifferent
    || negb (String.eqb (github.Issue.Body ghIssue)
                        (jira.IssueFields.Description fields)) in
  let key := config.GetFieldKey cfg config.GitHubStatus in
  let '(field, err) := tcontainer.String_ unknowns key in
  let anyDifferent :=
    if isErr err || negb (String.eqb (github.Issue.State ghIssue) field)
    then true else anyDifferent in
  let key := config.GetFieldKey cfg config.GitHubReporter in
  let '(field, err) := tcontainer.String_ unknowns key in
  let anyDifferent :=
    if isErr err
       || negb (String.eqb
                  (github.User.Login (github.Issue.User ghIssue)) field)
    then true else anyDifferent in
  let labels := labelNames ghIssue in
  let key := config.GetFieldKey cfg config.GitHubLabels in
  let '(field, err) := tcontainer.String_ unknowns key in
  let anyDifferent :=
    if isErr err && negb (String.eqb (Go.Join labels ",") field)
    then true else anyDifferent in
  anyDifferent.

Section Engine.
Context {S : Type}.
Variable jClient : jiraclient.JIRAClient S.

(** CompareComments, the comment reconciliation of this package, is a
    parameter of the engine here. It works through the two clients, so
    on the client state. *)
Variable CompareComments :
  config.Config -> github.Issue -> jira.Issue -> S -> option Go.error * S.

(** [time.Now()], read off the state below the engine. *)
Variable Now : S -> time.Time.

Abbreviation EM := (proc.M S Invocation).

(** DidIssueChange tests each of the relevant fields on the provided JIRA
    and GitHub issue and returns whether or not they differ. *)
Definition DidIssueChange (cfg : config.Config) (ghIssue : github.Issue)
  (jIssue : jira.Issue) : EM bool :=
  proc.log (logrus.Debugf "Comparing GitHub issue #%d and JIRA issue %s"
              [logrus.AInt (github.Issue.Number ghIssue);
               logrus.AStr (jira.Issue.Key jIssue)]);;
  let anyDifferent := anyDifferent cfg ghIssue jIssue in
  proc.log (logrus.Debugf "Issues have any differences: %t"
              [logrus.ABool anyDifferent]);;
  proc.ret anyDifferent.

(** The replacement field set UpdateIssue submits. *)
Definition updateFields (cfg : config.Config) (ghIssue : github.Issue)
  (jIssue : jira.Issue) (now : time.Time) : jira.IssueFields :=
  let unknowns : tcontainer.MarshalMap := ∅ in
  let unknowns :=
    <[config.GetFieldKey cfg config.GitHubStatus :=
        tcontainer.VString (github.Issue.State ghIssue)]> unknowns in
  let unknowns :=
    <[config.GetFieldKey cfg config.GitHubReporter :=
        tcontainer.VString (github.User.Login (github.Issue.User ghIssue))]>
      unknowns in
  let unknowns :=
    <[config.GetFieldKey cfg config.GitHubLabels :=
        tcontainer.VString (Go.Join (labelNames ghIssue) ",")]> unknowns in
  let unknowns :=
    <[config.GetFieldKey cfg config.LastISUpdate :=
        tcontainer.VString (time.Format now dateFormat)]> unknowns in
  jira.IssueFields.mk
    (jira.IssueFields.Type_ (jira.Issue.Fields jIssue))
    (jira.Project.mk "")
    (github.Issue.Title ghIssue)
    (github.Issue.Body ghIssue)
    unknowns.

(** UpdateIssue compares each field of a GitHub issue to a JIRA issue; if
    any of them differ, the differing fields of the JIRA issue are updated
    to match the GitHub issue. *)
Definition UpdateIssue (cfg : config.Config) (ghIssue : github.Issue)
  (jIssue : jira.Issue) : EM (option Go.error) :=
  proc.log (logrus.Debugf "Updating JIRA %s with GitHub #%d"
              [logrus.AStr (jira.Issue.Key jIssue);
               logrus.AInt (github.Issue.Number ghIssue)]);;
  let* changed := DidIssueChange cfg ghIssue jIssue in
  let* failed :=
    if changed then
      let* now := proc.gets Now in
      let issue := jira.Issue.mk (jira.Issue.ID jIssue) (jira.Issue.Key jIssue)
                     (updateFields cfg ghIssue jIssue now) in
      let* r := proc.exchange (UpdateIssue_ issue)
                  (jiraclient.UpdateIssue jClient issue) in
      match r with
      | inr err => proc.ret (Some err)
      | inl _ =>
          proc.log (logrus.Debugf "Successfully updated JIRA issue %s!"
                      [logrus.AStr (jira.Issue.Key jIssue)]);;
          proc.ret None
      end
    else
      proc.log (logrus.Debugf "JIRA issue %s is already up to date!"
                  [logrus.AStr (jira.Issue.Key jIssue)]);;
      proc.ret None in
  match failed with
  | Some err => proc.ret (Some err)
  | None =>
      let* r := proc.exchange (GetIssue (jira.Issue.Key jIssue))
                  (jiraclient.GetIssue jClient (jira.Issue.Key jIssue)) in
      match r with
      | inr err =>
          proc.log (logrus.Debugf "Failed to retrieve JIRA issue %s!"
                      [logrus.AStr (jira.Issue.Key jIssue)]);;
          proc.ret (Some err)
      | inl issue =>
          proc.exchange (CompareComments_ ghIssue issue)
            (CompareComments cfg ghIssue issue)
      end
  end.

(** The field set CreateIssue submits. *)
Definition createFields (cfg : config.Config) (issue : github.Issue)
  (now : time.Time) : jira.IssueFields :=
  let unknowns : tcontainer.MarshalMap := ∅ in
  let unknowns :=
    <[config.GetFieldKey cfg config.GitHubID :=
        tcontainer.VNumber (github.Issue.ID issue)]> unknowns in
  let unknowns :=
    <[config.GetFieldKey cfg config.GitHubNumber :=
        tcontainer.VNumber (github.Issue.Number issue)]> unknowns in
  let unknowns :=
    <[config.GetFieldKey cfg config.GitHubStatus :=
        tcontainer.VString (github.Issue.State issue)]> unknowns in
  let unknowns :=
    <[config.GetFieldKey cfg config.GitHubReporter :=
        tcontainer.VString (github.User.Login (github.Issue.User issue))]>
      unknowns in
  let unknowns :=
    <[config.GetFieldKey cfg config.GitHubLabels :=
        tcontainer.VString (Go.Join (labelNames issue) ",")]> unknowns in
  let unknowns :=
    <[config.GetFieldKey cfg config.LastISUpdate :=
        tcontainer.VString (time.Format now dateFormat)]> unknowns in
  jira.IssueFields.mk
    (jira.IssueType.mk "Task")
    (config.GetProject cfg)
    (github.Issue.Title issue)
    (github.Issue.Body issue)
    unknowns.

(** CreateIssue generates a JIRA issue from the various fields on the
    given GitHub issue, then sends it to the JIRA API. *)
Definition CreateIssue (cfg : config.Config) (issue : github.Issue)
  : EM (option Go.error) :=
  proc.log (logrus.Debugf "Creating JIRA issue based on GitHub issue #%d"
              [logrus.AInt (github.Issue.Number issue)]);;
  let* now := proc.gets Now in
  let jIssue := jira.Issue.mk "" "" (createFields cfg issue now) in
  let* r := proc.exchange (CreateIssue_ jIssue)
              (jiraclient.CreateIssue jClient jIssue) in
  match r with
  | inr err => proc.ret (Some err)
  | inl jIssue =>
      let* r := proc.exchange (GetIssue (jira.Issue.Key jIssue))
                  (jiraclient.GetIssue jClient (jira.Issue.Key jIssue)) in
      match r with
      | inr err => proc.ret (Some err)
      | inl jIssue =>
          proc.log (logrus.Debugf "Created JIRA issue %s!"
                      [logrus.AStr (jira.Issue.Key jIssue)]);;
          proc.exchange (CompareComments_ issue jIssue)
            (CompareComments cfg issue jIssue)
      end
  end.

(** The test of the inner loop of CompareIssues: the GitHub ID field of
    the JIRA issue, read with its error dropped, equals the ID of the
    GitHub issue. *)
Definition sameID (cfg : config.Config) (ghIssue : github.Issue)
  (jIssue : jira.Issue) : bool :=
  let '(id, _) :=
    tcontainer.Int (jira.IssueFields.Unknowns (jira.Issue.Fields jIssue))
      (config.GetFieldKey cfg config.GitHubID) in
  (github.Issue.ID ghIssue =? id)%Z.

(** The body of the outer loop of CompareIssues: the inner loop stops at
    the first JIRA issue with the GitHub issue's ID and updates it; when
    there is none the issue is created. An error of either is logged. *)
Definition compareOne (cfg : config.Config) (jiraIssues : list jira.Issue)
  (ghIssue : github.Issue) : EM unit :=
  match List.find (sameID cfg ghIssue) jiraIssues with
  | Some jIssue =>
      let* err := UpdateIssue cfg ghIssue jIssue in
      match err with
      | Some e =>
          proc.log (logrus.Errorf "Error updating issue %s. Error: %v"
                      [logrus.AStr (jira.Issue.Key jIssue); logrus.AStr e])
      | None => proc.ret tt
      end
  | None =>
      let* err := CreateIssue cfg ghIssue in
      match err with
      | Some e =>
          proc.log (logrus.Errorf "Error creating issue for #%d. Error: %v"
                      [logrus.AInt (github.Issue.Number ghIssue);
                       logrus.AStr e])
      | None => proc.ret tt
      end
  end.

(** A [for ... range] loop whose body neither breaks nor returns. *)
Fixpoint forEach {A} (l : list A) (body : A -> EM unit) : EM unit :=
  match l with
  | [] => proc.ret tt
  | x :: rest => body x;; forEach rest body
  end.

(** CompareIssues gets the list of JIRA issues which have GitHub ID
    custom fields in the list of the given GitHub issues, then matches
    each one. If a JIRA issue already exists for a given GitHub issue, it
    calls UpdateIssue; if no JIRA issue already exists, it calls
    CreateIssue. *)
Definition CompareIssues (cfg : config.Config) (ghIssues : list github.Issue)
  : EM (option Go.error) :=
  proc.log (logrus.Debugf "Collecting issues" []);;
  if (length ghIssues =? 0)%nat then
    proc.log (logrus.Infof "There are no GitHub issues; exiting" []);;
    proc.ret None
  else
    let ids := List.map github.Issue.ID ghIssues in
    let* r := proc.exchange (ListIssues ids)
                (jiraclient.ListIssues jClient ids) in
    match r with
    | inr err => proc.ret (Some err)
    | inl jiraIssues =>
        proc.log (logrus.Debugf "Collected all JIRA issues" []);;
        forEach ghIssues (compareOne cfg jiraIssues);;
        proc.ret None
    end.

(** Sync: the issues the query finds, then CompareIssues on them. *)
Definition Sync (gh : ghClient.GitHubClient S) (cfg : config.Config)
  : EM (Go.Res unit) :=
  let* r := proc.lift (getGitHubIssues gh cfg) in
  match r with
  | Go.Ok ghIssues =>
      let* err := CompareIssues cfg ghIssues in
      match err with
      | Some e => proc.ret (Go.Err e)
      | None => proc.ret (Go.Ok tt)
      end
  | Go.Err e => proc.ret (Go.Err e)
  | Go.Panic v => proc.ret (Go.Panic v)
  end.

End Engine.

End sync.

(* ===================================================================== *)
(** * A reference remote world                                            *)
(* ===================================================================== *)

(** A small JIRA server and GitHub organisation against which the clients
    can be run: a store of issues searched by the two query forms the
    clients send, paged answers, and a script of transient faults. *)
Module remote.

Record World := mkWorld {
  issues : list jira.Issue;
  fieldsMeta : list (string * Z);
  (** outcome scripted for the coming exchanges, the next one first;
      [Some e] fails the exchange with [e]; none left means success *)
  faults : list (option Go.error);
  (** page size of a search sent without paging options *)
  defaultMaxResults : Z;
  ghUsers : list github.User;
  orgMembers : list github.User + Go.error
}.

Definition withIssues (w : World) (l : list jira.Issue) : World :=
  mkWorld l (fieldsMeta w) (faults w) (defaultMaxResults w) (ghUsers w)
    (orgMembers w).

(** The next scripted outcome, taken off the script. *)
Definition nextFault (w : World) : option Go.error * World :=
  match faults w with
  | [] => (None, w)
  | f :: rest =>
      (f, mkWorld (issues w) (fieldsMeta w) rest (defaultMaxResults w)
            (ghUsers w) (orgMembers w))
  end.

Definition okResponse (total : Z) : jira.Response :=
  jira.Response.mk total (inl "").

(** The response of a failed exchange; its body repeats the error. *)
Definition errResponse (e : Go.error) : jira.Response :=
  jira.Response.mk 0 (inl e).

(** An exchange that fails when the script says so and otherwise answers
    with [f]. *)
Definition serve {A} (f : World -> jira.Reply A * World) (w : World)
  : jira.Reply A * World :=
  match nextFault w with
  | (Some e, w') => (jira.Failure (errResponse e) e, w')
  | (None, w') => f w'
  end.

Fixpoint stripPrefix (p s : string) : option string :=
  match p, s with
  | EmptyString, _ => Some s
  | String a p', String b s' =>
      if Ascii.eqb a b then stripPrefix p' s' else None
  | _, _ => None
  end.

(** The text before the first [c] and the text after it. *)
Fixpoint breakAt (c : ascii) (s : string) : option (string * string) :=
  match s with
  | EmptyString => None
  | String a t =>
      if Ascii.eqb a c then Some (EmptyString, t)
      else match breakAt c t with
           | Some (x, y) => Some (String a x, y)
           | None => None
           end
  end.

Fixpoint splitOn (c : ascii) (s : string) : list string :=
  match s with
  | EmptyString => [EmptyString]
  | String a t =>
      if Ascii.eqb a c then EmptyString :: splitOn c t
      else match splitOn c t with
           | x :: r => String a x :: r
           | [] => [String a EmptyString]
           end
  end.

(** The two query forms: project='K', and
    project='K' AND cf[F] in (v1,...,vn). *)
Inductive JQL :=
| InProject (key : string)
| InProjectWithField (key field : string) (values : list string).

Definition parseJQL (jql : string) : option JQL :=
  match stripPrefix "project='" jql with
  | None => None
  | Some r =>
      match breakAt "'" r with
      | None => None
      | Some (key, EmptyString) => Some (InProject key)
      | Some (key, r) =>
          match stripPrefix " AND cf[" r with
          | None => None
          | Some r =>
              match breakAt "]" r with
              | None => None
              | Some (field, r) =>
                  match stripPrefix " in (" r with
                  | None => None
                  | Some r =>
                      match breakAt ")" r with
                      | Some (inside, EmptyString) =>
                          Some (InProjectWithField key field
                                  (splitOn "," inside))
                      | _ => None
                      end
                  end
              end
          end
      end
  end.

Definition inProject (key : string) (i : jira.Issue) : bool :=
  String.eqb
    (jira.Project.Key (jira.IssueFields.Project (jira.Issue.Fields i))) key.

Definition selects (q : JQL) (i : jira.Issue) : bool :=
  match q with
  | InProject key => inProject key i
  | InProjectWithField key field values =>
      inProject key i &&
      match jira.IssueFields.Unknowns (jira.Issue.Fields i)
              !! ("customfield_" +:+ field) with
      | Some (tcontainer.VNumber z) =>
          existsb (String.eqb (Go.itoa z)) values
      | _ => false
      end
  end.

(** A search: the selected issues, the requested page of them and their
    total. *)
Definition search (jql : string) (opts : option jira.SearchOptions)
  (w : World) : jira.Reply (list jira.Issue) * World :=
  match parseJQL jql with
  | None =>
      let e := "Error in the JQL Query" in
      (jira.Failure (errResponse e) e, w)
  | Some q =>
      let found := List.filter (selects q) (issues w) in
      let '(startAt, maxResults) :=
        match opts with
        | Some o =>
            (jira.SearchOptions.StartAt o, jira.SearchOptions.MaxResults o)
        | None => (0%Z, defaultMaxResults w)
        end in
      (jira.Success
         (firstn (Z.to_nat maxResults) (skipn (Z.to_nat startAt) found))
         (okResponse (Z.of_nat (length found))),
       w)
  end.

Definition get (key : string) (w : World) : jira.Reply jira.Issue * World :=
  match List.find (fun i => String.eqb (jira.Issue.Key i) key) (issues w) with
  | Some i => (jira.Success i (okResponse 0), w)
  | None =>
      let e := "Issue Does Not Exist" in
      (jira.Failure (errResponse e) e, w)
  end.

(** A created issue gets the next number of its project as id and key. *)
Definition create (issue : jira.Issue) (w : World)
  : jira.Reply jira.Issue * World :=
  let n := Go.itoa (Z.of_nat (Datatypes.S (length (issues w)))) in
  let key :=
    jira.Project.Key (jira.IssueFields.Project (jira.Issue.Fields issue))
      +:+ "-" +:+ n in
  let created := jira.Issue.mk n key (jira.Issue.Fields issue) in
  (jira.Success created (okResponse 0), withIssues w (issues w ++ [created])).

(** An update replaces summary, description and type, and sets the
    submitted custom fields over the stored ones. *)
Definition merge (stored submitted : jira.Issue) : jira.Issue :=
  let old := jira.Issue.Fields stored in
  let new := jira.Issue.Fields submitted in
  jira.Issue.mk (jira.Issue.ID stored) (jira.Issue.Key stored)
    (jira.IssueFields.mk
       (jira.IssueFields.Type_ new)
       (jira.IssueFields.Project old)
       (jira.IssueFields.Summary new)
       (jira.IssueFields.Description new)
       (jira.IssueFields.Unknowns new ∪ jira.IssueFields.Unknowns old)).

Definition update (issue : jira.Issue) (w : World)
  : jira.Reply jira.Issue * World :=
  let same i := String.eqb (jira.Issue.Key i) (jira.Issue.Key issue) in
  match List.find same (issues w) with
  | Some stored =>
      (jira.Success (merge stored issue) (okResponse 0),
       withIssues w
         (List.map (fun i => if same i then merge i issue else i) (issues w)))
  | None =>
      let e := "Issue Does Not Exist" in
      (jira.Failure (errResponse e) e, w)
  end.

(** The server keeps no comments; it answers a comment request with the
    comment under a fixed id. *)
Definition addComment (issueID : string) (c : jira.Comment) (w : World)
  : jira.Reply jira.Comment * World :=
  (jira.Success (jira.Comment.mk "10000" (jira.Comment.Body c))
     (okResponse 0), w).

Definition client : jira.Client World :=
  jira.mkClient World
    (fun key => serve (fun w =>
       (jira.Success (jira.Project.mk key) (okResponse 0), w)))
    (fun jql opts => serve (search jql opts))
    (fun key => serve (get key))
    (fun issue => serve (create issue))
    (fun issue => serve (update issue))
    (fun id c => serve (addComment id c))
    (fun m path body => inl (jira.Request.mk m path body))
    (fun req => serve (fun w => (jira.Success tt (okResponse 0), w)))
    (fun req => serve (fun w =>
       (jira.Success (fieldsMeta w) (okResponse 0), w))).

(** The GitHub side: users by login, and the members of the one
    organisation. *)
Definition gh : ghClient.GitHubClient World :=
  ghClient.mk World
    (fun login w =>
       match List.find (fun u => String.eqb (github.User.Login u) login)
               (ghUsers w) with
       | Some u => (inl u, w)
       | None => (inr "404 Not Found", w)
       end)
    (fun org w => (orgMembers w, w))
    (fun query w => (inl [], w)).

(** A back-off policy that grants [n] further attempts, each after one
    second, and in whose world sleeping changes nothing. *)
Definition retries (n : nat) : backoff.BackOff World :=
  backoff.mk World (fun _ => repeat 1000000000%Z n) (fun _ w => w).

Definition start (w : World) : proc.St World jira.Call := proc.mkSt w [] [].

End remote.

(* ===================================================================== *)
(** * Concrete configurations, issues and worlds                          *)
(* ===================================================================== *)

Module fixture.

Definition acme : config.Organisation := config.Organisation.mk "acme" [].
Definition acme2 : config.Organisation :=
  config.Organisation.mk "acme2" ["x"; "y"].

(** 2020-01-01T00:00:00+0000, a Wednesday. *)
Definition since : time.Time := time.mkTime 2020 1 1 0 0 0 3 0 "".

Definition fieldIDs : config.fields :=
  config.mkFields "10001" "10002" "10003" "10004" "10005" "10006" "10007".

Definition cfg : config.Config :=
  config.mkConfig fieldIDs (jira.Project.mk "PROJ") since true "PROJ" false
    (inl [acme; acme2]) "acme".

(** The configuration before LoadJIRAConfig has run. *)
Definition cfg0 : config.Config :=
  config.mkConfig config.zeroFields (jira.Project.mk "") since true "PROJ"
    false (inl [acme; acme2]) "acme".

(** A configuration whose settings do not decode. *)
Definition cfgUndecoded : config.Config :=
  config.mkConfig fieldIDs (jira.Project.mk "PROJ") since true "PROJ" false
    (inr "1 error(s) decoding: 'repos' expected a slice") "acme".

Definition alice : github.User :=
  github.User.mk "alice" "Alice A" "https://github.com/alice".
Definition bob : github.User :=
  github.User.mk "bob" "" "https://github.com/bob".

(** Field metadata with the six custom fields other than GitHub URI. *)
Definition sixFields : list (string * Z) :=
  [ ("Summary", 0%Z); ("GitHub ID", 10001%Z); ("GitHub Number", 10002%Z);
    ("GitHub Labels", 10003%Z); ("GitHub Reporter", 10004%Z);
    ("GitHub Status", 10005%Z); ("Last Issue-Sync Update", 10006%Z) ].

Definition sevenFields : list (string * Z) :=
  sixFields ++ [("GitHub URI", 10007%Z)].

Definition world (store : list jira.Issue) : remote.World :=
  remote.mkWorld store sevenFields [] 50 [alice; bob] (inl [alice; bob]).

(** A server whose field metadata is [meta]. *)
Definition worldWithFields (meta : list (string * Z)) : remote.World :=
  remote.mkWorld [] meta [] 50 [alice; bob] (inl [alice; bob]).

(** A world in which the membership lookup is refused. *)
Definition worldWithoutMembers : remote.World :=
  remote.mkWorld [] sevenFields [] 50 [alice; bob] (inr "403 Forbidden").

(** A server that fails the next exchange and serves the ones after. *)
Definition worldWithFault : remote.World :=
  remote.mkWorld [] sevenFields [Some "503 Service Unavailable"] 50
    [alice; bob] (inl [alice; bob]).

(** An issue as the engine submits it for creation. *)
Definition newIssue : jira.Issue :=
  jira.Issue.mk "" ""
    (jira.IssueFields.mk (jira.IssueType.mk "Task") (jira.Project.mk "PROJ")
       "Crash on start" "It crashes." ∅).

Definition decode (meta : list (string * Z)) : list config.jiraField :=
  List.map (fun p => config.mkJiraField p.1 p.2) meta.

(** A stored issue of PROJ mirroring the GitHub issue with id [n]. *)
Definition mirrored (n : nat) : jira.Issue :=
  let z := Z.of_nat n in
  jira.Issue.mk (Go.itoa z) ("PROJ-" +:+ Go.itoa z)
    (jira.IssueFields.mk (jira.IssueType.mk "Task") (jira.Project.mk "PROJ")
       ("issue " +:+ Go.itoa z) ""
       (<["customfield_10001" := tcontainer.VNumber z]> ∅)).

Definition idsUpTo (n : nat) : list Z := List.map Z.of_nat (seq 1 n).

(** A project of 51 mirrored issues, with GitHub IDs 1 to 51. *)
Definition store51 : list jira.Issue := List.map mirrored (seq 1 51).

(** The batch of the example: cross-reference values 5, 7 and 9. *)
Definition store579 : list jira.Issue := List.map mirrored [5; 7; 9]%nat.

Fixpoint replicate (n : nat) (c : ascii) : string :=
  match n with O => EmptyString | Datatypes.S k => String c (replicate k c) end.

(** 14:05 on 4 March 2021, a Thursday, at UTC. *)
Definition postedAt : time.Time := time.mkTime 2021 3 4 14 5 9 4 0 "UTC".

Definition comment (body : string) : github.IssueComment :=
  github.IssueComment.mk 42 "https://github.com/acme/x/issues/1#c42" alice
    postedAt body.

Definition shortComment : github.IssueComment := comment "Looks good to me".
Definition longComment : github.IssueComment :=
  comment (replicate (Z.to_nat 40000) "x").

Definition liveClient : @jiraclient.real.realJIRAClient remote.World :=
  jiraclient.real.mk cfg remote.client.
Definition previewClient : @jiraclient.dryrun.dryrunJIRAClient remote.World :=
  jiraclient.dryrun.mk cfg remote.client.

(** A GitHub issue and the JIRA issue that mirrors it field by field,
    except that the JIRA issue records no labels. *)
Definition ghIssue (labels : list string) : github.Issue :=
  github.Issue.mk 7 3 "Crash on start" "It crashes." "open" alice
    (List.map github.Label.mk labels).

Definition jIssue (labels : string) : jira.Issue :=
  jira.Issue.mk "10" "PROJ-10"
    (jira.IssueFields.mk (jira.IssueType.mk "Task") (jira.Project.mk "PROJ")
       "Crash on start" "It crashes."
       (<["customfield_10001" := tcontainer.VNumber 7]>
        (<["customfield_10003" := tcontainer.VString labels]>
         (<["customfield_10004" := tcontainer.VString "alice"]>
          (<["customfield_10005" := tcontainer.VString "open"]> ∅))))).

End fixture.

(* ===================================================================== *)
(** * Reading a run                                                       *)
(* ===================================================================== *)

Module observe.

(** A mirrored text field differs from [v] when it cannot be read as a
    string or reads as another string. *)
Definition differs (v : string) (r : string * option Go.error) : bool :=
  sync.isErr r.2 || negb (String.eqb v r.1).

(** The length of the comment body an exchange submits, if it submits
    one. *)
Definition commentBodyLength (c : jira.Call) : option Z :=
  match c with
  | jira.CIssueAddComment _ cm => Some (Go.len (jira.Comment.Body cm))
  | jira.CDo req => option_map Go.len (jira.Request.body req)
  | _ => None
  end.

Definition submittedLengths {W} (st : proc.St W jira.Call) : list Z :=
  omap commentBodyLength (proc.calls st).

(** The number of exchanges that ask the server to change data. *)
Definition mutations {W} (st : proc.St W jira.Call) : nat :=
  length (List.filter jira.mutating (proc.calls st)).

(** An engine call that submits issue fields to the client. *)
Definition fieldAltering (c : sync.Invocation) : bool :=
  match c with
  | sync.CreateIssue_ _ | sync.UpdateIssue_ _ => true
  | _ => false
  end.

(** The line UpdateIssue, respectively CreateIssue, logs on entry. *)
Definition updateStart (ghIssue : github.Issue) (jIssue : jira.Issue)
  : logrus.Entry :=
  logrus.Debugf "Updating JIRA %s with GitHub #%d"
    [logrus.AStr (jira.Issue.Key jIssue);
     logrus.AInt (github.Issue.Number ghIssue)].

Definition createStart (ghIssue : github.Issue) : logrus.Entry :=
  logrus.Debugf "Creating JIRA issue based on GitHub issue #%d"
    [logrus.AInt (github.Issue.Number ghIssue)].

(** The entry line of the operation CompareIssues owes a GitHub issue:
    an update of the first listed JIRA issue that carries its ID, a
    creation when none does. *)
Definition startOf (cfg : config.Config) (jiraIssues : list jira.Issue)
  (ghIssue : github.Issue) : logrus.Entry :=
  match List.find (sync.sameID cfg ghIssue) jiraIssues with
  | Some jIssue => updateStart ghIssue jIssue
  | None => createStart ghIssue
  end.

Definition isStart (e : logrus.Entry) : bool :=
  String.eqb (logrus.format e) "Updating JIRA %s with GitHub #%d"
  || String.eqb (logrus.format e)
       "Creating JIRA issue based on GitHub issue #%d".

Definition isError (e : logrus.Entry) : bool :=
  match logrus.level e with logrus.ErrorLevel => true | _ => false end.

(** The line CompareIssues logs for an issue whose operation failed. *)
Definition failureLog (cfg : config.Config) (jiraIssues : list jira.Issue)
  (ghIssue : github.Issue) (e : Go.error) : logrus.Entry :=
  match List.find (sync.sameID cfg ghIssue) jiraIssues with
  | Some jIssue =>
      logrus.Errorf "Error updating issue %s. Error: %v"
        [logrus.AStr (jira.Issue.Key jIssue); logrus.AStr e]
  | None =>
      logrus.Errorf "Error creating issue for #%d. Error: %v"
        [logrus.AInt (github.Issue.Number ghIssue); logrus.AStr e]
  end.

(** The engine state once the batch lookup has answered [s] and the
    loop is about to start. *)
Definition afterListing {S} (st : proc.St S sync.Invocation) (ids : list Z)
  (s : S) : proc.St S sync.Invocation :=
  proc.mkSt s (proc.calls st ++ [sync.ListIssues ids])
    (proc.logs st ++ [logrus.Debugf "Collecting issues" [];
                      logrus.Debugf "Collected all JIRA issues" []]).

Section Attempts.
Context {W A : Type}.
Variable bo : backoff.BackOff W.

(** A library call answered with an error. *)
Definition failed (r : jira.Reply A) : bool :=
  match r with
  | jira.Failure _ _ => true
  | jira.Success _ _ => false
  end.

(** Run number [k] (from 0) of the exchange [f] when it is run again and
    again from world [w], each run followed by the next wait of [waits]:
    its answer and the world it leaves. Which of these runs a caller
    makes is not the matter of this definition. *)
Fixpoint attempt (f : W -> jira.Reply A * W) (waits : list Z) (w : W)
  (k : nat) : jira.Reply A * W :=
  match k, waits with
  | Datatypes.S k', next :: rest =>
      attempt f rest (backoff.Sleep bo next (f w).2) k'
  | _, _ => f w
  end.

End Attempts.

Section Outcomes.
Context {S : Type}.
Variable jClient : jiraclient.JIRAClient S.
Variable CompareComments :
  config.Config -> github.Issue -> jira.Issue -> S -> option Go.error * S.
Variable Now : S -> time.Time.

(** The operation CompareIssues runs for one GitHub issue. *)
Definition operation (cfg : config.Config) (jiraIssues : list jira.Issue)
  (ghIssue : github.Issue) : proc.M S sync.Invocation (option Go.error) :=
  match List.find (sync.sameID cfg ghIssue) jiraIssues with
  | Some jIssue =>
      sync.UpdateIssue jClient CompareComments Now cfg ghIssue jIssue
  | None => sync.CreateIssue jClient CompareComments Now cfg ghIssue
  end.

(** What the operation of each issue of a batch returns, when the batch
    is run from [st]: every operation starts in the state the loop body
    of its predecessor left. *)
Fixpoint outcomes (cfg : config.Config) (jiraIssues : list jira.Issue)
  (ghIssues : list github.Issue) (st : proc.St S sync.Invocation)
  : list (option Go.error) :=
  match ghIssues with
  | [] => []
  | ghIssue :: rest =>
      (operation cfg jiraIssues ghIssue st).1
        :: outcomes cfg jiraIssues rest
             (sync.compareOne jClient CompareComments Now cfg jiraIssues
                ghIssue st).2
  end.

(** One issue's share of a batch: the calls made for it through the
    JIRAClient interface (and of CompareComments), in order, and what
    its operation returned. *)
Record Share := mkShare {
  asked : list sync.Invocation;
  returned : option Go.error
}.

(** The end of both operations: the issue is fetched again and, when
    that succeeds, its comments are reconciled; the error of either is
    the operation's. *)
Definition refetch (cfg : config.Config) (ghIssue : github.Issue)
  (key : string) (s : S) : Share * S :=
  match jiraclient.GetIssue jClient key s with
  | (inr err, s1) => (mkShare [sync.GetIssue key] (Some err), s1)
  | (inl issue, s1) =>
      (mkShare [sync.GetIssue key; sync.CompareComments_ ghIssue issue]
         (CompareComments cfg ghIssue issue s1).1,
       (CompareComments cfg ghIssue issue s1).2)
  end.

(** The share [r] with the call [c] made before it. *)
Definition after (c : sync.Invocation) (r : Share * S) : Share * S :=
  (mkShare (c :: asked r.1) (returned r.1), r.2).

(** A GitHub issue with a listed counterpart, from client state [s]:
    when the two differ, the counterpart with the fields of the GitHub
    issue, stamped with the present time, is submitted as an update, and
    a failure of that ends the operation; then, and at once when the
    two do not differ, the counterpart is fetched again. *)
Definition updating (cfg : config.Config) (ghIssue : github.Issue)
  (jIssue : jira.Issue) (s : S) : Share * S :=
  if sync.anyDifferent cfg ghIssue jIssue then
    let issue :=
      jira.Issue.mk (jira.Issue.ID jIssue) (jira.Issue.Key jIssue)
        (sync.updateFields cfg ghIssue jIssue (Now s)) in
    match jiraclient.UpdateIssue jClient issue s with
    | (inr err, s1) => (mkShare [sync.UpdateIssue_ issue] (Some err), s1)
    | (inl _, s1) =>
        after (sync.UpdateIssue_ issue)
          (refetch cfg ghIssue (jira.Issue.Key jIssue) s1)
    end
  else refetch cfg ghIssue (jira.Issue.Key jIssue) s.

(** A GitHub issue without a listed counterpart, from client state [s]:
    a new issue with its fields, stamped with the present time, is
    submitted for creation, and a failure of that ends the operation;
    otherwise the created issue is fetched by the key it was given. *)
Definition creating (cfg : config.Config) (ghIssue : github.Issue) (s : S)
  : Share * S :=
  let issue := jira.Issue.mk "" "" (sync.createFields cfg ghIssue (Now s)) in
  match jiraclient.CreateIssue jClient issue s with
  | (inr err, s1) => (mkShare [sync.CreateIssue_ issue] (Some err), s1)
  | (inl created, s1) =>
      after (sync.CreateIssue_ issue)
        (refetch cfg ghIssue (jira.Issue.Key created) s1)
  end.

(** The share of one GitHub issue: updated against the first listed JIRA
    issue that carries its ID, created when none does. *)
Definition share (cfg : config.Config) (jiraIssues : list jira.Issue)
  (ghIssue : github.Issue) (s : S) : Share * S :=
  match List.find (sync.sameID cfg ghIssue) jiraIssues with
  | Some jIssue => updating cfg ghIssue jIssue s
  | None => creating cfg ghIssue s
  end.

(** The shares of the issues of a batch, in order: each issue is served
    from the client state that the share of its predecessor left,
    whatever that share returned. *)
Fixpoint shares (cfg : config.Config) (jiraIssues : list jira.Issue)
  (ghIssues : list github.Issue) (s : S) : list Share * S :=
  match ghIssues with
  | [] => ([], s)
  | ghIssue :: rest =>
      let first := share cfg jiraIssues ghIssue s in
      let others := shares cfg jiraIssues rest first.2 in
      (first.1 :: others.1, others.2)
  end.

End Outcomes.

(** The failure lines owed to a batch with the given outcomes. *)
Definition failureLogs (cfg : config.Config) (jiraIssues : list jira.Issue)
  (ghIssues : list github.Issue) (results : list (option Go.error))
  : list logrus.Entry :=
  omap (fun p : github.Issue * option Go.error =>
          option_map (failureLog cfg jiraIssues p.1) p.2)
       (combine ghIssues results).

End observe.

(* ===================================================================== *)
(** * A scripted JIRAClient for the engine                                *)
(* ===================================================================== *)

Module mock.

(** The client state is the list of stored issues. Creating or updating
    an issue whose summary is [failing] ends in a terminal remote
    error. *)
Definition hasKey (key : string) (i : jira.Issue) : bool :=
  String.eqb (jira.Issue.Key i) key.

Definition refuses (failing : string) (issue : jira.Issue) : bool :=
  String.eqb (jira.IssueFields.Summary (jira.Issue.Fields issue)) failing.

Definition client (failing : string) : jiraclient.JIRAClient (list jira.Issue) :=
  jiraclient.mkJIRAClient (list jira.Issue)
    (fun ids s =>
       (inl (List.filter (jiraclient.hasListedID fixture.cfg ids) s), s))
    (fun key s =>
       match List.find (hasKey key) s with
       | Some i => (inl i, s)
       | None => (inr "Issue Does Not Exist", s)
       end)
    (fun issue s =>
       if refuses failing issue then (inr "500 Internal Server Error", s)
       else
         let n := Go.itoa (Z.of_nat (Datatypes.S (length s))) in
         let created :=
           jira.Issue.mk n ("PROJ-" +:+ n) (jira.Issue.Fields issue) in
         (inl created, s ++ [created]))
    (fun issue s =>
       if refuses failing issue then (inr "500 Internal Server Error", s)
       else
         (inl issue,
          List.map (fun i => if hasKey (jira.Issue.Key issue) i
                             then issue else i) s))
    (fun _ _ s => (inl jira.zeroComment, s))
    (fun _ _ _ s => (inl jira.zeroComment, s)).

Definition CompareComments (cfg : config.Config) (ghIssue : github.Issue)
  (jIssue : jira.Issue) (s : list jira.Issue)
  : option Go.error * list jira.Issue := (None, s).

Definition Now (s : list jira.Issue) : time.Time := fixture.postedAt.

Definition start (s : list jira.Issue)
  : proc.St (list jira.Issue) sync.Invocation := proc.mkSt s [] [].

(** Three GitHub issues; the second is the one the client refuses. *)
Definition issue (id : Z) (title : string) : github.Issue :=
  github.Issue.mk id id title "" "open" fixture.alice [].

Definition three : list github.Issue :=
  [issue 1 "first"; issue 2 "second"; issue 3 "third"].

End mock.

(* ===================================================================== *)
(** * Shapes of calls and log lines                                       *)
(* ===================================================================== *)

Module shape.

(** The line the observer of [request] logs before a retry. *)
Definition isRetryNote (what : string) (e : logrus.Entry) : bool :=
  match logrus.level e with
  | logrus.ErrorLevel =>
      String.eqb (logrus.format e)
        ("unable to complete " +:+ what +:+ " request; retrying in %v: %v")
  | _ => false
  end.

(** The engine's batch lookup. *)
Definition isListing (c : sync.Invocation) : bool :=
  match c with sync.ListIssues _ => true | _ => false end.

Definition isCreateCall (c : sync.Invocation) : bool :=
  match c with sync.CreateIssue_ _ => true | _ => false end.

Definition isUpdateCall (c : sync.Invocation) : bool :=
  match c with sync.UpdateIssue_ _ => true | _ => false end.

(** No listed JIRA issue carries the ID of the GitHub issue. *)
Definition unmatched (cfg : config.Config) (jiraIssues : list jira.Issue)
  (ghIssue : github.Issue) : bool :=
  match List.find (sync.sameID cfg ghIssue) jiraIssues with
  | Some _ => false
  | None => true
  end.

(** The first listed JIRA issue that carries the ID of the GitHub issue
    differs from it in the eyes of DidIssueChange. *)
Definition outdated (cfg : config.Config) (jiraIssues : list jira.Issue)
  (ghIssue : github.Issue) : bool :=
  match List.find (sync.sameID cfg ghIssue) jiraIssues with
  | Some jIssue => sync.anyDifferent cfg ghIssue jIssue
  | None => false
  end.

(** The page requests of getIssues from page [page] on: the request for
    each page as often as the list says, page after page. *)
Fixpoint pageRuns (jql : string) (page : Z) (counts : list nat)
  : list jira.Call :=
  match counts with
  | [] => []
  | n :: rest =>
      repeat (jira.CIssueSearch jql
                (Some (jira.SearchOptions.mk (50 * page) 50))) n
        ++ pageRuns jql (page + 1) rest
  end.

(** The string holds a line feed. *)
Fixpoint hasLineFeed (s : string) : bool :=
  match s with
  | EmptyString => false
  | String c rest => Ascii.eqb c (ascii_of_nat 10) || hasLineFeed rest
  end.

(** The metadata lists a field of this name. *)
Definition listed (name : string) (jFields : list config.jiraField) : bool :=
  existsb (fun f => String.eqb (config.Name f) name) jFields.

(** The identifier, in decimal, of the last listed field of this name;
    the empty string when there is none. *)
Definition lastID (name : string) (jFields : list config.jiraField)
  : string :=
  match List.find (fun f => String.eqb (config.Name f) name)
          (rev jFields) with
  | Some f => Go.itoa (config.Schema_CustomID f)
  | None => ""
  end.

(** One identifier of the record after the loop of getFieldIDs, when it
    was [d] before: every listed field of the name overwrites it. *)
Fixpoint lastFrom (name : string) (jFields : list config.jiraField)
  (d : string) : string :=
  match jFields with
  | [] => d
  | f :: rest =>
      lastFrom name rest
        (if String.eqb (config.Name f) name
         then Go.itoa (config.Schema_CustomID f) else d)
  end.

(** The names getFieldIDs reports when missing. *)
Definition checkedNames : list string :=
  [ "GitHub ID"; "GitHub Number"; "GitHub Labels"; "GitHub Status";
    "GitHub Reporter"; "Last Issue-Sync Update" ].

End shape.

(* ===================================================================== *)
(** * pkg/config: validation of the settings                              *)
(* ===================================================================== *)

(** The Viper object as the program uses it: the effective settings by
    key; a key that is not set reads as the empty string. *)
Module viper.

Definition Viper := gmap string string.

Definition GetString (v : Viper) (key : string) : string :=
  default "" (v !! key).

Definition Set_ (key value : string) (v : Viper) : Viper :=
  <[key := value]> v.

End viper.

Module validation.

(** What validateConfig asks of its surroundings: the password typed at
    the terminal ([terminal.ReadPassword]), the error of opening a file
    ([os.Open]), the error of [url.ParseRequestURI], and [time.Parse]. *)
Record Env := mkEnv {
  ReadPassword : string + Go.error;
  Open : string -> option Go.error;
  ParseRequestURI : string -> option Go.error;
  Parse : string -> string -> time.Time + Go.error
}.

(** The members of Config that validateConfig reads and writes, with
    the lines written to its logger. *)
Record Config := mkConfig {
  cmdConfig : viper.Viper;
  log : list logrus.Entry;
  basicAuth : bool;
  since : time.Time
}.

(** The configuration and what was printed on standard output. *)
Record St := mkSt {
  c : Config;
  printed : list string
}.

(** A statement sequence that may return an error early. *)
Definition M (A : Type) : Type := St -> (A + Go.error) * St.

Definition ret {A} (a : A) : M A := fun st => (inl a, st).

Definition bind {A B} (m : M A) (k : A -> M B) : M B :=
  fun st =>
    match m st with
    | (inl a, st') => k a st'
    | (inr e, st') => (inr e, st')
    end.

(** [return errors.New(e)]. *)
Definition fail {A} (e : Go.error) : M A := fun st => (inr e, st).

Definition Debug (msg : string) : M unit :=
  fun st =>
    (inl tt,
     mkSt (mkConfig (cmdConfig (c st))
             (log (c st) ++ [logrus.Debugf msg []])
             (basicAuth (c st)) (since (c st)))
       (printed st)).

Definition GetString (key : string) : M string :=
  fun st => (inl (viper.GetString (cmdConfig (c st)) key), st).

Definition Set_ (key value : string) : M unit :=
  fun st =>
    (inl tt,
     mkSt (mkConfig (viper.Set_ key value (cmdConfig (c st)))
             (log (c st)) (basicAuth (c st)) (since (c st)))
       (printed st)).

Definition setBasicAuth (b : bool) : M unit :=
  fun st =>
    (inl tt,
     mkSt (mkConfig (cmdConfig (c st)) (log (c st)) b (since (c st)))
       (printed st)).

Definition getBasicAuth : M bool :=
  fun st => (inl (basicAuth (c st)), st).

Definition setSince (t : time.Time) : M unit :=
  fun st =>
    (inl tt,
     mkSt (mkConfig (cmdConfig (c st)) (log (c st)) (basicAuth (c st)) t)
       (printed st)).

(** [fmt.Print]. *)
Definition Print (s : string) : M unit :=
  fun st => (inl tt, mkSt (c st) (printed st ++ [s])).

Declare Scope check_scope.
Delimit Scope check_scope with check.
Notation "'let*' x ':=' m 'in' k" := (bind m (fun x => k))
  (at level 10, x pattern, m at level 100, k at level 200) : check_scope.
Notation "m ';;' k" := (bind m (fun _ => k))
  (at level 100, k at level 200, right associativity) : check_scope.

Local Open Scope check_scope.

(** [if cond { return errors.New(e) }]. *)
Definition failIf (cond : bool) (e : Go.error) : M unit :=
  if cond then fail e else ret tt.

Definition defaultSince : string := "1970-01-01T00:00:00+0000".

(** validateConfig checks the values provided to all of the
    configuration options, ensuring that e.g. `since` is a valid date,
    `jira-uri` is a real URI, etc. *)
Definition validateConfig (env : Env) : M unit :=
  Debug "Checking config variables...";;
  let* token := GetString "github-token" in
  failIf (String.eqb token "") "GitHub token required";;
  let* user := GetString "jira-user" in
  let* secret := GetString "jira-secret" in
  setBasicAuth (negb (String.eqb user "") && negb (String.eqb secret ""));;
  let* basic := getBasicAuth in
  (if basic then
     Debug "Using HTTP Basic Authentication";;
     let* jUser := GetString "jira-user" in
     failIf (String.eqb jUser "") "Jira username required";;
     let* jPass := GetString "jira-secret" in
     if String.eqb jPass "" then
       Print "Enter your JIRA password: ";;
       match ReadPassword env with
       | inr _ => fail "JIRA password required"
       | inl bytePass =>
           Print jiraclient.nl;;
           Set_ "jira-secret" bytePass
       end
     else ret tt
   else
     Debug "Using OAuth 1.0a authentication";;
     let* token := GetString "jira-token" in
     failIf (String.eqb token "") "JIRA access token required";;
     let* secret := GetString "jira-secret" in
     failIf (String.eqb secret "") "JIRA access token secret required";;
     let* consumerKey := GetString "jira-consumer-key" in
     failIf (String.eqb consumerKey "")
       "JIRA consumer key required for OAuth handshake";;
     let* privateKey := GetString "jira-private-key-path" in
     failIf (String.eqb privateKey "")
       "JIRA private key required for OAuth handshake";;
     match Open env privateKey with
     | Some _ => fail "JIRA private key must point to existing PEM file"
     | None => ret tt
     end);;
  let* uri := GetString "jira-uri" in
  failIf (String.eqb uri "") "JIRA URI required";;
  match ParseRequestURI env uri with
  | Some _ => fail "JIRA URI must be valid URI"
  | None =>
      let* project := GetString "jira-project" in
      failIf (String.eqb project "") "JIRA project required";;
      let* sinceStr := GetString "since" in
      (if String.eqb sinceStr "" then Set_ "since" defaultSince
       else ret tt);;
      match Parse env config.dateFormat sinceStr with
      | inr _ => fail "Since date must be in ISO-8601 format"
      | inl since =>
          setSince since;;
          Debug "All config variables are valid!";;
          ret tt
      end
  end.

(** The surroundings with another answer of the terminal. *)
Definition withReadPassword (env : Env) (answer : string + Go.error) : Env :=
  mkEnv answer (Open env) (ParseRequestURI env) (Parse env).

(** Surroundings in which every file opens, every URI is accepted and
    the one date [value] parses, to [t]. *)
Definition lenient (value : string) (t : time.Time) : Env :=
  mkEnv (inr "inappropriate ioctl for device") (fun _ => None)
    (fun _ => None)
    (fun _ v => if String.eqb v value then inl t
                else inr "parsing time: cannot parse").

Definition fresh (settings : list (string * string)) : St :=
  mkSt (mkConfig (list_to_map settings) [] false
          (time.mkTime 1 1 1 0 0 0 1 0 "UTC")) [].

End validation.

(* ===================================================================== *)
(** * Properties                                                          *)
(* ===================================================================== *)

(** ** Slices of strings *)

Lemma substring_0_length (s : string) (n : nat) :
  (n <= String.length s)%nat -> String.length (substring 0 n s) = n.
Proof.
  revert n. induction s as [|c s IH]; intros [|n] Hn; simpl in *; try lia.
  rewrite IH; lia.
Qed.

Lemma substring_0_all (s : string) : substring 0 (String.length s) s = s.
Proof. induction s as [|c s IH]; simpl; [reflexivity | now rewrite IH]. Qed.

Lemma substring_0_prefix (s : string) (n : nat) :
  String.prefix (substring 0 n s) s = true.
Proof.
  revert n. induction s as [|c s IH]; intros [|n]; simpl; try reflexivity.
  destruct (ascii_dec c c); [apply IH | congruence].
Qed.

Lemma maxBodyLength_value : jiraclient.maxBodyLength = 32768%Z.
Proof. reflexivity. Qed.

(** ** The length cap of the live client's comments *)

(** Case analysis on the integer comparisons of a goal. *)
Ltac zcases :=
  repeat match goal with
         | |- context [(?a >=? ?b)%Z] => rewrite (Z.geb_leb a b)
         | |- context [(?a <=? ?b)%Z] =>
             destruct (Z.leb_spec a b); try lia
         | |- context [(?a <? ?b)%Z] =>
             destruct (Z.ltb_spec a b); try lia
         end.

Lemma len_nonneg (s : string) : (0 <= Go.len s)%Z.
Proof. unfold Go.len. lia. Qed.

(** CreateComment leaves a body of at most maxBodyLength bytes as it
    is. *)
Lemma capCreate_within (body : string) :
  (Go.len body <= jiraclient.maxBodyLength)%Z ->
  jiraclient.real.capCreate body = Go.Ok body.
Proof.
  intros H. pose proof (len_nonneg body) as H0.
  unfold jiraclient.real.capCreate, Go.slice_to.
  rewrite maxBodyLength_value in *. zcases; simpl; try reflexivity.
  assert (Z.to_nat 32768 = String.length body) as ->
    by (unfold Go.len in *; lia).
  now rewrite substring_0_all.
Qed.

(** CreateComment cuts a longer body to its first maxBodyLength bytes. *)
Lemma capCreate_beyond (body : string) :
  (jiraclient.maxBodyLength < Go.len body)%Z ->
  exists cut,
    jiraclient.real.capCreate body = Go.Ok cut
    /\ Go.len cut = jiraclient.maxBodyLength
    /\ String.prefix cut body = true.
Proof.
  intros H. unfold jiraclient.real.capCreate, Go.slice_to.
  rewrite maxBodyLength_value in *. zcases. simpl.
  eexists. split; [reflexivity|]. split.
  - unfold Go.len in *. rewrite substring_0_length; lia.
  - apply substring_0_prefix.
Qed.

(** UpdateComment tests the length the other way round: a body shorter
    than maxBodyLength is sliced beyond its end. *)
Lemma capUpdate_short (body : string) :
  (Go.len body < jiraclient.maxBodyLength)%Z ->
  jiraclient.real.capUpdate body
  = Go.Panic "runtime error: slice bounds out of range".
Proof.
  intros H. unfold jiraclient.real.capUpdate, Go.slice_to.
  rewrite maxBodyLength_value in *. zcases; reflexivity.
Qed.

(** ... and a body of maxBodyLength bytes or more is kept whole. *)
Lemma capUpdate_long (body : string) :
  (jiraclient.maxBodyLength <= Go.len body)%Z ->
  jiraclient.real.capUpdate body = Go.Ok body.
Proof.
  intros H. unfold jiraclient.real.capUpdate.
  rewrite maxBodyLength_value in *. zcases; reflexivity.
Qed.

Section LiveComments.
Context {W : Type}.
Variable bo : backoff.BackOff W.
Variable gh : ghClient.GitHubClient W.
Variable j : @jiraclient.real.realJIRAClient W.

(** A comment whose composed body is shorter than maxBodyLength makes
    UpdateComment panic before any request is built. *)
Lemma UpdateComment_short_panics (issue : jira.Issue) (id : string)
  (comment : github.IssueComment) (st : proc.St W jira.Call)
  (user : github.User) (w' : W) :
  ghClient.GetUser gh
    (github.User.Login (github.IssueComment.User comment)) (proc.world st)
  = (inl user, w') ->
  (Go.len (jiraclient.real.composeBody comment user)
   < jiraclient.maxBodyLength)%Z ->
  jiraclient.real.UpdateComment bo gh j issue id comment st
  = (Go.Panic "runtime error: slice bounds out of range",
     proc.mkSt w' (proc.calls st) (proc.logs st)).
Proof.
  intros Hu Hlen. unfold jiraclient.real.UpdateComment, proc.bind, proc.lift.
  rewrite Hu, (capUpdate_short _ Hlen). reflexivity.
Qed.

End LiveComments.

(** C1 (fails in UpdateComment). A comment of 40000 bytes, composed with
    its attribution header into a body of 40145 bytes: CreateComment
    submits its first 32768 bytes, UpdateComment submits all 40145
    bytes, above maxBodyLength = 32768. *)
Theorem UpdateComment_submits_overlong_body :
  observe.submittedLengths
    (jiraclient.real.UpdateComment (remote.retries 0) remote.gh
       fixture.liveClient (fixture.jIssue "") "77" fixture.longComment
       (remote.start (fixture.world []))).2
  = [40145%Z]
  /\ observe.submittedLengths
       (jiraclient.real.CreateComment (remote.retries 0) remote.gh
          fixture.liveClient (fixture.jIssue "") fixture.longComment
          (remote.start (fixture.world []))).2
     = [32768%Z]
  /\ jiraclient.maxBodyLength = 32768%Z.
Proof. vm_compute. repeat split. Qed.

(** C10 (fails). A comment whose composed body has 161 bytes: the slice
    expression [body[:maxBodyLength]] of UpdateComment is out of the
    body's bounds, the call panics and no request is sent. *)
Theorem UpdateComment_short_body_panics :
  Go.len (jiraclient.real.composeBody fixture.shortComment fixture.alice)
  = 161%Z
  /\ jiraclient.real.UpdateComment (remote.retries 0) remote.gh
       fixture.liveClient (fixture.jIssue "") "77" fixture.shortComment
       (remote.start (fixture.world []))
     = (Go.Panic "runtime error: slice bounds out of range",
        remote.start (fixture.world [])).
Proof.
  split; [reflexivity|].
  apply UpdateComment_short_panics with (user := fixture.alice);
    reflexivity.
Qed.

(** ** DidIssueChange *)

(** The value DidIssueChange computes, as one expression: the label
    comparison counts only when the mirrored labels cannot be read. *)
Lemma anyDifferent_spec (cfg : config.Config) (ghIssue : github.Issue)
  (jIssue : jira.Issue) :
  let fields := jira.Issue.Fields jIssue in
  let unknowns := jira.IssueFields.Unknowns fields in
  let mirroredLabels :=
    tcontainer.String_ unknowns (config.GetFieldKey cfg config.GitHubLabels) in
  sync.anyDifferent cfg ghIssue jIssue
  = negb (String.eqb (github.Issue.Title ghIssue)
            (jira.IssueFields.Summary fields))
    || negb (String.eqb (github.Issue.Body ghIssue)
               (jira.IssueFields.Description fields))
    || observe.differs (github.Issue.State ghIssue)
         (tcontainer.String_ unknowns
            (config.GetFieldKey cfg config.GitHubStatus))
    || observe.differs (github.User.Login (github.Issue.User ghIssue))
         (tcontainer.String_ unknowns
            (config.GetFieldKey cfg config.GitHubReporter))
    || (sync.isErr mirroredLabels.2
        && negb (String.eqb (Go.Join (sync.labelNames ghIssue) ",")
                   mirroredLabels.1)).
Proof.
  unfold sync.anyDifferent, observe.differs. cbv zeta.
  destruct (tcontainer.String_ _ (config.GetFieldKey cfg config.GitHubStatus))
    as [f1 e1].
  destruct (tcontainer.String_ _ (config.GetFieldKey cfg config.GitHubReporter))
    as [f2 e2].
  destruct (tcontainer.String_ _ (config.GetFieldKey cfg config.GitHubLabels))
    as [f3 e3].
  cbn [fst snd].
  repeat match goal with
         | |- context [String.eqb ?a ?b] => destruct (String.eqb a b)
         | |- context [sync.isErr ?e] => destruct (sync.isErr e)
         end; reflexivity.
Qed.

(** When the mirrored labels read as a string, DidIssueChange does not
    depend on the labels of the GitHub issue at all. *)
Lemma anyDifferent_blind_to_labels (cfg : config.Config)
  (ghIssue : github.Issue) (jIssue : jira.Issue) (labels : list github.Label)
  (mirrored : string) :
  jira.IssueFields.Unknowns (jira.Issue.Fields jIssue)
    !! config.GetFieldKey cfg config.GitHubLabels
  = Some (tcontainer.VString mirrored) ->
  sync.anyDifferent cfg
    (github.Issue.mk (github.Issue.ID ghIssue) (github.Issue.Number ghIssue)
       (github.Issue.Title ghIssue) (github.Issue.Body ghIssue)
       (github.Issue.State ghIssue) (github.Issue.User ghIssue) labels)
    jIssue
  = sync.anyDifferent cfg ghIssue jIssue.
Proof.
  intros H. rewrite !anyDifferent_spec. cbv zeta. cbn [github.Issue.Title
    github.Issue.Body github.Issue.State github.Issue.User].
  assert (tcontainer.String_
            (jira.IssueFields.Unknowns (jira.Issue.Fields jIssue))
            (config.GetFieldKey cfg config.GitHubLabels)
          = (mirrored, None)) as ->
    by (unfold tcontainer.String_; now rewrite H).
  reflexivity.
Qed.

(** C2 (fails on labels). The GitHub issue carries the label "bug", the
    JIRA issue mirrors every compared field and holds the empty string,
    a readable value, as mirrored labels: the label sets differ and
    DidIssueChange returns false. *)
Theorem DidIssueChange_misses_label_difference
  (S : Type) (st : proc.St S sync.Invocation) :
  (sync.DidIssueChange fixture.cfg (fixture.ghIssue ["bug"])
     (fixture.jIssue "") st).1 = false
  /\ Go.Join (sync.labelNames (fixture.ghIssue ["bug"])) "," = "bug"
  /\ tcontainer.String_
       (jira.IssueFields.Unknowns (jira.Issue.Fields (fixture.jIssue "")))
       (config.GetFieldKey fixture.cfg config.GitHubLabels)
     = ("", None).
Proof. repeat split. Qed.

(** ** The field registry *)

(** The chain of checks never looks at the GitHub URI field. *)
Lemma checkFields_blind_to_githubURI (a b c d e f g : string) :
  config.checkFields (config.mkFields a b c d e f g)
  = config.checkFields (config.mkFields a b c d e f "").
Proof. reflexivity. Qed.

(** The first field of the check order that is missing is the one the
    error names, for the six fields the chain tests. *)
Lemma checkFields_names_first_missing (f : config.fields) :
  config.checkFields f
  = if String.eqb (config.githubID f) "" then
      Some (config.notFound "GitHub ID")
    else if String.eqb (config.githubNumber f) "" then
      Some (config.notFound "GitHub Number")
    else if String.eqb (config.githubLabels f) "" then
      Some (config.notFound "Github Labels")
    else if String.eqb (config.githubStatus f) "" then
      Some (config.notFound "Github Status")
    else if String.eqb (config.githubReporter f) "" then
      Some (config.notFound "Github Reporter")
    else if String.eqb (config.lastUpdate f) "" then
      Some (config.notFound "Last Issue-Sync Update")
    else None.
Proof.
  unfold config.checkFields.
  repeat match goal with
         | |- context [String.eqb ?a ?b] => destruct (String.eqb a b)
         end; reflexivity.
Qed.

Section Construction.
Context {W : Type}.
Variable newJIRAHTTPClient : config.Config -> option Go.error.
Variable jira_NewClient : config.Config -> jira.Client W + Go.error.

(** Once the REST client exists, NewJIRAClient hands back a JIRAClient
    whatever LoadJIRAConfig returned. *)
Lemma NewJIRAClient_ignores_LoadJIRAConfig (cfg : config.Config)
  (client : jira.Client W) (st : proc.St W jira.Call) :
  config.basicAuth cfg = true ->
  jira_NewClient cfg = inl client ->
  exists impl,
    (jiraclient.NewJIRAClient newJIRAHTTPClient jira_NewClient cfg st).1.2
    = inl impl.
Proof.
  intros Hb Hc. unfold jiraclient.NewJIRAClient. rewrite Hb, Hc. cbn.
  unfold proc.bind, proc.log. cbn.
  destruct (config.LoadJIRAConfig cfg client _) as [[cfg' err] st'].
  cbn. destruct (config.IsDryRun cfg'); cbn; eauto.
Qed.

End Construction.

(** C3 (fails). Field metadata that lists the six custom fields other
    than GitHub URI resolves without error, the GitHub URI identifier
    left empty; and against a server that lists no field at all,
    LoadJIRAConfig reports the missing GitHub ID field while
    NewJIRAClient still returns a live client. *)
Theorem getFieldIDs_accepts_missing_GitHub_URI :
  config.resolveFields (fixture.decode fixture.sixFields)
  = (config.mkFields "10001" "10002" "10003" "10004" "10005" "10006" "",
     None)
  /\ (config.LoadJIRAConfig fixture.cfg0 remote.client
        (remote.start (fixture.worldWithFields []))).1.2
     = Some (config.notFound "GitHub ID")
  /\ (exists cfg j,
        (jiraclient.NewJIRAClient (fun _ => None)
           (fun _ => inl remote.client) fixture.cfg0
           (remote.start (fixture.worldWithFields []))).1
        = (cfg, inl (jiraclient.Real j))).
Proof.
  split; [reflexivity|]. split; [reflexivity|].
  eexists. eexists. reflexivity.
Qed.

(** ** The query builder *)

Section Query.
Context {W : Type}.
Variable gh : ghClient.GitHubClient W.

(** A failed membership lookup makes buildQuery panic with the lookup's
    error. *)
Lemma buildQuery_panics_on_lookup_error (cfg : config.Config) (w w' : W)
  (err : Go.error) :
  ghClient.GetMembers gh (config.GetSourceOrganisation cfg) w = (inr err, w')
  -> sync.buildQuery gh cfg w = (Go.Panic err, w').
Proof.
  intros H. unfold sync.buildQuery, sync.buildUserQuery. now rewrite H.
Qed.

(** After a successful lookup buildQuery returns a query when the
    settings decode, and panics with the error of the decoding when they
    do not. *)
Lemma buildQuery_returns_on_lookup_success (cfg : config.Config) (w w' : W)
  (users : list github.User) :
  ghClient.GetMembers gh (config.GetSourceOrganisation cfg) w
  = (inl users, w')
  -> match config.repos cfg with
     | inl _ => exists q, sync.buildQuery gh cfg w = (Go.Ok q, w')
     | inr err => sync.buildQuery gh cfg w = (Go.Panic err, w')
     end.
Proof.
  intros H. unfold sync.buildQuery, sync.buildUserQuery, config.GetRepos.
  rewrite H. destruct (config.repos cfg); [eexists|]; reflexivity.
Qed.

End Query.

(** C4 (fails on the since term). For the organisations, members and
    watermark of the example the query is the one below: the five scope
    and user terms are there, and the since term ends in the constant
    text +07:00 of the layout, so that the term with offset +00:00 is
    absent. *)
Theorem buildQuery_since_term_has_layout_offset :
  (sync.buildQuery remote.gh fixture.cfg (fixture.world [])).1
  = Go.Ok ("involves:alice involves:bob org:acme repo:acme2/x repo:acme2/y "
           +:+ "updated:>=2020-01-01T00:00:00+07:00 ")
  /\ forallb
       (Go.Contains
          ("involves:alice involves:bob org:acme repo:acme2/x repo:acme2/y "
           +:+ "updated:>=2020-01-01T00:00:00+07:00 "))
       ["involves:alice"; "involves:bob"; "org:acme"; "repo:acme2/x";
        "repo:acme2/y"]
     = true
  /\ Go.Contains
       ("involves:alice involves:bob org:acme repo:acme2/x repo:acme2/y "
        +:+ "updated:>=2020-01-01T00:00:00+07:00 ")
       "updated:>=2020-01-01T00:00:00+00:00"
     = false.
Proof. repeat split. Qed.

(** C9 (fails). When the membership lookup is refused, buildQuery panics
    with the lookup's error instead of returning it, and so does its
    caller getGitHubIssues. *)
Theorem buildQuery_panics_when_lookup_fails :
  sync.buildQuery remote.gh fixture.cfg fixture.worldWithoutMembers
  = (Go.Panic "403 Forbidden", fixture.worldWithoutMembers)
  /\ sync.getGitHubIssues remote.gh fixture.cfg fixture.worldWithoutMembers
     = (Go.Panic "403 Forbidden", fixture.worldWithoutMembers).
Proof. split; reflexivity. Qed.

(** ** ListIssues *)

(** Below the threshold the answer of the search is used as it is. *)
Lemma filterIssues_below_threshold (cfg : config.Config) (ids : list Z)
  (jiraIssues : list jira.Issue) :
  (Z.of_nat (length ids) < jiraclient.maxJQLIssueLength)%Z ->
  jiraclient.filterIssues cfg ids jiraIssues = jiraIssues.
Proof. intros H. unfold jiraclient.filterIssues. zcases. reflexivity. Qed.

(** From the threshold on, the issues kept are those whose GitHub ID
    field holds a number of the id list. *)
Lemma filterIssues_from_threshold (cfg : config.Config) (ids : list Z)
  (jiraIssues : list jira.Issue) (i : jira.Issue) :
  (jiraclient.maxJQLIssueLength <= Z.of_nat (length ids))%Z ->
  In i (jiraclient.filterIssues cfg ids jiraIssues)
  <-> In i jiraIssues
      /\ exists z,
           jira.IssueFields.Unknowns (jira.Issue.Fields i)
             !! config.GetFieldKey cfg config.GitHubID
           = Some (tcontainer.VNumber z)
           /\ In z ids.
Proof.
  intros H. unfold jiraclient.filterIssues. zcases.
  rewrite filter_In. unfold jiraclient.hasListedID, tcontainer.Value_,
    tcontainer.Int.
  split.
  - intros [Hin Hk]. split; [exact Hin|].
    destruct (_ !! _) as [[| |z|]|]; try discriminate.
    exists z. split; [reflexivity|].
    cbn in Hk. apply existsb_exists in Hk as [x [Hx Heq]].
    apply Z.eqb_eq in Heq. now subst.
  - intros [Hin [z [Hz Hids]]]. split; [exact Hin|]. rewrite Hz. cbn.
    apply existsb_exists. exists z. split; [exact Hids|apply Z.eqb_refl].
Qed.

(** C8 (fails in the dry-run client). A project of 51 mirrored issues and
    the id list 1..100 (at the threshold, so the filter is applied by the
    client): the live client pages through the project and returns all
    51 issues; the dry-run client sends one search without paging
    options, receives the server's first page of 50 and returns those,
    missing the issue whose cross-reference value 51 is in the id list.
    For the batch {5, 7, 9} and the id list {7} both return exactly the
    issue mapped to 7. *)
Theorem dryrun_ListIssues_misses_issues_beyond_first_page :
  (jiraclient.dryrun.ListIssues (remote.retries 0) fixture.previewClient
     (fixture.idsUpTo 100) (remote.start (fixture.world fixture.store51))).1
  = inl (List.map fixture.mirrored (seq 1 50))
  /\ (jiraclient.real.ListIssues (remote.retries 0) fixture.liveClient 2
        (fixture.idsUpTo 100)
        (remote.start (fixture.world fixture.store51))).1
     = Some (inl fixture.store51)
  /\ jiraclient.hasListedID fixture.cfg (fixture.idsUpTo 100)
       (fixture.mirrored 51) = true
  /\ (jiraclient.dryrun.ListIssues (remote.retries 0) fixture.previewClient
        [7%Z] (remote.start (fixture.world fixture.store579))).1
     = inl [fixture.mirrored 7]
  /\ (jiraclient.real.ListIssues (remote.retries 0) fixture.liveClient 1
        [7%Z] (remote.start (fixture.world fixture.store579))).1
     = Some (inl [fixture.mirrored 7]).
Proof. vm_compute. repeat split. Qed.

(** ** Requests of the two clients *)

Section Requests.
Context {W : Type}.
Variable bo : backoff.BackOff W.

(** Logging and reading an error body send nothing. *)
Lemma getErrorBody_calls (res : jira.Response) (st : proc.St W jira.Call) :
  proc.calls (jiraclient.getErrorBody res st).2 = proc.calls st
  /\ proc.world (jiraclient.getErrorBody res st).2 = proc.world st.
Proof.
  unfold jiraclient.getErrorBody.
  destruct (jira.Response.Body res); cbn; auto.
Qed.

(** An operation that succeeds at once is run once. *)
Lemma RetryNotify_first_success {A} (what : string) (c : jira.Call)
  (f : W -> jira.Reply A * W) (waits : list Z) (st : proc.St W jira.Call)
  (a : A) (res : jira.Response) (w' : W) :
  f (proc.world st) = (jira.Success a res, w') ->
  jiraclient.RetryNotify bo what (proc.exchange c f) waits st
  = (jira.Success a res,
     proc.mkSt w' (proc.calls st ++ [c]) (proc.logs st)).
Proof.
  intros H. destruct waits; cbn; unfold proc.bind, proc.exchange;
    rewrite H; reflexivity.
Qed.

(** RetryNotify runs the operation at least once and at most once more
    than the policy grants waits, and sends nothing else. *)
Lemma RetryNotify_exchanges {A} (what : string) (c : jira.Call)
  (f : W -> jira.Reply A * W) (waits : list Z) (st : proc.St W jira.Call) :
  exists n,
    (1 <= n <= Datatypes.S (length waits))%nat
    /\ proc.calls
         (jiraclient.RetryNotify bo what (proc.exchange c f) waits st).2
       = proc.calls st ++ repeat c n.
Proof.
  revert st. induction waits as [|next waits IH]; intros st.
  - exists 1%nat. split; [cbn; lia|].
    cbn. unfold proc.bind, proc.exchange.
    destruct (f (proc.world st)) as [[a res|res err] w']; reflexivity.
  - cbn. unfold proc.bind at 1. unfold proc.exchange at 1.
    destruct (f (proc.world st)) as [[a res|res err] w'].
    + exists 1%nat. split; [cbn; lia|reflexivity].
    + unfold proc.bind, proc.log, proc.lift. cbn.
      match goal with
      | |- context [jiraclient.RetryNotify bo what _ waits ?s] =>
          destruct (IH s) as [n [Hn Hc]]
      end.
      exists (Datatypes.S n). split; [cbn in *; lia|].
      rewrite Hc. cbn. now rewrite <- app_assoc.
Qed.

Lemma request_exchanges (what : string) (c : jira.Call)
  (f : W -> jira.Reply jiraclient.Any * W) (st : proc.St W jira.Call) :
  exists n,
    (1 <= n <= Datatypes.S (length (backoff.schedule bo (proc.world st))))%nat
    /\ proc.calls (jiraclient.request bo what (proc.exchange c f) st).2
       = proc.calls st ++ repeat c n.
Proof. unfold jiraclient.request. apply RetryNotify_exchanges. Qed.

Lemma wrap_success {A} (inj : A -> jiraclient.Any)
  (f : W -> jira.Reply A * W) (w w' : W) (a : A) (res : jira.Response) :
  f w = (jira.Success a res, w') ->
  jiraclient.wrap inj f w = (jira.Success (inj a) res, w').
Proof. intros H. unfold jiraclient.wrap. now rewrite H. Qed.

(** The retry line for a failed attempt that is followed by a wait. *)
Lemma RetryNotify_step {A} (what : string) (c : jira.Call)
  (f : W -> jira.Reply A * W) (next : Z) (waits : list Z)
  (st : proc.St W jira.Call) :
  jiraclient.RetryNotify bo what (proc.exchange c f) (next :: waits) st
  = match f (proc.world st) with
    | (jira.Success a res, w') =>
        (jira.Success a res,
         proc.mkSt w' (proc.calls st ++ [c]) (proc.logs st))
    | (jira.Failure res err, w') =>
        jiraclient.RetryNotify bo what (proc.exchange c f) waits
          (proc.mkSt (backoff.Sleep bo next w') (proc.calls st ++ [c])
             (proc.logs st
              ++ [logrus.Errorf
                    ("unable to complete " +:+ what
                       +:+ " request; retrying in %v: %v")
                    [logrus.AInt
                       (Z.quot next jiraclient.RetryBackoffRoundRatio
                        * jiraclient.RetryBackoffRoundRatio);
                     logrus.AStr err]]))
    end.
Proof.
  cbn [jiraclient.RetryNotify]. unfold proc.bind at 1.
  unfold proc.exchange at 1.
  destruct (f (proc.world st)) as [[a res|res err] w']; reflexivity.
Qed.

Lemma RetryNotify_last {A} (what : string) (c : jira.Call)
  (f : W -> jira.Reply A * W) (st : proc.St W jira.Call) :
  jiraclient.RetryNotify bo what (proc.exchange c f) [] st
  = ((f (proc.world st)).1,
     proc.mkSt (f (proc.world st)).2 (proc.calls st ++ [c]) (proc.logs st)).
Proof.
  cbn [jiraclient.RetryNotify]. unfold proc.bind, proc.exchange.
  destruct (f (proc.world st)) as [[a res|res err] w']; reflexivity.
Qed.

(** RetryNotify makes the runs 0 to n - 1 of its exchange and no other:
    each run before the last was answered with an error (and followed
    by its wait), and the last run either succeeded or was answered with
    an error when no wait was left; its answer and world are those
    RetryNotify hands back. *)
Lemma RetryNotify_attempts {A} (what : string) (c : jira.Call)
  (f : W -> jira.Reply A * W) (waits : list Z) (st : proc.St W jira.Call) :
  exists n,
    (1 <= n <= Datatypes.S (length waits))%nat
    /\ proc.calls
         (jiraclient.RetryNotify bo what (proc.exchange c f) waits st).2
       = proc.calls st ++ repeat c n
    /\ (forall k, (Datatypes.S k < n)%nat ->
          observe.failed (observe.attempt bo f waits (proc.world st) k).1
          = true)
    /\ (jiraclient.RetryNotify bo what (proc.exchange c f) waits st).1
       = (observe.attempt bo f waits (proc.world st) (n - 1)).1
    /\ proc.world
         (jiraclient.RetryNotify bo what (proc.exchange c f) waits st).2
       = (observe.attempt bo f waits (proc.world st) (n - 1)).2
    /\ (observe.failed
          (jiraclient.RetryNotify bo what (proc.exchange c f) waits st).1
        = true -> n = Datatypes.S (length waits)).
Proof.
  revert st. induction waits as [|next waits IH]; intros st.
  - exists 1%nat. rewrite RetryNotify_last. cbn.
    repeat split; intros; lia || reflexivity.
  - rewrite RetryNotify_step.
    destruct (f (proc.world st)) as [[a res|res err] w'] eqn:E.
    + exists 1%nat. cbn. rewrite E.
      repeat split; intros; lia || discriminate || reflexivity.
    + match goal with
      | |- context [jiraclient.RetryNotify bo what _ waits ?s] =>
          destruct (IH s) as (n & Hn & Hc & Hfail & Hres & Hw & Hex)
      end.
      cbn [proc.world proc.calls] in *.
      exists (Datatypes.S n). split; [cbn [length]; lia|]. split.
      { rewrite Hc. cbn. now rewrite <- app_assoc. }
      split.
      { intros [|k] Hk; cbn [observe.attempt]; rewrite E.
        - reflexivity.
        - cbn [snd]. apply Hfail. lia. }
      assert (Datatypes.S n - 1 = Datatypes.S (n - 1))%nat as -> by lia.
      cbn [observe.attempt]. rewrite E. cbn [snd].
      split; [exact Hres|]. split; [exact Hw|].
      intros Hf. f_equal. apply Hex. exact Hf.
Qed.

(** The runs of a wrapped library call fail where the runs of the call
    fail, and leave the same worlds. *)
Lemma attempt_wrap {A} (inj : A -> jiraclient.Any)
  (f : W -> jira.Reply A * W) (waits : list Z) (w : W) (k : nat) :
  observe.attempt bo (jiraclient.wrap inj f) waits w k
  = jiraclient.wrap inj (fun w => observe.attempt bo f waits w k) w.
Proof.
  revert waits w. induction k as [|k IH]; intros waits w.
  - destruct waits; reflexivity.
  - destruct waits as [|next rest]; [reflexivity|].
    cbn [observe.attempt]. rewrite IH.
    assert ((jiraclient.wrap inj f w).2 = (f w).2) as ->
      by (unfold jiraclient.wrap; now destruct (f w) as [[? ?|? ?] ?]).
    reflexivity.
Qed.

Lemma failed_wrap {A} (inj : A -> jiraclient.Any)
  (g : W -> jira.Reply A * W) (w : W) :
  observe.failed (jiraclient.wrap inj g w).1 = observe.failed (g w).1.
Proof. unfold jiraclient.wrap. now destruct (g w) as [[? ?|? ?] ?]. Qed.

Variable j : @jiraclient.real.realJIRAClient W.

(** The exchanges of the live CreateIssue: the create request, sent once
    and once more for each retried failure. *)
Lemma real_CreateIssue_exchanges (issue : jira.Issue)
  (st : proc.St W jira.Call) :
  exists n,
    (1 <= n <= Datatypes.S (length (backoff.schedule bo (proc.world st))))%nat
    /\ proc.calls (jiraclient.real.CreateIssue bo j issue st).2
       = proc.calls st ++ repeat (jira.CIssueCreate issue) n.
Proof.
  unfold jiraclient.real.CreateIssue. unfold proc.bind at 1.
  match goal with
  | |- context [jiraclient.request bo ?w (proc.exchange ?c ?f) st] =>
      destruct (request_exchanges w c f st) as [n [Hn Hc]];
      destruct (jiraclient.request bo w (proc.exchange c f) st)
        as [[a res|res err] st']
  end; exists n; (split; [exact Hn|]); cbn in Hc.
  - destruct a; cbn; exact Hc.
  - unfold proc.bind, proc.log. cbn.
    match goal with
    | |- context [jiraclient.getErrorBody res ?s] =>
        pose proof (getErrorBody_calls res s) as [Hg _];
        destruct (jiraclient.getErrorBody res s) as [e s']
    end.
    cbn in *. now rewrite Hg.
Qed.

(** The same for the live UpdateIssue. *)
Lemma real_UpdateIssue_exchanges (issue : jira.Issue)
  (st : proc.St W jira.Call) :
  exists n,
    (1 <= n <= Datatypes.S (length (backoff.schedule bo (proc.world st))))%nat
    /\ proc.calls (jiraclient.real.UpdateIssue bo j issue st).2
       = proc.calls st ++ repeat (jira.CIssueUpdate issue) n.
Proof.
  unfold jiraclient.real.UpdateIssue. unfold proc.bind at 1.
  match goal with
  | |- context [jiraclient.request bo ?w (proc.exchange ?c ?f) st] =>
      destruct (request_exchanges w c f st) as [n [Hn Hc]];
      destruct (jiraclient.request bo w (proc.exchange c f) st)
        as [[a res|res err] st']
  end; exists n; (split; [exact Hn|]); cbn in Hc.
  - destruct a; cbn; exact Hc.
  - unfold proc.bind, proc.log. cbn.
    match goal with
    | |- context [jiraclient.getErrorBody res ?s] =>
        pose proof (getErrorBody_calls res s) as [Hg _];
        destruct (jiraclient.getErrorBody res s) as [e s']
    end.
    cbn in *. now rewrite Hg.
Qed.

(** The requests of the live CreateIssue: the create request is run again
    after every run that was answered with an error while the policy
    had a wait left, and never after another; the issue of the run that
    succeeded is the one returned. *)
Lemma real_CreateIssue_attempts (issue : jira.Issue)
  (st : proc.St W jira.Call) :
  exists n,
    (1 <= n <= Datatypes.S (length (backoff.schedule bo (proc.world st))))%nat
    /\ proc.calls (jiraclient.real.CreateIssue bo j issue st).2
       = proc.calls st ++ repeat (jira.CIssueCreate issue) n
    /\ (forall k, (Datatypes.S k < n)%nat ->
          observe.failed
            (observe.attempt bo
               (jira.IssueCreate (jiraclient.real.client j) issue)
               (backoff.schedule bo (proc.world st)) (proc.world st) k).1
          = true)
    /\ (observe.failed
          (observe.attempt bo
             (jira.IssueCreate (jiraclient.real.client j) issue)
             (backoff.schedule bo (proc.world st)) (proc.world st)
             (n - 1)).1
        = true ->
        n = Datatypes.S (length (backoff.schedule bo (proc.world st))))
    /\ (forall served res,
          (observe.attempt bo
             (jira.IssueCreate (jiraclient.real.client j) issue)
             (backoff.schedule bo (proc.world st)) (proc.world st)
             (n - 1)).1
          = jira.Success served res ->
          (jiraclient.real.CreateIssue bo j issue st).1 = inl served).
Proof.
  remember (jiraclient.real.CreateIssue bo j issue st) as r eqn:Hr.
  unfold jiraclient.real.CreateIssue in Hr. unfold proc.bind at 1 in Hr.
  unfold jiraclient.request in Hr.
  pose proof (fun k =>
                failed_wrap jiraclient.AIssue
                  (fun w =>
                     observe.attempt bo
                       (jira.IssueCreate (jiraclient.real.client j) issue)
                       (backoff.schedule bo (proc.world st)) w k)
                  (proc.world st)) as Hfw.
  cbn beta in Hfw.
  match type of Hr with
  | context [jiraclient.RetryNotify bo ?w (proc.exchange ?c ?f) ?sc st] =>
      destruct (RetryNotify_attempts w c f sc st)
        as (n & Hn & Hc & Hfail & Hres & _ & Hex);
      destruct (jiraclient.RetryNotify bo w (proc.exchange c f) sc st)
        as [[a res|res err] st']
  end; exists n; (split; [exact Hn|]); cbn [fst snd] in *;
    rewrite attempt_wrap in Hres;
    assert (forall k, (Datatypes.S k < n)%nat ->
              observe.failed
                (observe.attempt bo
                   (jira.IssueCreate (jiraclient.real.client j) issue)
                   (backoff.schedule bo (proc.world st)) (proc.world st)
                   k).1 = true) as Hfail'
      by (intros k Hk; specialize (Hfail k Hk);
          rewrite attempt_wrap, Hfw in Hfail; exact Hfail).
  - assert (proc.calls r.2
            = proc.calls st ++ repeat (jira.CIssueCreate issue) n) as Hcalls
      by (subst r; destruct a; cbn; exact Hc).
    split; [exact Hcalls|]. split; [exact Hfail'|]. split.
    + intros Hf. rewrite <- Hfw, <- Hres in Hf. discriminate.
    + intros served res' Hs. unfold jiraclient.wrap in Hres.
      destruct (observe.attempt bo _ _ _ _) as [[x rx|rx ex] wx];
        cbn [fst] in *; [|discriminate].
      injection Hs as -> ->. injection Hres as -> ->. subst r. reflexivity.
  - assert (proc.calls r.2
            = proc.calls st ++ repeat (jira.CIssueCreate issue) n) as Hcalls.
    { subst r. unfold proc.bind, proc.log. cbn.
      match goal with
      | |- context [jiraclient.getErrorBody res ?s] =>
          pose proof (getErrorBody_calls res s) as [Hg _];
          destruct (jiraclient.getErrorBody res s) as [e s']
      end.
      cbn in *. now rewrite Hg. }
    split; [exact Hcalls|]. split; [exact Hfail'|]. split.
    + intros _. apply Hex. reflexivity.
    + intros served res' Hs. unfold jiraclient.wrap in Hres.
      destruct (observe.attempt bo _ _ _ _) as [[x rx|rx ex] wx];
        cbn [fst] in *; discriminate.
Qed.

(** The requests of the live UpdateIssue: the update request is run again
    after every run that was answered with an error while the policy
    had a wait left, and never after another; the issue of the run that
    succeeded is the one returned. *)
Lemma real_UpdateIssue_attempts (issue : jira.Issue)
  (st : proc.St W jira.Call) :
  exists n,
    (1 <= n <= Datatypes.S (length (backoff.schedule bo (proc.world st))))%nat
    /\ proc.calls (jiraclient.real.UpdateIssue bo j issue st).2
       = proc.calls st ++ repeat (jira.CIssueUpdate issue) n
    /\ (forall k, (Datatypes.S k < n)%nat ->
          observe.failed
            (observe.attempt bo
               (jira.IssueUpdate (jiraclient.real.client j) issue)
               (backoff.schedule bo (proc.world st)) (proc.world st) k).1
          = true)
    /\ (observe.failed
          (observe.attempt bo
             (jira.IssueUpdate (jiraclient.real.client j) issue)
             (backoff.schedule bo (proc.world st)) (proc.world st)
             (n - 1)).1
        = true ->
        n = Datatypes.S (length (backoff.schedule bo (proc.world st))))
    /\ (forall served res,
          (observe.attempt bo
             (jira.IssueUpdate (jiraclient.real.client j) issue)
             (backoff.schedule bo (proc.world st)) (proc.world st)
             (n - 1)).1
          = jira.Success served res ->
          (jiraclient.real.UpdateIssue bo j issue st).1 = inl served).
Proof.
  remember (jiraclient.real.UpdateIssue bo j issue st) as r eqn:Hr.
  unfold jiraclient.real.UpdateIssue in Hr. unfold proc.bind at 1 in Hr.
  unfold jiraclient.request in Hr.
  pose proof (fun k =>
                failed_wrap jiraclient.AIssue
                  (fun w =>
                     observe.attempt bo
                       (jira.IssueUpdate (jiraclient.real.client j) issue)
                       (backoff.schedule bo (proc.world st)) w k)
                  (proc.world st)) as Hfw.
  cbn beta in Hfw.
  match type of Hr with
  | context [jiraclient.RetryNotify bo ?w (proc.exchange ?c ?f) ?sc st] =>
      destruct (RetryNotify_attempts w c f sc st)
        as (n & Hn & Hc & Hfail & Hres & _ & Hex);
      destruct (jiraclient.RetryNotify bo w (proc.exchange c f) sc st)
        as [[a res|res err] st']
  end; exists n; (split; [exact Hn|]); cbn [fst snd] in *;
    rewrite attempt_wrap in Hres;
    assert (forall k, (Datatypes.S k < n)%nat ->
              observe.failed
                (observe.attempt bo
                   (jira.IssueUpdate (jiraclient.real.client j) issue)
                   (backoff.schedule bo (proc.world st)) (proc.world st)
                   k).1 = true) as Hfail'
      by (intros k Hk; specialize (Hfail k Hk);
          rewrite attempt_wrap, Hfw in Hfail; exact Hfail).
  - assert (proc.calls r.2
            = proc.calls st ++ repeat (jira.CIssueUpdate issue) n) as Hcalls
      by (subst r; destruct a; cbn; exact Hc).
    split; [exact Hcalls|]. split; [exact Hfail'|]. split.
    + intros Hf. rewrite <- Hfw, <- Hres in Hf. discriminate.
    + intros served res' Hs. unfold jiraclient.wrap in Hres.
      destruct (observe.attempt bo _ _ _ _) as [[x rx|rx ex] wx];
        cbn [fst] in *; [|discriminate].
      injection Hs as -> ->. injection Hres as -> ->. subst r. reflexivity.
  - assert (proc.calls r.2
            = proc.calls st ++ repeat (jira.CIssueUpdate issue) n) as Hcalls.
    { subst r. unfold proc.bind, proc.log. cbn.
      match goal with
      | |- context [jiraclient.getErrorBody res ?s] =>
          pose proof (getErrorBody_calls res s) as [Hg _];
          destruct (jiraclient.getErrorBody res s) as [e s']
      end.
      cbn in *. now rewrite Hg. }
    split; [exact Hcalls|]. split; [exact Hfail'|]. split.
    + intros _. apply Hex. reflexivity.
    + intros served res' Hs. unfold jiraclient.wrap in Hres.
      destruct (observe.attempt bo _ _ _ _) as [[x rx|rx ex] wx];
        cbn [fst] in *; discriminate.
Qed.

End Requests.

Section LiveCommentRequests.
Context {W : Type}.
Variable bo : backoff.BackOff W.
Variable gh : ghClient.GitHubClient W.
Variable j : @jiraclient.real.realJIRAClient W.

(** The cap of CreateComment never panics. *)
Lemma capCreate_total (body : string) :
  exists cut,
    jiraclient.real.capCreate body = Go.Ok cut
    /\ Go.len cut = Z.min (Go.len body) jiraclient.maxBodyLength
    /\ String.prefix cut body = true.
Proof.
  destruct (Z.le_gt_cases (Go.len body) jiraclient.maxBodyLength) as [H|H].
  - exists body. rewrite (capCreate_within _ H). split; [reflexivity|].
    split; [lia|]. rewrite <- (substring_0_all body) at 1.
    apply substring_0_prefix.
  - destruct (capCreate_beyond _ H) as [cut [Hc [Hl Hp]]].
    exists cut. split; [exact Hc|]. split; [lia|exact Hp].
Qed.

(** The requests of the live CreateComment, once the author is found:
    the add-comment request, whose body is the composed body capped at
    maxBodyLength, and nothing else. *)
Lemma CreateComment_submits_capped_body (issue : jira.Issue)
  (comment : github.IssueComment) (st : proc.St W jira.Call)
  (user : github.User) (w' : W) :
  ghClient.GetUser gh
    (github.User.Login (github.IssueComment.User comment)) (proc.world st)
  = (inl user, w') ->
  exists cut n,
    jiraclient.real.capCreate (jiraclient.real.composeBody comment user)
    = Go.Ok cut
    /\ Go.len cut
       = Z.min (Go.len (jiraclient.real.composeBody comment user))
           jiraclient.maxBodyLength
    /\ (1 <= n)%nat
    /\ proc.calls (jiraclient.real.CreateComment bo gh j issue comment st).2
       = proc.calls st
         ++ repeat (jira.CIssueAddComment (jira.Issue.ID issue)
                      (jira.Comment.mk "" cut)) n.
Proof.
  intros Hu.
  destruct (capCreate_total (jiraclient.real.composeBody comment user))
    as [cut [Hc [Hl _]]].
  unfold jiraclient.real.CreateComment. unfold proc.bind at 1.
  unfold proc.lift. rewrite Hu, Hc. unfold proc.bind at 1.
  match goal with
  | |- context [jiraclient.request bo ?w (proc.exchange ?c ?f) ?s] =>
      destruct (request_exchanges bo w c f s) as [n [Hn Hcalls]];
      destruct (jiraclient.request bo w (proc.exchange c f) s)
        as [[a res|res err] st']
  end; exists cut, n; (split; [reflexivity|]); (split; [exact Hl|]);
    (split; [lia|]); cbn in Hcalls.
  - destruct a; cbn; exact Hcalls.
  - unfold proc.bind, proc.log. cbn.
    match goal with
    | |- context [jiraclient.getErrorBody res ?s] =>
        pose proof (getErrorBody_calls res s) as [Hg _];
        destruct (jiraclient.getErrorBody res s) as [e s']
    end.
    cbn in *. now rewrite Hg.
Qed.

(** The requests of the live UpdateComment for a composed body of
    maxBodyLength bytes or more: the PUT request with the whole composed
    body. *)
Lemma UpdateComment_submits_whole_body (issue : jira.Issue) (id : string)
  (comment : github.IssueComment) (st : proc.St W jira.Call)
  (user : github.User) (w' : W) (req : jira.Request) :
  ghClient.GetUser gh
    (github.User.Login (github.IssueComment.User comment)) (proc.world st)
  = (inl user, w') ->
  (jiraclient.maxBodyLength
   <= Go.len (jiraclient.real.composeBody comment user))%Z ->
  jira.NewRequest (jiraclient.real.client j) jira.PUT
    ("rest/api/2/issue/" +:+ jira.Issue.Key issue +:+ "/comment/" +:+ id)
    (Some (jiraclient.real.composeBody comment user))
  = inl req ->
  exists n,
    (1 <= n)%nat
    /\ proc.calls
         (jiraclient.real.UpdateComment bo gh j issue id comment st).2
       = proc.calls st ++ repeat (jira.CDo req) n.
Proof.
  intros Hu Hlen Hreq.
  unfold jiraclient.real.UpdateComment. unfold proc.bind at 1.
  unfold proc.lift. rewrite Hu, (capUpdate_long _ Hlen), Hreq.
  unfold proc.bind at 1.
  match goal with
  | |- context [jiraclient.request bo ?w (proc.exchange ?c ?f) ?s] =>
      destruct (request_exchanges bo w c f s) as [n [Hn Hcalls]];
      destruct (jiraclient.request bo w (proc.exchange c f) s)
        as [[a res|res err] st']
  end; exists n; (split; [lia|]); cbn in Hcalls.
  - destruct a; cbn; exact Hcalls.
  - unfold proc.bind, proc.log. cbn.
    match goal with
    | |- context [jiraclient.getErrorBody res ?s] =>
        pose proof (getErrorBody_calls res s) as [Hg _];
        destruct (jiraclient.getErrorBody res s) as [e s']
    end.
    cbn in *. now rewrite Hg.
Qed.

End LiveCommentRequests.

(** C6, as stated, fails for the live client: the server fails the first
    create request and serves the second; the one CreateIssue operation
    returns the created issue after two mutating requests. *)
Lemma live_CreateIssue_retried_sends_two_requests :
  proc.calls
    (jiraclient.real.CreateIssue (remote.retries 3) fixture.liveClient
       fixture.newIssue (remote.start fixture.worldWithFault)).2
  = [jira.CIssueCreate fixture.newIssue; jira.CIssueCreate fixture.newIssue]
  /\ observe.mutations
       (jiraclient.real.CreateIssue (remote.retries 3) fixture.liveClient
          fixture.newIssue (remote.start fixture.worldWithFault)).2
     = 2%nat
  /\ (jiraclient.real.CreateIssue (remote.retries 3) fixture.liveClient
        fixture.newIssue (remote.start fixture.worldWithFault)).1
     = inl (jira.Issue.mk "1" "PROJ-1" (jira.Issue.Fields fixture.newIssue)).
Proof. vm_compute. repeat split. Qed.

(** C6, amended. The dry-run CreateIssue and UpdateIssue send no request,
    leave the remote world as it is and return the issue they were
    given. The live CreateIssue and UpdateIssue send their mutating
    request n times and nothing else, where the runs 0 to n - 2 of the
    request were each answered with an error and retried, and run n - 1
    is the first that succeeded or the one that failed when the back-off
    policy had no wait left: once when the first attempt succeeds, and
    once more for every failed attempt that is retried. The issue of the
    run that succeeded is the one returned. *)
Theorem preview_sends_nothing_live_sends_until_served
  (W : Type) (bo : backoff.BackOff W)
  (jd : @jiraclient.dryrun.dryrunJIRAClient W)
  (jr : @jiraclient.real.realJIRAClient W)
  (issue : jira.Issue) (st : proc.St W jira.Call) :
  ((jiraclient.dryrun.CreateIssue jd issue st).1 = inl issue
   /\ proc.calls (jiraclient.dryrun.CreateIssue jd issue st).2 = proc.calls st
   /\ proc.world (jiraclient.dryrun.CreateIssue jd issue st).2
      = proc.world st)
  /\ ((jiraclient.dryrun.UpdateIssue jd issue st).1 = inl issue
      /\ proc.calls (jiraclient.dryrun.UpdateIssue jd issue st).2
         = proc.calls st
      /\ proc.world (jiraclient.dryrun.UpdateIssue jd issue st).2
         = proc.world st)
  /\ (exists n,
        (1 <= n
         <= Datatypes.S (length (backoff.schedule bo (proc.world st))))%nat
        /\ proc.calls (jiraclient.real.CreateIssue bo jr issue st).2
           = proc.calls st ++ repeat (jira.CIssueCreate issue) n
        /\ (forall k, (Datatypes.S k < n)%nat ->
              observe.failed
                (observe.attempt bo
                   (jira.IssueCreate (jiraclient.real.client jr) issue)
                   (backoff.schedule bo (proc.world st)) (proc.world st)
                   k).1
              = true)
        /\ (observe.failed
              (observe.attempt bo
                 (jira.IssueCreate (jiraclient.real.client jr) issue)
                 (backoff.schedule bo (proc.world st)) (proc.world st)
                 (n - 1)).1
            = true ->
            n = Datatypes.S (length (backoff.schedule bo (proc.world st))))
        /\ (forall served res,
              (observe.attempt bo
                 (jira.IssueCreate (jiraclient.real.client jr) issue)
                 (backoff.schedule bo (proc.world st)) (proc.world st)
                 (n - 1)).1
              = jira.Success served res ->
              (jiraclient.real.CreateIssue bo jr issue st).1 = inl served))
  /\ (exists n,
        (1 <= n
         <= Datatypes.S (length (backoff.schedule bo (proc.world st))))%nat
        /\ proc.calls (jiraclient.real.UpdateIssue bo jr issue st).2
           = proc.calls st ++ repeat (jira.CIssueUpdate issue) n
        /\ (forall k, (Datatypes.S k < n)%nat ->
              observe.failed
                (observe.attempt bo
                   (jira.IssueUpdate (jiraclient.real.client jr) issue)
                   (backoff.schedule bo (proc.world st)) (proc.world st)
                   k).1
              = true)
        /\ (observe.failed
              (observe.attempt bo
                 (jira.IssueUpdate (jiraclient.real.client jr) issue)
                 (backoff.schedule bo (proc.world st)) (proc.world st)
                 (n - 1)).1
            = true ->
            n = Datatypes.S (length (backoff.schedule bo (proc.world st))))
        /\ (forall served res,
              (observe.attempt bo
                 (jira.IssueUpdate (jiraclient.real.client jr) issue)
                 (backoff.schedule bo (proc.world st)) (proc.world st)
                 (n - 1)).1
              = jira.Success served res ->
              (jiraclient.real.UpdateIssue bo jr issue st).1 = inl served))
  /\ (forall created res w',
        jira.IssueCreate (jiraclient.real.client jr) issue (proc.world st)
        = (jira.Success created res, w') ->
        jiraclient.real.CreateIssue bo jr issue st
        = (inl created,
           proc.mkSt w' (proc.calls st ++ [jira.CIssueCreate issue])
             (proc.logs st)))
  /\ (forall updated res w',
        jira.IssueUpdate (jiraclient.real.client jr) issue (proc.world st)
        = (jira.Success updated res, w') ->
        jiraclient.real.UpdateIssue bo jr issue st
        = (inl updated,
           proc.mkSt w' (proc.calls st ++ [jira.CIssueUpdate issue])
             (proc.logs st))).
Proof.
  repeat apply conj; try reflexivity.
  - unfold jiraclient.dryrun.UpdateIssue, jiraclient.dryrun.logIfString.
    repeat destruct (tcontainer.String_ _ _) as [? [?|]]; reflexivity.
  - unfold jiraclient.dryrun.UpdateIssue, jiraclient.dryrun.logIfString.
    repeat destruct (tcontainer.String_ _ _) as [? [?|]]; reflexivity.
  - unfold jiraclient.dryrun.UpdateIssue, jiraclient.dryrun.logIfString.
    repeat destruct (tcontainer.String_ _ _) as [? [?|]]; reflexivity.
  - apply real_CreateIssue_attempts.
  - apply real_UpdateIssue_attempts.
  - intros created res w' H.
    unfold jiraclient.real.CreateIssue, jiraclient.request, proc.bind.
    erewrite RetryNotify_first_success by (apply wrap_success; exact H).
    reflexivity.
  - intros updated res w' H.
    unfold jiraclient.real.UpdateIssue, jiraclient.request, proc.bind.
    erewrite RetryNotify_first_success by (apply wrap_success; exact H).
    reflexivity.
Qed.

(** ** The engine *)

Section EngineProperties.
Context {S : Type}.
Variable jClient : jiraclient.JIRAClient S.
Variable CompareComments :
  config.Config -> github.Issue -> jira.Issue -> S -> option Go.error * S.
Variable Now : S -> time.Time.

Local Abbreviation UpdateIssue := (sync.UpdateIssue jClient CompareComments Now).
Local Abbreviation CreateIssue := (sync.CreateIssue jClient CompareComments Now).
Local Abbreviation compareOne := (sync.compareOne jClient CompareComments Now).
Local Abbreviation CompareIssues :=
  (sync.CompareIssues jClient CompareComments Now).

Lemma DidIssueChange_value (cfg : config.Config) (ghIssue : github.Issue)
  (jIssue : jira.Issue) (st : proc.St S sync.Invocation) :
  (sync.DidIssueChange cfg ghIssue jIssue st).1
  = sync.anyDifferent cfg ghIssue jIssue.
Proof. reflexivity. Qed.

(** C7. When DidIssueChange is false, UpdateIssue makes no
    field-altering call: it calls GetIssue with the key of the JIRA
    issue and, when that returns an issue, CompareComments on it, whose
    result is the result of UpdateIssue; when GetIssue fails, its error
    is returned. *)
Theorem UpdateIssue_unchanged_refetches_then_reconciles
  (cfg : config.Config) (ghIssue : github.Issue) (jIssue : jira.Issue)
  (st : proc.St S sync.Invocation) :
  (sync.DidIssueChange cfg ghIssue jIssue st).1 = false ->
  exists new,
    proc.calls (UpdateIssue cfg ghIssue jIssue st).2 = proc.calls st ++ new
    /\ existsb observe.fieldAltering new = false
    /\ match jiraclient.GetIssue jClient (jira.Issue.Key jIssue)
               (proc.world st) with
       | (inl issue, s) =>
           new = [sync.GetIssue (jira.Issue.Key jIssue);
                  sync.CompareComments_ ghIssue issue]
           /\ ((UpdateIssue cfg ghIssue jIssue st).1,
               proc.world (UpdateIssue cfg ghIssue jIssue st).2)
              = CompareComments cfg ghIssue issue s
       | (inr err, s) =>
           new = [sync.GetIssue (jira.Issue.Key jIssue)]
           /\ (UpdateIssue cfg ghIssue jIssue st).1 = Some err
           /\ proc.world (UpdateIssue cfg ghIssue jIssue st).2 = s
       end.
Proof.
  rewrite DidIssueChange_value. intros H.
  unfold sync.UpdateIssue, sync.DidIssueChange, proc.bind, proc.log,
    proc.exchange, proc.ret. cbn. rewrite H. cbn.
  destruct (jiraclient.GetIssue jClient (jira.Issue.Key jIssue) (proc.world st))
    as [[issue|err] s]; cbn.
  - destruct (CompareComments cfg ghIssue issue s) as [r s'] eqn:E. cbn.
    eexists. split; [rewrite <- app_assoc; reflexivity|].
    repeat split.
  - eexists. split; [reflexivity|]. repeat split.
Qed.

(** When DidIssueChange is true and the client's UpdateIssue succeeds,
    the same two calls follow the update. *)
Lemma UpdateIssue_changed_refetches_then_reconciles
  (cfg : config.Config) (ghIssue : github.Issue) (jIssue : jira.Issue)
  (st : proc.St S sync.Invocation) (updated issue : jira.Issue) (s s' : S) :
  sync.anyDifferent cfg ghIssue jIssue = true ->
  let submitted :=
    jira.Issue.mk (jira.Issue.ID jIssue) (jira.Issue.Key jIssue)
      (sync.updateFields cfg ghIssue jIssue (Now (proc.world st))) in
  jiraclient.UpdateIssue jClient submitted (proc.world st) = (inl updated, s) ->
  jiraclient.GetIssue jClient (jira.Issue.Key jIssue) s = (inl issue, s') ->
  proc.calls (UpdateIssue cfg ghIssue jIssue st).2
  = proc.calls st ++ [sync.UpdateIssue_ submitted;
                      sync.GetIssue (jira.Issue.Key jIssue);
                      sync.CompareComments_ ghIssue issue].
Proof.
  intros H submitted Hu Hg.
  unfold sync.UpdateIssue, sync.DidIssueChange, proc.bind, proc.log,
    proc.exchange, proc.ret, proc.gets. cbn. rewrite H. cbn.
  fold submitted. rewrite Hu. cbn. rewrite Hg. cbn.
  destruct (CompareComments cfg ghIssue issue s'). cbn.
  now rewrite <- !app_assoc.
Qed.

(** What UpdateIssue writes to the log: its entry line, and no error
    line. *)
Lemma UpdateIssue_logs (cfg : config.Config) (ghIssue : github.Issue)
  (jIssue : jira.Issue) (st : proc.St S sync.Invocation) :
  exists new,
    proc.logs (UpdateIssue cfg ghIssue jIssue st).2 = proc.logs st ++ new
    /\ List.filter observe.isStart new = [observe.updateStart ghIssue jIssue]
    /\ List.filter observe.isError new = [].
Proof.
  unfold sync.UpdateIssue, sync.DidIssueChange, proc.bind, proc.log,
    proc.exchange, proc.ret, proc.gets. cbn.
  destruct (sync.anyDifferent cfg ghIssue jIssue); cbn.
  - destruct (jiraclient.UpdateIssue jClient _ _) as [[updated|err] s]; cbn.
    + destruct (jiraclient.GetIssue jClient _ _) as [[issue|err] s']; cbn.
      * destruct (CompareComments _ _ _ _). cbn.
        eexists. split; [rewrite <- !app_assoc; reflexivity|]. split;
          reflexivity.
      * eexists. split; [rewrite <- !app_assoc; reflexivity|]. split;
          reflexivity.
    + eexists. split; [rewrite <- !app_assoc; reflexivity|]. split;
        reflexivity.
  - destruct (jiraclient.GetIssue jClient _ _) as [[issue|err] s']; cbn.
    + destruct (CompareComments _ _ _ _). cbn.
      eexists. split; [rewrite <- !app_assoc; reflexivity|]. split;
        reflexivity.
    + eexists. split; [rewrite <- !app_assoc; reflexivity|]. split;
        reflexivity.
Qed.

(** What CreateIssue writes to the log: its entry line, and no error
    line. *)
Lemma CreateIssue_logs (cfg : config.Config) (ghIssue : github.Issue)
  (st : proc.St S sync.Invocation) :
  exists new,
    proc.logs (CreateIssue cfg ghIssue st).2 = proc.logs st ++ new
    /\ List.filter observe.isStart new = [observe.createStart ghIssue]
    /\ List.filter observe.isError new = [].
Proof.
  unfold sync.CreateIssue, proc.bind, proc.log, proc.exchange, proc.ret,
    proc.gets. cbn.
  destruct (jiraclient.CreateIssue jClient _ _) as [[created|err] s]; cbn.
  - destruct (jiraclient.GetIssue jClient _ _) as [[issue|err] s']; cbn.
    + destruct (CompareComments _ _ _ _). cbn.
      eexists. split; [rewrite <- !app_assoc; reflexivity|]. split;
        reflexivity.
    + eexists. split; [reflexivity|]. split; reflexivity.
  - eexists. split; [reflexivity|]. split; reflexivity.
Qed.

(** The loop body: the entry line of the operation owed to the issue,
    and an error line exactly when the operation returned an error. *)
Lemma compareOne_logs (cfg : config.Config) (jiraIssues : list jira.Issue)
  (ghIssue : github.Issue) (st : proc.St S sync.Invocation) :
  exists new,
    proc.logs (compareOne cfg jiraIssues ghIssue st).2 = proc.logs st ++ new
    /\ List.filter observe.isStart new
       = [observe.startOf cfg jiraIssues ghIssue]
    /\ List.filter observe.isError new
       = match (observe.operation jClient CompareComments Now cfg jiraIssues
                  ghIssue st).1 with
         | Some e => [observe.failureLog cfg jiraIssues ghIssue e]
         | None => []
         end.
Proof.
  unfold sync.compareOne, observe.operation, observe.startOf,
    observe.failureLog, proc.bind.
  destruct (List.find (sync.sameID cfg ghIssue) jiraIssues) as [jIssue|].
  - destruct (UpdateIssue_logs cfg ghIssue jIssue st) as [new [Hl [Hs He]]].
    destruct (UpdateIssue cfg ghIssue jIssue st) as [[e|] st']; cbn in *.
    + exists (new ++ [logrus.Errorf "Error updating issue %s. Error: %v"
                        [logrus.AStr (jira.Issue.Key jIssue); logrus.AStr e]]).
      rewrite Hl, app_assoc, !List.filter_app, Hs, He. repeat split.
    + exists new. rewrite Hl, Hs, He. repeat split.
  - destruct (CreateIssue_logs cfg ghIssue st) as [new [Hl [Hs He]]].
    destruct (CreateIssue cfg ghIssue st) as [[e|] st']; cbn in *.
    + exists (new ++ [logrus.Errorf "Error creating issue for #%d. Error: %v"
                        [logrus.AInt (github.Issue.Number ghIssue);
                         logrus.AStr e]]).
      rewrite Hl, app_assoc, !List.filter_app, Hs, He. repeat split.
    + exists new. rewrite Hl, Hs, He. repeat split.
Qed.

(** The whole loop: one entry line per GitHub issue, in order, and the
    error lines of exactly the issues whose operation failed. *)
Lemma forEach_compareOne_logs (cfg : config.Config)
  (jiraIssues : list jira.Issue) (ghIssues : list github.Issue)
  (st : proc.St S sync.Invocation) :
  exists new,
    proc.logs (sync.forEach ghIssues (compareOne cfg jiraIssues) st).2
    = proc.logs st ++ new
    /\ List.filter observe.isStart new
       = List.map (observe.startOf cfg jiraIssues) ghIssues
    /\ List.filter observe.isError new
       = observe.failureLogs cfg jiraIssues ghIssues
           (observe.outcomes jClient CompareComments Now cfg jiraIssues
              ghIssues st).
Proof.
  revert st. induction ghIssues as [|ghIssue rest IH]; intros st.
  - exists []. cbn. rewrite app_nil_r. repeat split.
  - cbn [sync.forEach observe.outcomes]. unfold proc.bind at 1.
    destruct (compareOne_logs cfg jiraIssues ghIssue st) as [n1 [Hl [Hs He]]].
    destruct (compareOne cfg jiraIssues ghIssue st) as [[] st1]. cbn in *.
    destruct (IH st1) as [n2 [Hl2 [Hs2 He2]]].
    exists (n1 ++ n2). rewrite Hl2, Hl, <- app_assoc, !List.filter_app.
    rewrite Hs, Hs2, He, He2. split; [reflexivity|]. split; [reflexivity|].
    unfold observe.failureLogs. cbn.
    destruct (observe.operation _ _ _ _ _ _ _).1; reflexivity.
Qed.

(** CompareIssues on a non-empty batch: the batch lookup, then the loop
    over all issues, whose result is dropped. *)
Lemma CompareIssues_unfold (cfg : config.Config)
  (ghIssues : list github.Issue) (st : proc.St S sync.Invocation) :
  ghIssues <> [] ->
  let ids := List.map github.Issue.ID ghIssues in
  CompareIssues cfg ghIssues st
  = match jiraclient.ListIssues jClient ids (proc.world st) with
    | (inr err, s) =>
        (Some err,
         proc.mkSt s (proc.calls st ++ [sync.ListIssues ids])
           (proc.logs st ++ [logrus.Debugf "Collecting issues" []]))
    | (inl jiraIssues, s) =>
        (None,
         (sync.forEach ghIssues (compareOne cfg jiraIssues)
            (observe.afterListing st ids s)).2)
    end.
Proof.
  intros Hne ids. unfold sync.CompareIssues.
  destruct ghIssues as [|g rest]; [congruence|].
  cbn [length Nat.eqb]. fold ids.
  unfold proc.bind, proc.log, proc.exchange, proc.ret, observe.afterListing.
  cbn [proc.world proc.calls proc.logs].
  destruct (jiraclient.ListIssues jClient ids (proc.world st))
    as [[jiraIssues|err] s]; [|reflexivity].
  cbn [proc.world proc.calls proc.logs].
  rewrite <- app_assoc. cbn [app].
  destruct (sync.forEach _ _ _) as [[] st2]. reflexivity.
Qed.

(** *** The share of each issue *)

Local Abbreviation updating := (observe.updating jClient CompareComments Now).
Local Abbreviation creating := (observe.creating jClient CompareComments Now).
Local Abbreviation share := (observe.share jClient CompareComments Now).
Local Abbreviation shares := (observe.shares jClient CompareComments Now).

Ltac split_calls :=
  repeat match goal with
         | |- context [jiraclient.UpdateIssue jClient ?i ?s] =>
             destruct (jiraclient.UpdateIssue jClient i s) as [[?|?] ?]; cbn
         | |- context [jiraclient.CreateIssue jClient ?i ?s] =>
             destruct (jiraclient.CreateIssue jClient i s) as [[?|?] ?]; cbn
         | |- context [jiraclient.GetIssue jClient ?k ?s] =>
             destruct (jiraclient.GetIssue jClient k s) as [[?|?] ?]; cbn
         | |- context [CompareComments ?c ?g ?i ?s] =>
             destruct (CompareComments c g i s); cbn
         end.

(** UpdateIssue makes the calls of [observe.updating], in its order,
    leaves the client in its state and returns its error. *)
Lemma UpdateIssue_share (cfg : config.Config) (ghIssue : github.Issue)
  (jIssue : jira.Issue) (st : proc.St S sync.Invocation) :
  (UpdateIssue cfg ghIssue jIssue st).1
  = observe.returned (updating cfg ghIssue jIssue (proc.world st)).1
  /\ proc.calls (UpdateIssue cfg ghIssue jIssue st).2
     = proc.calls st
       ++ observe.asked (updating cfg ghIssue jIssue (proc.world st)).1
  /\ proc.world (UpdateIssue cfg ghIssue jIssue st).2
     = (updating cfg ghIssue jIssue (proc.world st)).2.
Proof.
  unfold sync.UpdateIssue, sync.DidIssueChange, observe.updating,
    observe.refetch, observe.after, proc.bind, proc.log, proc.exchange,
    proc.ret, proc.gets. cbn.
  destruct (sync.anyDifferent cfg ghIssue jIssue); cbn; split_calls;
    repeat split; rewrite <- ?app_assoc; reflexivity.
Qed.

(** The same for CreateIssue and [observe.creating]. *)
Lemma CreateIssue_share (cfg : config.Config) (ghIssue : github.Issue)
  (st : proc.St S sync.Invocation) :
  (CreateIssue cfg ghIssue st).1
  = observe.returned (creating cfg ghIssue (proc.world st)).1
  /\ proc.calls (CreateIssue cfg ghIssue st).2
     = proc.calls st ++ observe.asked (creating cfg ghIssue (proc.world st)).1
  /\ proc.world (CreateIssue cfg ghIssue st).2
     = (creating cfg ghIssue (proc.world st)).2.
Proof.
  unfold sync.CreateIssue, observe.creating, observe.refetch, observe.after,
    proc.bind, proc.log, proc.exchange, proc.ret, proc.gets. cbn.
  split_calls; repeat split; rewrite <- ?app_assoc; reflexivity.
Qed.

(** The loop body makes the calls of the issue's share and leaves the
    client in the state of the share, whether or not the operation
    returned an error. *)
Lemma compareOne_share (cfg : config.Config) (jiraIssues : list jira.Issue)
  (ghIssue : github.Issue) (st : proc.St S sync.Invocation) :
  (observe.operation jClient CompareComments Now cfg jiraIssues ghIssue
     st).1
  = observe.returned (share cfg jiraIssues ghIssue (proc.world st)).1
  /\ proc.calls (compareOne cfg jiraIssues ghIssue st).2
     = proc.calls st
       ++ observe.asked (share cfg jiraIssues ghIssue (proc.world st)).1
  /\ proc.world (compareOne cfg jiraIssues ghIssue st).2
     = (share cfg jiraIssues ghIssue (proc.world st)).2.
Proof.
  unfold sync.compareOne, observe.operation, observe.share.
  destruct (List.find (sync.sameID cfg ghIssue) jiraIssues) as [jIssue|].
  - destruct (UpdateIssue_share cfg ghIssue jIssue st) as (Hr & Hc & Hw).
    unfold proc.bind, proc.log, proc.ret.
    destruct (UpdateIssue cfg ghIssue jIssue st) as [[e|] st'];
      cbn in *; repeat split; assumption.
  - destruct (CreateIssue_share cfg ghIssue st) as (Hr & Hc & Hw).
    unfold proc.bind, proc.log, proc.ret.
    destruct (CreateIssue cfg ghIssue st) as [[e|] st'];
      cbn in *; repeat split; assumption.
Qed.

(** The whole loop: the calls are the shares of the issues one after the
    other, the client is left in the state of the last share, and what
    the operations returned is what the shares list. *)
Lemma forEach_share (cfg : config.Config) (jiraIssues : list jira.Issue)
  (ghIssues : list github.Issue) (st : proc.St S sync.Invocation) :
  observe.outcomes jClient CompareComments Now cfg jiraIssues ghIssues st
  = List.map observe.returned
      (shares cfg jiraIssues ghIssues (proc.world st)).1
  /\ proc.calls (sync.forEach ghIssues (compareOne cfg jiraIssues) st).2
     = proc.calls st
       ++ List.concat
            (List.map observe.asked
               (shares cfg jiraIssues ghIssues (proc.world st)).1)
  /\ proc.world (sync.forEach ghIssues (compareOne cfg jiraIssues) st).2
     = (shares cfg jiraIssues ghIssues (proc.world st)).2.
Proof.
  revert st. induction ghIssues as [|ghIssue rest IH]; intros st.
  - cbn. rewrite app_nil_r. repeat split.
  - destruct (compareOne_share cfg jiraIssues ghIssue st) as (Hr & Hc & Hw).
    cbn [sync.forEach observe.outcomes observe.shares]. unfold proc.bind.
    destruct (compareOne cfg jiraIssues ghIssue st) as [[] st1] eqn:E.
    cbn [fst snd] in *.
    destruct (IH st1) as (Hr' & Hc' & Hw').
    rewrite Hw in Hr', Hc', Hw'.
    cbn [List.map List.concat]. rewrite Hr, Hr', Hc', Hw', Hc.
    rewrite <- app_assoc. repeat split.
Qed.

Lemma shares_length (cfg : config.Config) (jiraIssues : list jira.Issue)
  (ghIssues : list github.Issue) (s : S) :
  length (shares cfg jiraIssues ghIssues s).1 = length ghIssues.
Proof.
  revert s. induction ghIssues as [|ghIssue rest IH]; intros s;
    [reflexivity|].
  cbn [observe.shares fst length]. now rewrite IH.
Qed.

(** C5. For a non-empty batch: when the batch lookup ListIssues fails,
    CompareIssues returns its error after that one call and no issue is
    processed. When it returns the JIRA issues, CompareIssues returns
    nil; after the lookup its calls are the share of every GitHub issue
    of the batch, one after the other in the order of the batch (the
    creation of its mirror, or the update of its first match when the
    two differ, and the re-fetch), each served from the client state its
    predecessor left whatever the operation of the predecessor
    returned; the client is left in the state of the last share; and
    the error lines logged are those of exactly the issues whose share
    returned an error. *)
Theorem CompareIssues_isolates_issue_failures
  (cfg : config.Config) (ghIssues : list github.Issue)
  (st : proc.St S sync.Invocation) :
  ghIssues <> [] ->
  let ids := List.map github.Issue.ID ghIssues in
  exists new,
    proc.logs (CompareIssues cfg ghIssues st).2 = proc.logs st ++ new
    /\ match jiraclient.ListIssues jClient ids (proc.world st) with
       | (inr err, s) =>
           (CompareIssues cfg ghIssues st).1 = Some err
           /\ List.filter observe.isStart new = []
           /\ proc.calls (CompareIssues cfg ghIssues st).2
              = proc.calls st ++ [sync.ListIssues ids]
           /\ proc.world (CompareIssues cfg ghIssues st).2 = s
       | (inl jiraIssues, s) =>
           (CompareIssues cfg ghIssues st).1 = None
           /\ proc.calls (CompareIssues cfg ghIssues st).2
              = proc.calls st
                ++ sync.ListIssues ids
                :: List.concat
                     (List.map observe.asked
                        (shares cfg jiraIssues ghIssues s).1)
           /\ proc.world (CompareIssues cfg ghIssues st).2
              = (shares cfg jiraIssues ghIssues s).2
           /\ length (shares cfg jiraIssues ghIssues s).1 = length ghIssues
           /\ List.filter observe.isStart new
              = List.map (observe.startOf cfg jiraIssues) ghIssues
           /\ List.filter observe.isError new
              = observe.failureLogs cfg jiraIssues ghIssues
                  (List.map observe.returned
                     (shares cfg jiraIssues ghIssues s).1)
       end.
Proof.
  intros Hne ids. rewrite (CompareIssues_unfold cfg ghIssues st Hne).
  fold ids.
  destruct (jiraclient.ListIssues jClient ids (proc.world st))
    as [[jiraIssues|err] s].
  - destruct (forEach_compareOne_logs cfg jiraIssues ghIssues
                (observe.afterListing st ids s)) as [new [Hl [Hs He]]].
    destruct (forEach_share cfg jiraIssues ghIssues
                (observe.afterListing st ids s)) as (Hr & Hc & Hw).
    cbn [observe.afterListing proc.world proc.calls] in Hr, Hc, Hw.
    exists ([logrus.Debugf "Collecting issues" [];
             logrus.Debugf "Collected all JIRA issues" []] ++ new).
    cbn [fst snd]. split.
    + rewrite Hl. unfold observe.afterListing. cbn [proc.logs].
      now rewrite <- app_assoc.
    + split; [reflexivity|]. split.
      { rewrite Hc, <- app_assoc. reflexivity. }
      split; [exact Hw|]. split; [apply shares_length|].
      rewrite !List.filter_app, Hs, He, Hr. split; reflexivity.
  - exists [logrus.Debugf "Collecting issues" []]. cbn. repeat split.
Qed.

End EngineProperties.

(** An up-to-date pair run against the scripted client: no
    field-altering call, the re-fetch by key, then comment
    reconciliation on the issue fetched. *)
Lemma UpdateIssue_unchanged_example :
  (sync.DidIssueChange fixture.cfg (fixture.ghIssue []) (fixture.jIssue "")
     (mock.start [fixture.jIssue ""])).1 = false
  /\ exists new,
       proc.calls
         (sync.UpdateIssue (mock.client "") mock.CompareComments mock.Now
            fixture.cfg (fixture.ghIssue []) (fixture.jIssue "")
            (mock.start [fixture.jIssue ""])).2
       = [] ++ new
       /\ existsb observe.fieldAltering new = false
       /\ new = [sync.GetIssue "PROJ-10";
                 sync.CompareComments_ (fixture.ghIssue [])
                   (fixture.jIssue "")]
          /\ ((sync.UpdateIssue (mock.client "") mock.CompareComments
                 mock.Now fixture.cfg (fixture.ghIssue [])
                 (fixture.jIssue "") (mock.start [fixture.jIssue ""])).1,
              proc.world
                (sync.UpdateIssue (mock.client "") mock.CompareComments
                   mock.Now fixture.cfg (fixture.ghIssue [])
                   (fixture.jIssue "") (mock.start [fixture.jIssue ""])).2)
             = (None, [fixture.jIssue ""]).
Proof.
  split; [reflexivity|].
  exact (UpdateIssue_unchanged_refetches_then_reconciles
           (mock.client "") mock.CompareComments mock.Now fixture.cfg
           (fixture.ghIssue []) (fixture.jIssue "")
           (mock.start [fixture.jIssue ""]) eq_refl).
Defined.

(** Three GitHub issues without a JIRA counterpart, the second of which
    the client refuses to create: CompareIssues returns nil; the first
    and the third issue are created, fetched and reconciled, the
    creation of the second is asked for between them; and the one
    failure is logged. *)
Lemma CompareIssues_second_of_three_fails :
  mock.three <> []
  /\ (exists new,
        proc.logs
          (sync.CompareIssues (mock.client "second") mock.CompareComments
             mock.Now fixture.cfg mock.three (mock.start [])).2
        = [] ++ new
        /\ (sync.CompareIssues (mock.client "second") mock.CompareComments
              mock.Now fixture.cfg mock.three (mock.start [])).1 = None
           /\ proc.calls
                (sync.CompareIssues (mock.client "second")
                   mock.CompareComments mock.Now fixture.cfg mock.three
                   (mock.start [])).2
              = [] ++ sync.ListIssues [1; 2; 3]%Z
                :: List.concat
                     (List.map observe.asked
                        (observe.shares (mock.client "second")
                           mock.CompareComments mock.Now fixture.cfg []
                           mock.three []).1)
           /\ proc.world
                (sync.CompareIssues (mock.client "second")
                   mock.CompareComments mock.Now fixture.cfg mock.three
                   (mock.start [])).2
              = (observe.shares (mock.client "second") mock.CompareComments
                   mock.Now fixture.cfg [] mock.three []).2
           /\ length
                (observe.shares (mock.client "second") mock.CompareComments
                   mock.Now fixture.cfg [] mock.three []).1
              = 3%nat
           /\ List.filter observe.isStart new
              = [observe.createStart (mock.issue 1 "first");
                 observe.createStart (mock.issue 2 "second");
                 observe.createStart (mock.issue 3 "third")]
           /\ List.filter observe.isError new
              = [logrus.Errorf "Error creating issue for #%d. Error: %v"
                   [logrus.AInt 2;
                    logrus.AStr "500 Internal Server Error"]])
  /\ List.concat
       (List.map observe.asked
          (observe.shares (mock.client "second") mock.CompareComments
             mock.Now fixture.cfg [] mock.three []).1)
     = [sync.CreateIssue_
          (jira.Issue.mk "" ""
             (sync.createFields fixture.cfg (mock.issue 1 "first")
                fixture.postedAt));
        sync.GetIssue "PROJ-1";
        sync.CompareComments_ (mock.issue 1 "first")
          (jira.Issue.mk "1" "PROJ-1"
             (sync.createFields fixture.cfg (mock.issue 1 "first")
                fixture.postedAt));
        sync.CreateIssue_
          (jira.Issue.mk "" ""
             (sync.createFields fixture.cfg (mock.issue 2 "second")
                fixture.postedAt));
        sync.CreateIssue_
          (jira.Issue.mk "" ""
             (sync.createFields fixture.cfg (mock.issue 3 "third")
                fixture.postedAt));
        sync.GetIssue "PROJ-2";
        sync.CompareComments_ (mock.issue 3 "third")
          (jira.Issue.mk "2" "PROJ-2"
             (sync.createFields fixture.cfg (mock.issue 3 "third")
                fixture.postedAt))]
  /\ (observe.shares (mock.client "second") mock.CompareComments mock.Now
        fixture.cfg [] mock.three []).2
     = [jira.Issue.mk "1" "PROJ-1"
          (sync.createFields fixture.cfg (mock.issue 1 "first")
             fixture.postedAt);
        jira.Issue.mk "2" "PROJ-2"
          (sync.createFields fixture.cfg (mock.issue 3 "third")
             fixture.postedAt)].
Proof.
  split; [discriminate|]. split.
  - exact (CompareIssues_isolates_issue_failures
             (mock.client "second") mock.CompareComments mock.Now fixture.cfg
             mock.three (mock.start []) ltac:(discriminate)).
  - split; vm_compute; reflexivity.
Defined.

(* ===================================================================== *)
(** * Further properties of the clients, the engine and the settings      *)
(* ===================================================================== *)

(** ** The retry wrapper *)

Section RetryWrapper.
Context {W : Type}.
Variable bo : backoff.BackOff W.

Lemma RetryNotify_trace {A} (what : string) (c : jira.Call)
  (f : W -> jira.Reply A * W) (waits : list Z) (st : proc.St W jira.Call) :
  exists n notes,
    (1 <= n <= Datatypes.S (length waits))%nat
    /\ proc.calls
         (jiraclient.RetryNotify bo what (proc.exchange c f) waits st).2
       = proc.calls st ++ repeat c n
    /\ proc.logs
         (jiraclient.RetryNotify bo what (proc.exchange c f) waits st).2
       = proc.logs st ++ notes
    /\ length notes = (n - 1)%nat
    /\ forallb (shape.isRetryNote what) notes = true
    /\ (forall res err,
          (jiraclient.RetryNotify bo what (proc.exchange c f) waits st).1
          = jira.Failure res err ->
          n = Datatypes.S (length waits)).
Proof.
  revert st. induction waits as [|next waits IH]; intros st.
  - exists 1%nat, []. rewrite RetryNotify_last. cbn.
    rewrite app_nil_r. repeat split; lia.
  - rewrite RetryNotify_step.
    destruct (f (proc.world st)) as [[a res|res err] w'].
    + exists 1%nat, []. cbn. rewrite app_nil_r.
      repeat split; try lia. intros; discriminate.
    + match goal with
      | |- context [jiraclient.RetryNotify bo what _ waits ?s] =>
          destruct (IH s) as [n [notes [Hn [Hc [Hl [Hlen [Hall Hf]]]]]]]
      end.
      exists (Datatypes.S n).
      eexists (_ :: notes).
      split; [cbn in *; lia|]. split.
      { rewrite Hc. cbn. now rewrite <- app_assoc. }
      split.
      { rewrite Hl. cbn. rewrite <- app_assoc. reflexivity. }
      split; [cbn; lia|]. split.
      { cbn. unfold shape.isRetryNote at 1. cbn.
        rewrite String.eqb_refl. exact Hall. }
      intros res' err' Hr. f_equal. eapply Hf. exact Hr.
Qed.

(** X1. A call through [request] makes the runs 0 to n - 1 of its
    exchange and sends nothing else, with n at least one and at most one
    more than the back-off policy grants waits. Every run before the
    last was answered with an error, so it stops at the first success;
    the answer and the world of the last run are those handed back; a
    failure is handed back only when the policy is exhausted; and the
    log gains one retry line per repeated attempt and nothing else. *)
Theorem request_retries_until_served_or_exhausted (what : string)
  (c : jira.Call) (f : W -> jira.Reply jiraclient.Any * W)
  (st : proc.St W jira.Call) :
  exists n notes,
    (1 <= n <= Datatypes.S (length (backoff.schedule bo (proc.world st))))%nat
    /\ proc.calls (jiraclient.request bo what (proc.exchange c f) st).2
       = proc.calls st ++ repeat c n
    /\ proc.logs (jiraclient.request bo what (proc.exchange c f) st).2
       = proc.logs st ++ notes
    /\ length notes = (n - 1)%nat
    /\ forallb (shape.isRetryNote what) notes = true
    /\ (forall k, (Datatypes.S k < n)%nat ->
          observe.failed
            (observe.attempt bo f (backoff.schedule bo (proc.world st))
               (proc.world st) k).1
          = true)
    /\ (jiraclient.request bo what (proc.exchange c f) st).1
       = (observe.attempt bo f (backoff.schedule bo (proc.world st))
            (proc.world st) (n - 1)).1
    /\ proc.world (jiraclient.request bo what (proc.exchange c f) st).2
       = (observe.attempt bo f (backoff.schedule bo (proc.world st))
            (proc.world st) (n - 1)).2
    /\ (forall res err,
          (jiraclient.request bo what (proc.exchange c f) st).1
          = jira.Failure res err ->
          n = Datatypes.S (length (backoff.schedule bo (proc.world st)))).
Proof.
  unfold jiraclient.request.
  destruct (RetryNotify_trace what c f (backoff.schedule bo (proc.world st))
              st) as (n & notes & Hn & Hc & Hl & Hlen & Hall & Hex).
  destruct (RetryNotify_attempts bo what c f
              (backoff.schedule bo (proc.world st)) st)
    as (m & _ & Hc' & Hfail & Hres & Hw & _).
  assert (m = n) as ->.
  { rewrite Hc in Hc'. apply app_inv_head in Hc'.
    apply (f_equal (@length _)) in Hc'. rewrite !repeat_length in Hc'.
    congruence. }
  exists n, notes. repeat split; auto; lia.
Qed.

End RetryWrapper.

(** ** What the clients send *)

Lemma filter_mutating_repeat (c : jira.Call) (n : nat) (l : list jira.Call) :
  jira.mutating c = false ->
  List.filter jira.mutating (l ++ repeat c n) = List.filter jira.mutating l.
Proof.
  intros H. rewrite List.filter_app.
  replace (List.filter jira.mutating (repeat c n)) with (@nil jira.Call);
    [apply app_nil_r|].
  induction n as [|n IH]; cbn; rewrite ?H; auto.
Qed.

Lemma filter_mutating_pageRuns (jql : string) (page : Z) (counts : list nat) :
  List.filter jira.mutating (shape.pageRuns jql page counts) = [].
Proof.
  revert page. induction counts as [|n rest IH]; intros page; cbn;
    [reflexivity|].
  rewrite List.filter_app, IH, app_nil_r.
  induction n as [|n IHn]; cbn; auto.
Qed.

Section ClientTraffic.
Context {W : Type}.
Variable bo : backoff.BackOff W.
Variable gh : ghClient.GitHubClient W.

(** The exchanges of a method that goes through [request] once and then
    only logs. *)
Ltac after_request :=
  unfold proc.bind at 1;
  match goal with
  | |- context [jiraclient.request bo ?w (proc.exchange ?c ?f) ?s] =>
      let n := fresh "n" in
      let Hn := fresh "Hn" in
      let Hc := fresh "Hc" in
      destruct (request_exchanges bo w c f s) as [n [Hn Hc]];
      destruct (jiraclient.request bo w (proc.exchange c f) s)
        as [[a res|res err] st'];
      exists n; (split; [lia|]); cbn in Hc;
      [ destruct a; cbn; exact Hc
      | unfold proc.bind, proc.log; cbn;
        match goal with
        | |- context [jiraclient.getErrorBody res ?s1] =>
            let Hg := fresh "Hg" in
            pose proof (getErrorBody_calls res s1) as [Hg _];
            destruct (jiraclient.getErrorBody res s1) as [e s'];
            cbn in *; now rewrite Hg
        end ]
  end.

Lemma dryrun_ListIssues_exchanges (j : @jiraclient.dryrun.dryrunJIRAClient W)
  (ids : list Z) (st : proc.St W jira.Call) :
  exists n,
    (1 <= n)%nat
    /\ proc.calls (jiraclient.dryrun.ListIssues bo j ids st).2
       = proc.calls st
         ++ repeat (jira.CIssueSearch
                      (jiraclient.listJQL (jiraclient.dryrun.cfg j) ids)
                      None) n.
Proof. unfold jiraclient.dryrun.ListIssues. after_request. Qed.

Lemma dryrun_GetIssue_exchanges (j : @jiraclient.dryrun.dryrunJIRAClient W)
  (key : string) (st : proc.St W jira.Call) :
  exists n,
    (1 <= n)%nat
    /\ proc.calls (jiraclient.dryrun.GetIssue bo j key st).2
       = proc.calls st ++ repeat (jira.CIssueGet key) n.
Proof. unfold jiraclient.dryrun.GetIssue. after_request. Qed.

Lemma real_GetIssue_exchanges (j : @jiraclient.real.realJIRAClient W)
  (key : string) (st : proc.St W jira.Call) :
  exists n,
    (1 <= n)%nat
    /\ proc.calls (jiraclient.real.GetIssue bo j key st).2
       = proc.calls st ++ repeat (jira.CIssueGet key) n.
Proof. unfold jiraclient.real.GetIssue. after_request. Qed.

Lemma dryrun_logComment_calls (comment : github.IssueComment)
  (user : github.User) (st : proc.St W jira.Call) :
  proc.calls (@jiraclient.dryrun.logComment W comment user st).2
  = proc.calls st.
Proof.
  unfold jiraclient.dryrun.logComment.
  destruct (negb (String.eqb (github.User.Name user) "")); reflexivity.
Qed.

(** X2. No method of the dry-run client sends a mutating request: its
    ListIssues and GetIssue send only their search and get requests, and
    CreateIssue, UpdateIssue, CreateComment and UpdateComment send no
    request at all. *)
Theorem dryrun_client_never_mutates
  (j : @jiraclient.dryrun.dryrunJIRAClient W) (ids : list Z) (key : string)
  (issue : jira.Issue) (id : string) (comment : github.IssueComment)
  (st : proc.St W jira.Call) :
  observe.mutations (jiraclient.dryrun.ListIssues bo j ids st).2
  = observe.mutations st
  /\ observe.mutations (jiraclient.dryrun.GetIssue bo j key st).2
     = observe.mutations st
  /\ proc.calls (jiraclient.dryrun.CreateIssue j issue st).2 = proc.calls st
  /\ proc.calls (jiraclient.dryrun.UpdateIssue j issue st).2 = proc.calls st
  /\ proc.calls (jiraclient.dryrun.CreateComment gh j issue comment st).2
     = proc.calls st
  /\ proc.calls (jiraclient.dryrun.UpdateComment gh j issue id comment st).2
     = proc.calls st.
Proof.
  repeat apply conj.
  - destruct (dryrun_ListIssues_exchanges j ids st) as [n [_ H]].
    unfold observe.mutations. rewrite H.
    now rewrite filter_mutating_repeat.
  - destruct (dryrun_GetIssue_exchanges j key st) as [n [_ H]].
    unfold observe.mutations. rewrite H.
    now rewrite filter_mutating_repeat.
  - reflexivity.
  - unfold jiraclient.dryrun.UpdateIssue, jiraclient.dryrun.logIfString.
    repeat destruct (tcontainer.String_ _ _) as [? [?|]]; reflexivity.
  - unfold jiraclient.dryrun.CreateComment, proc.bind, proc.lift.
    destruct (ghClient.GetUser gh _ _) as [[user|err] w']; [|reflexivity].
    unfold proc.log. cbn -[jiraclient.dryrun.logComment].
    match goal with
    | |- context [jiraclient.dryrun.logComment comment user ?s] =>
        pose proof (dryrun_logComment_calls comment user s) as H;
        destruct (jiraclient.dryrun.logComment comment user s) as [[] s']
    end.
    exact H.
  - unfold jiraclient.dryrun.UpdateComment, proc.bind, proc.lift.
    destruct (ghClient.GetUser gh _ _) as [[user|err] w']; [|reflexivity].
    unfold proc.log. cbn -[jiraclient.dryrun.logComment].
    match goal with
    | |- context [jiraclient.dryrun.logComment comment user ?s] =>
        pose proof (dryrun_logComment_calls comment user s) as H;
        destruct (jiraclient.dryrun.logComment comment user s) as [[] s']
    end.
    exact H.
Qed.

Variable j : @jiraclient.real.realJIRAClient W.

Lemma getIssuesFrom_exchanges (fuel : nat) (jql : string)
  (page totalResults : Z) (issues : list jira.Issue)
  (st : proc.St W jira.Call) :
  exists counts,
    (length counts <= fuel)%nat
    /\ forallb (Nat.leb 1) counts = true
    /\ proc.calls
         (jiraclient.real.getIssuesFrom bo j fuel jql page totalResults
            issues st).2
       = proc.calls st ++ shape.pageRuns jql page counts.
Proof.
  revert page totalResults issues st.
  induction fuel as [|fuel IH]; intros page totalResults issues st.
  - exists []. cbn. destruct (_ <? _)%Z; cbn; rewrite app_nil_r; auto.
  - cbn [jiraclient.real.getIssuesFrom].
    destruct (page * jiraclient.real.maxResults <? totalResults)%Z.
    2: { exists []. cbn. rewrite app_nil_r. repeat split. lia. }
    unfold proc.bind at 1.
    match goal with
    | |- context [jiraclient.request bo ?w (proc.exchange ?c ?f) ?s] =>
        destruct (request_exchanges bo w c f s) as [n [Hn Hc]];
        destruct (jiraclient.request bo w (proc.exchange c f) s)
          as [[a res|res err] st']
    end; cbn in Hc.
    + destruct a as [|l|i|c].
      2: { destruct (IH (page + 1)%Z (jira.Response.Total res)
                      (issues ++ l) st') as [counts [Hlen [Hall Hcalls]]].
           exists (n :: counts). split; [cbn; lia|]. split.
           { cbn. destruct n; [lia|]. exact Hall. }
           rewrite Hcalls, Hc. cbn. rewrite <- app_assoc.
           unfold jiraclient.real.maxResults. reflexivity. }
      all: exists [n]; (split; [cbn; lia|]);
        (split; [cbn; destruct n; [lia|reflexivity]|]);
        cbn; rewrite Hc, app_nil_r;
        unfold jiraclient.real.maxResults; reflexivity.
    + exists [n]. split; [cbn; lia|].
      split; [cbn; destruct n; [lia|reflexivity]|].
      unfold proc.bind, proc.log. cbn.
      match goal with
      | |- context [jiraclient.getErrorBody res ?s1] =>
          pose proof (getErrorBody_calls res s1) as [Hg _];
          destruct (jiraclient.getErrorBody res s1) as [e s']
      end.
      cbn in *. rewrite Hg, Hc, app_nil_r.
      unfold jiraclient.real.maxResults. reflexivity.
Qed.

(** X3. The read methods of the live client only read. GetIssue sends
    its get request, at least once, and nothing else. ListIssues sends
    page requests for its query and nothing else: pages of 50 starting at
    0, 50, 100, ... in this order without a gap, each page at least once
    (more often when retried), at most [fuel] pages. Neither sends a
    mutating request. *)
Theorem live_reads_send_only_get_and_page_requests (key : string)
  (fuel : nat) (ids : list Z) (st : proc.St W jira.Call) :
  (exists n,
     (1 <= n)%nat
     /\ proc.calls (jiraclient.real.GetIssue bo j key st).2
        = proc.calls st ++ repeat (jira.CIssueGet key) n)
  /\ (exists counts,
        (length counts <= fuel)%nat
        /\ forallb (Nat.leb 1) counts = true
        /\ proc.calls (jiraclient.real.ListIssues bo j fuel ids st).2
           = proc.calls st
             ++ shape.pageRuns
                  (jiraclient.listJQL (jiraclient.real.cfg j) ids) 0 counts)
  /\ observe.mutations (jiraclient.real.GetIssue bo j key st).2
     = observe.mutations st
  /\ observe.mutations (jiraclient.real.ListIssues bo j fuel ids st).2
     = observe.mutations st.
Proof.
  assert (exists counts,
            (length counts <= fuel)%nat
            /\ forallb (Nat.leb 1) counts = true
            /\ proc.calls (jiraclient.real.ListIssues bo j fuel ids st).2
               = proc.calls st
                 ++ shape.pageRuns
                      (jiraclient.listJQL (jiraclient.real.cfg j) ids) 0
                      counts) as HL.
  { unfold jiraclient.real.ListIssues, jiraclient.real.getIssues, proc.bind.
    destruct (getIssuesFrom_exchanges fuel
                (jiraclient.listJQL (jiraclient.real.cfg j) ids) 0 1 [] st)
      as [counts [Hlen [Hall Hc]]].
    destruct (jiraclient.real.getIssuesFrom _ _ _ _ _ _ _ _)
      as [[[l|e]|] st']; exists counts; auto. }
  split; [apply real_GetIssue_exchanges|]. split; [exact HL|]. split.
  - destruct (real_GetIssue_exchanges j key st) as [n [_ H]].
    unfold observe.mutations. rewrite H.
    now rewrite filter_mutating_repeat.
  - destruct HL as [counts [_ [_ H]]].
    unfold observe.mutations. rewrite H, List.filter_app.
    now rewrite filter_mutating_pageRuns, app_nil_r.
Qed.

End ClientTraffic.

(** ** Field resolution *)

Lemma itoa_nonempty (z : Z) : Go.itoa z <> "".
Proof.
  unfold Go.itoa, NilZero.string_of_int.
  destruct (Z.to_int z) as [d|d]; [destruct d|]; discriminate.
Qed.

Lemma find_app_first {A} (p : A -> bool) (l1 l2 : list A) :
  List.find p (l1 ++ l2)
  = match List.find p l1 with
    | Some x => Some x
    | None => List.find p l2
    end.
Proof.
  induction l1 as [|x l1 IH]; cbn; [reflexivity|].
  destruct (p x); [reflexivity|exact IH].
Qed.

Lemma lastFrom_lastID (name : string) (jFields : list config.jiraField)
  (d : string) :
  shape.lastFrom name jFields d
  = match List.find (fun f => String.eqb (config.Name f) name)
            (rev jFields) with
    | Some f => Go.itoa (config.Schema_CustomID f)
    | None => d
    end.
Proof.
  revert d. induction jFields as [|f rest IH]; intros d; cbn;
    [reflexivity|].
  rewrite IH, find_app_first.
  destruct (List.find _ (rev rest)); [reflexivity|]. cbn.
  destruct (String.eqb (config.Name f) name); reflexivity.
Qed.

Lemma lastID_empty_iff (name : string) (jFields : list config.jiraField) :
  shape.lastID name jFields = "" <-> shape.listed name jFields = false.
Proof.
  unfold shape.lastID, shape.listed.
  destruct (List.find _ (rev jFields)) as [f|] eqn:E.
  - apply find_some in E as [Hin Hp]. apply in_rev in Hin.
    split; [intros H; now apply itoa_nonempty in H|].
    intros H. exfalso.
    assert (existsb (fun f0 => String.eqb (config.Name f0) name) jFields
            = true) as Ht by (apply existsb_exists; eauto).
    congruence.
  - split; [|reflexivity]. intros _.
    destruct (existsb _ jFields) eqn:Ex; [|reflexivity].
    apply existsb_exists in Ex as [f [Hin Hp]].
    apply in_rev in Hin. eapply find_none in E; [|exact Hin].
    cbn in E. congruence.
Qed.

(** The record the loop of getFieldIDs leaves: each identifier is
    overwritten by the listed fields of its own name only. *)
Lemma fold_recordField (jFields : list config.jiraField) (f : config.fields) :
  fold_left config.recordField jFields f
  = config.mkFields
      (shape.lastFrom "GitHub ID" jFields (config.githubID f))
      (shape.lastFrom "GitHub Number" jFields (config.githubNumber f))
      (shape.lastFrom "GitHub Labels" jFields (config.githubLabels f))
      (shape.lastFrom "GitHub Reporter" jFields (config.githubReporter f))
      (shape.lastFrom "GitHub Status" jFields (config.githubStatus f))
      (shape.lastFrom "Last Issue-Sync Update" jFields (config.lastUpdate f))
      (shape.lastFrom "GitHub URI" jFields (config.githubURI f)).
Proof.
  revert f. induction jFields as [|x rest IH]; intros f.
  - destruct f; reflexivity.
  - cbn [fold_left shape.lastFrom]. rewrite IH.
    destruct f as [a b c d e g h]. destruct x as [n id].
    unfold config.recordField. cbn [config.Name config.Schema_CustomID].
    repeat match goal with
           | |- context [String.eqb n ?k] =>
               destruct (String.eqb_spec n k); [subst n; reflexivity|]
           end.
    reflexivity.
Qed.

(** getFieldIDs hands back what resolveFields makes of the listing the
    server sent, in the order it was sent, and keeps the world of the
    exchange; a request that cannot be built or is not served gives the
    zero record and the error. *)
Lemma getFieldIDs_resolves_listing {W : Type} (c : config.Config)
  (client : jira.Client W) (st : proc.St W jira.Call) :
  match jira.NewRequest client jira.GET "/rest/api/2/field" None with
  | inr err => (config.getFieldIDs c client st).1 = (config.zeroFields, Some err)
  | inl req =>
      match jira.DoFields client req (proc.world st) with
      | (jira.Failure _ err, w') =>
          (config.getFieldIDs c client st).1 = (config.zeroFields, Some err)
          /\ proc.world (config.getFieldIDs c client st).2 = w'
      | (jira.Success listing _, w') =>
          (config.getFieldIDs c client st).1
          = config.resolveFields
              (List.map (fun p => config.mkJiraField p.1 p.2) listing)
          /\ proc.world (config.getFieldIDs c client st).2 = w'
      end
  end.
Proof.
  unfold config.getFieldIDs, proc.bind, proc.log, proc.exchange, proc.ret.
  cbn.
  destruct (jira.NewRequest client jira.GET "/rest/api/2/field" None)
    as [req|err]; [|reflexivity]. cbn.
  destruct (jira.DoFields client req (proc.world st))
    as [[listing res|res err] w']; cbn; [|split; reflexivity].
  unfold config.resolveFields.
  destruct (config.checkFields _); split; reflexivity.
Qed.

(** X4. getFieldIDs resolves each of the seven identifiers to the
    decimal customId of the last listed field that bears its name (the
    empty string when none does), whatever else is listed, and reports no
    error exactly when a field is listed for each of GitHub ID, GitHub
    Number, GitHub Labels, GitHub Status, GitHub Reporter and Last
    Issue-Sync Update. *)
Theorem resolveFields_takes_last_listing (jFields : list config.jiraField) :
  (config.resolveFields jFields).1
  = config.mkFields
      (shape.lastID "GitHub ID" jFields)
      (shape.lastID "GitHub Number" jFields)
      (shape.lastID "GitHub Labels" jFields)
      (shape.lastID "GitHub Reporter" jFields)
      (shape.lastID "GitHub Status" jFields)
      (shape.lastID "Last Issue-Sync Update" jFields)
      (shape.lastID "GitHub URI" jFields)
  /\ ((config.resolveFields jFields).2 = None
      <-> forallb (fun name => shape.listed name jFields)
            shape.checkedNames = true).
Proof.
  assert (fold_left config.recordField jFields config.zeroFields
          = config.mkFields
              (shape.lastID "GitHub ID" jFields)
              (shape.lastID "GitHub Number" jFields)
              (shape.lastID "GitHub Labels" jFields)
              (shape.lastID "GitHub Reporter" jFields)
              (shape.lastID "GitHub Status" jFields)
              (shape.lastID "Last Issue-Sync Update" jFields)
              (shape.lastID "GitHub URI" jFields)) as Hf.
  { rewrite fold_recordField. unfold shape.lastID.
    now rewrite !lastFrom_lastID. }
  unfold config.resolveFields. cbn [fst snd]. split; [exact Hf|].
  rewrite Hf, checkFields_names_first_missing.
  cbn [config.githubID config.githubNumber config.githubLabels
       config.githubStatus config.githubReporter config.lastUpdate].
  unfold shape.checkedNames. cbn [forallb].
  repeat match goal with
         | |- context [String.eqb (shape.lastID ?n jFields) ""] =>
             let H := fresh "H" in
             pose proof (lastID_empty_iff n jFields) as H;
             destruct (String.eqb_spec (shape.lastID n jFields) "");
             [ rewrite (proj1 H) by assumption; cbn;
               split; intros; discriminate
             | destruct (shape.listed n jFields);
               [clear H|exfalso; tauto] ]
         end.
  cbn. split; reflexivity.
Qed.

(** ** Field sets the engine submits *)

Lemma GetFieldKey_inj (cfg : config.Config) (k1 k2 : config.fieldKey) :
  config.GetFieldKey cfg k1 = config.GetFieldKey cfg k2 ->
  config.GetFieldID cfg k1 = config.GetFieldID cfg k2.
Proof. unfold config.GetFieldKey. cbn. intros H. now injection H. Qed.

Lemma String_of_string (m : tcontainer.MarshalMap) (key s : string) :
  m !! key = Some (tcontainer.VString s) ->
  tcontainer.String_ m key = (s, None).
Proof. intros H. unfold tcontainer.String_. now rewrite H. Qed.

(** Pairwise distinct identifiers give pairwise distinct map keys. *)
Lemma distinct_keys (cfg : config.Config) (keys : list config.fieldKey) :
  NoDup (List.map (config.GetFieldID cfg) keys) ->
  forall i j k1 k2,
    keys !! i = Some k1 -> keys !! j = Some k2 -> i <> j ->
    config.GetFieldKey cfg k1 <> config.GetFieldKey cfg k2.
Proof.
  intros Hnd i j k1 k2 Hi Hj Hij Heq. apply GetFieldKey_inj in Heq.
  apply Hij.
  eapply NoDup_lookup; [exact Hnd| |].
  - change (List.map (config.GetFieldID cfg) keys)
      with (config.GetFieldID cfg <$> keys).
    rewrite list_lookup_fmap, Hi. reflexivity.
  - change (List.map (config.GetFieldID cfg) keys)
      with (config.GetFieldID cfg <$> keys).
    rewrite list_lookup_fmap, Hj. cbn. now rewrite Heq.
Qed.

(** X5. The field set UpdateIssue submits mirrors the GitHub issue it was
    built from: when the identifiers of the status, reporter, labels and
    last-update fields are pairwise distinct, DidIssueChange finds no
    difference between the GitHub issue and a JIRA issue that holds the
    submitted fields. *)
Theorem updateFields_compare_unchanged (cfg : config.Config)
  (ghIssue : github.Issue) (jIssue : jira.Issue) (now : time.Time) :
  NoDup (List.map (config.GetFieldID cfg)
           [config.GitHubStatus; config.GitHubReporter; config.GitHubLabels;
            config.LastISUpdate]) ->
  sync.anyDifferent cfg ghIssue
    (jira.Issue.mk (jira.Issue.ID jIssue) (jira.Issue.Key jIssue)
       (sync.updateFields cfg ghIssue jIssue now))
  = false.
Proof.
  intros Hnd. pose proof (distinct_keys cfg _ Hnd) as Hk.
  assert (config.GetFieldKey cfg config.GitHubReporter
          <> config.GetFieldKey cfg config.GitHubStatus)
    by (apply (Hk 1%nat 0%nat); auto).
  assert (config.GetFieldKey cfg config.GitHubLabels
          <> config.GetFieldKey cfg config.GitHubStatus)
    by (apply (Hk 2%nat 0%nat); auto).
  assert (config.GetFieldKey cfg config.LastISUpdate
          <> config.GetFieldKey cfg config.GitHubStatus)
    by (apply (Hk 3%nat 0%nat); auto).
  assert (config.GetFieldKey cfg config.GitHubLabels
          <> config.GetFieldKey cfg config.GitHubReporter)
    by (apply (Hk 2%nat 1%nat); auto).
  assert (config.GetFieldKey cfg config.LastISUpdate
          <> config.GetFieldKey cfg config.GitHubReporter)
    by (apply (Hk 3%nat 1%nat); auto).
  assert (config.GetFieldKey cfg config.LastISUpdate
          <> config.GetFieldKey cfg config.GitHubLabels)
    by (apply (Hk 3%nat 2%nat); auto).
  rewrite anyDifferent_spec. cbv zeta.
  unfold sync.updateFields.
  cbn [jira.Issue.Fields jira.IssueFields.Summary
       jira.IssueFields.Description jira.IssueFields.Unknowns].
  rewrite !String.eqb_refl. cbn [negb orb].
  rewrite (String_of_string _ (config.GetFieldKey cfg config.GitHubStatus)
             (github.Issue.State ghIssue)) by (by simplify_map_eq).
  rewrite (String_of_string _ (config.GetFieldKey cfg config.GitHubReporter)
             (github.User.Login (github.Issue.User ghIssue)))
    by (by simplify_map_eq).
  rewrite (String_of_string _ (config.GetFieldKey cfg config.GitHubLabels)
             (Go.Join (sync.labelNames ghIssue) ","))
    by (by simplify_map_eq).
  unfold observe.differs. cbn [fst snd sync.isErr].
  now rewrite !String.eqb_refl.
Qed.

(** X6. The field set CreateIssue submits mirrors the GitHub issue it was
    built from: when the identifiers of the six fields it sets are
    pairwise distinct, a JIRA issue that holds the submitted fields is
    matched to the GitHub issue by CompareIssues and DidIssueChange finds
    no difference between the two. *)
Theorem createFields_matched_and_unchanged (cfg : config.Config)
  (ghIssue : github.Issue) (now : time.Time) (id key : string) :
  NoDup (List.map (config.GetFieldID cfg)
           [config.GitHubID; config.GitHubNumber; config.GitHubStatus;
            config.GitHubReporter; config.GitHubLabels;
            config.LastISUpdate]) ->
  sync.sameID cfg ghIssue
    (jira.Issue.mk id key (sync.createFields cfg ghIssue now)) = true
  /\ sync.anyDifferent cfg ghIssue
       (jira.Issue.mk id key (sync.createFields cfg ghIssue now)) = false.
Proof.
  intros Hnd. pose proof (distinct_keys cfg _ Hnd) as Hk.
  pose proof (Hk 1%nat 0%nat _ _ eq_refl eq_refl ltac:(discriminate)).
  pose proof (Hk 2%nat 0%nat _ _ eq_refl eq_refl ltac:(discriminate)).
  pose proof (Hk 3%nat 0%nat _ _ eq_refl eq_refl ltac:(discriminate)).
  pose proof (Hk 4%nat 0%nat _ _ eq_refl eq_refl ltac:(discriminate)).
  pose proof (Hk 5%nat 0%nat _ _ eq_refl eq_refl ltac:(discriminate)).
  pose proof (Hk 3%nat 2%nat _ _ eq_refl eq_refl ltac:(discriminate)).
  pose proof (Hk 4%nat 2%nat _ _ eq_refl eq_refl ltac:(discriminate)).
  pose proof (Hk 5%nat 2%nat _ _ eq_refl eq_refl ltac:(discriminate)).
  pose proof (Hk 4%nat 3%nat _ _ eq_refl eq_refl ltac:(discriminate)).
  pose proof (Hk 5%nat 3%nat _ _ eq_refl eq_refl ltac:(discriminate)).
  pose proof (Hk 5%nat 4%nat _ _ eq_refl eq_refl ltac:(discriminate)).
  clear Hk. split.
  - unfold sync.sameID, sync.createFields, tcontainer.Int.
    cbn [jira.Issue.Fields jira.IssueFields.Unknowns].
    simplify_map_eq. apply Z.eqb_refl.
  - rewrite anyDifferent_spec. cbv zeta. unfold sync.createFields.
    cbn [jira.Issue.Fields jira.IssueFields.Summary
         jira.IssueFields.Description jira.IssueFields.Unknowns].
    rewrite !String.eqb_refl. cbn [negb orb].
    rewrite (String_of_string _ (config.GetFieldKey cfg config.GitHubStatus)
               (github.Issue.State ghIssue)) by (by simplify_map_eq).
    rewrite (String_of_string _
               (config.GetFieldKey cfg config.GitHubReporter)
               (github.User.Login (github.Issue.User ghIssue)))
      by (by simplify_map_eq).
    rewrite (String_of_string _ (config.GetFieldKey cfg config.GitHubLabels)
               (Go.Join (sync.labelNames ghIssue) ","))
      by (by simplify_map_eq).
    unfold observe.differs. cbn [fst snd sync.isErr].
    now rewrite !String.eqb_refl.
Qed.

Lemma fixture_fieldIDs_distinct :
  NoDup (List.map (config.GetFieldID fixture.cfg)
           [config.GitHubID; config.GitHubNumber; config.GitHubStatus;
            config.GitHubReporter; config.GitHubLabels;
            config.LastISUpdate]).
Proof. apply (bool_decide_unpack _). vm_compute. exact I. Qed.

(** With the identifiers 10001 to 10006 the field set built for an update
    compares as unchanged. *)
Lemma updateFields_compare_unchanged_example :
  NoDup (List.map (config.GetFieldID fixture.cfg)
           [config.GitHubStatus; config.GitHubReporter; config.GitHubLabels;
            config.LastISUpdate])
  /\ sync.anyDifferent fixture.cfg (fixture.ghIssue ["bug"; "ui"])
       (jira.Issue.mk "10" "PROJ-10"
          (sync.updateFields fixture.cfg (fixture.ghIssue ["bug"; "ui"])
             (fixture.jIssue "") fixture.postedAt))
     = false.
Proof.
  assert (NoDup (List.map (config.GetFieldID fixture.cfg)
                   [config.GitHubStatus; config.GitHubReporter;
                    config.GitHubLabels; config.LastISUpdate])) as H
    by (apply (bool_decide_unpack _); vm_compute; exact I).
  split; [exact H|].
  exact (updateFields_compare_unchanged fixture.cfg
           (fixture.ghIssue ["bug"; "ui"]) (fixture.jIssue "")
           fixture.postedAt H).
Defined.

(** With the identifiers 10001 to 10006 the field set built for a new
    issue is matched and compares as unchanged. *)
Lemma createFields_matched_and_unchanged_example :
  NoDup (List.map (config.GetFieldID fixture.cfg)
           [config.GitHubID; config.GitHubNumber; config.GitHubStatus;
            config.GitHubReporter; config.GitHubLabels;
            config.LastISUpdate])
  /\ sync.sameID fixture.cfg (fixture.ghIssue ["bug"])
       (jira.Issue.mk "1" "PROJ-1"
          (sync.createFields fixture.cfg (fixture.ghIssue ["bug"])
             fixture.postedAt)) = true
  /\ sync.anyDifferent fixture.cfg (fixture.ghIssue ["bug"])
       (jira.Issue.mk "1" "PROJ-1"
          (sync.createFields fixture.cfg (fixture.ghIssue ["bug"])
             fixture.postedAt)) = false.
Proof.
  split; [exact fixture_fieldIDs_distinct|].
  exact (createFields_matched_and_unchanged fixture.cfg
           (fixture.ghIssue ["bug"]) fixture.postedAt "1" "PROJ-1"
           fixture_fieldIDs_distinct).
Defined.

(** ** The calls of a batch *)

Section BatchCalls.
Context {S : Type}.
Variable jClient : jiraclient.JIRAClient S.
Variable CompareComments :
  config.Config -> github.Issue -> jira.Issue -> S -> option Go.error * S.
Variable Now : S -> time.Time.

Local Abbreviation UpdateIssue := (sync.UpdateIssue jClient CompareComments Now).
Local Abbreviation CreateIssue := (sync.CreateIssue jClient CompareComments Now).
Local Abbreviation compareOne := (sync.compareOne jClient CompareComments Now).
Local Abbreviation CompareIssues :=
  (sync.CompareIssues jClient CompareComments Now).

(** The tally of a list of engine calls: batch lookups, creations,
    updates. *)
Local Abbreviation tally new :=
  (length (List.filter shape.isListing new),
   length (List.filter shape.isCreateCall new),
   length (List.filter shape.isUpdateCall new)).

Lemma UpdateIssue_tally (cfg : config.Config) (ghIssue : github.Issue)
  (jIssue : jira.Issue) (st : proc.St S sync.Invocation) :
  exists new,
    proc.calls (UpdateIssue cfg ghIssue jIssue st).2 = proc.calls st ++ new
    /\ tally new
       = (0, 0, if sync.anyDifferent cfg ghIssue jIssue then 1 else 0)%nat.
Proof.
  unfold sync.UpdateIssue, sync.DidIssueChange, proc.bind, proc.log,
    proc.exchange, proc.ret, proc.gets. cbn.
  destruct (sync.anyDifferent cfg ghIssue jIssue); cbn.
  - destruct (jiraclient.UpdateIssue jClient _ _) as [[updated|err] s]; cbn.
    + destruct (jiraclient.GetIssue jClient _ _) as [[issue|err] s']; cbn.
      * destruct (CompareComments _ _ _ _). cbn.
        eexists. split; [rewrite <- !app_assoc; reflexivity|reflexivity].
      * eexists. split; [rewrite <- !app_assoc; reflexivity|reflexivity].
    + eexists. split; [reflexivity|reflexivity].
  - destruct (jiraclient.GetIssue jClient _ _) as [[issue|err] s']; cbn.
    + destruct (CompareComments _ _ _ _). cbn.
      eexists. split; [rewrite <- !app_assoc; reflexivity|reflexivity].
    + eexists. split; [reflexivity|reflexivity].
Qed.

Lemma CreateIssue_tally (cfg : config.Config) (ghIssue : github.Issue)
  (st : proc.St S sync.Invocation) :
  exists new,
    proc.calls (CreateIssue cfg ghIssue st).2 = proc.calls st ++ new
    /\ tally new = (0, 1, 0)%nat.
Proof.
  unfold sync.CreateIssue, proc.bind, proc.log, proc.exchange, proc.ret,
    proc.gets. cbn.
  destruct (jiraclient.CreateIssue jClient _ _) as [[created|err] s]; cbn.
  - destruct (jiraclient.GetIssue jClient _ _) as [[issue|err] s']; cbn.
    + destruct (CompareComments _ _ _ _). cbn.
      eexists. split; [rewrite <- !app_assoc; reflexivity|reflexivity].
    + eexists. split; [rewrite <- !app_assoc; reflexivity|reflexivity].
  - eexists. split; [reflexivity|reflexivity].
Qed.

Lemma compareOne_tally (cfg : config.Config) (jiraIssues : list jira.Issue)
  (ghIssue : github.Issue) (st : proc.St S sync.Invocation) :
  exists new,
    proc.calls (compareOne cfg jiraIssues ghIssue st).2 = proc.calls st ++ new
    /\ tally new
       = (0,
          if shape.unmatched cfg jiraIssues ghIssue then 1 else 0,
          if shape.outdated cfg jiraIssues ghIssue then 1 else 0)%nat.
Proof.
  unfold sync.compareOne, shape.unmatched, shape.outdated, proc.bind.
  destruct (List.find (sync.sameID cfg ghIssue) jiraIssues) as [jIssue|].
  - destruct (UpdateIssue_tally cfg ghIssue jIssue st) as [new [Hc Ht]].
    destruct (UpdateIssue cfg ghIssue jIssue st) as [[e|] st']; cbn in *;
      exists new; split; auto.
  - destruct (CreateIssue_tally cfg ghIssue st) as [new [Hc Ht]].
    destruct (CreateIssue cfg ghIssue st) as [[e|] st']; cbn in *;
      exists new; split; auto.
Qed.

Lemma forEach_tally (cfg : config.Config) (jiraIssues : list jira.Issue)
  (ghIssues : list github.Issue) (st : proc.St S sync.Invocation) :
  exists new,
    proc.calls (sync.forEach ghIssues (compareOne cfg jiraIssues) st).2
    = proc.calls st ++ new
    /\ tally new
       = (0,
          length (List.filter (shape.unmatched cfg jiraIssues) ghIssues),
          length (List.filter (shape.outdated cfg jiraIssues) ghIssues))%nat.
Proof.
  revert st. induction ghIssues as [|ghIssue rest IH]; intros st.
  - exists []. cbn. now rewrite app_nil_r.
  - cbn [sync.forEach]. unfold proc.bind at 1.
    destruct (compareOne_tally cfg jiraIssues ghIssue st) as [n1 [Hc1 Ht1]].
    destruct (compareOne cfg jiraIssues ghIssue st) as [[] st1]. cbn in Hc1.
    destruct (IH st1) as [n2 [Hc2 Ht2]].
    exists (n1 ++ n2). split; [now rewrite Hc2, Hc1, <- app_assoc|].
    rewrite !List.filter_app, !length_app.
    injection Ht1 as -> -> ->. injection Ht2 as -> -> ->. cbn [List.filter].
    destruct (shape.unmatched cfg jiraIssues ghIssue),
      (shape.outdated cfg jiraIssues ghIssue); reflexivity.
Qed.

(** X7. The calls of CompareIssues. An empty batch makes no call. A
    non-empty batch makes one batch lookup, first, with the IDs of the
    GitHub issues in their order; when it succeeds, exactly one creation
    follows for each GitHub issue that no listed JIRA issue matches and
    exactly one update for each whose first match DidIssueChange finds
    different, and no further lookup; when it fails, nothing follows. *)
Theorem CompareIssues_call_tally (cfg : config.Config)
  (ghIssues : list github.Issue) (st : proc.St S sync.Invocation) :
  let ids := List.map github.Issue.ID ghIssues in
  match ghIssues with
  | [] => proc.calls (CompareIssues cfg ghIssues st).2 = proc.calls st
  | _ :: _ =>
      exists new,
        proc.calls (CompareIssues cfg ghIssues st).2
        = proc.calls st ++ sync.ListIssues ids :: new
        /\ match jiraclient.ListIssues jClient ids (proc.world st) with
           | (inl jiraIssues, _) =>
               tally new
               = (0,
                  length (List.filter (shape.unmatched cfg jiraIssues)
                            ghIssues),
                  length (List.filter (shape.outdated cfg jiraIssues)
                            ghIssues))%nat
           | (inr _, _) => new = []
           end
  end.
Proof.
  destruct ghIssues as [|g rest]; [reflexivity|]. cbv zeta.
  assert (g :: rest <> []) as Hne by discriminate.
  set (ghIssues := g :: rest) in *.
  set (ids := List.map github.Issue.ID ghIssues).
  rewrite (CompareIssues_unfold jClient CompareComments Now cfg ghIssues st
             Hne).
  fold ids.
  destruct (jiraclient.ListIssues jClient ids (proc.world st))
    as [[jiraIssues|err] s].
  - destruct (forEach_tally cfg jiraIssues ghIssues
                (observe.afterListing st ids s)) as [new [Hc Ht]].
    exists new. split; [|exact Ht].
    cbn [snd]. rewrite Hc. unfold observe.afterListing. cbn [proc.calls].
    now rewrite <- app_assoc.
  - exists []. split; reflexivity.
Qed.

End BatchCalls.

(** ** The query builder, in general *)

Lemma prefix_app (t r : string) : String.prefix t (t +:+ r) = true.
Proof.
  induction t as [|c t IH]; simpl; [now destruct r|].
  destruct (ascii_dec c c); [exact IH|congruence].
Qed.

Lemma prefix_app_l (t a b : string) :
  String.prefix t a = true -> String.prefix t (a +:+ b) = true.
Proof.
  revert a. induction t as [|c t IH]; intros a H; simpl in *.
  - now destruct (a +:+ b).
  - destruct a as [|c' a]; [discriminate|]. simpl in *.
    destruct (ascii_dec c c'); [now apply IH|discriminate].
Qed.

Lemma Contains_app_l (a b t : string) :
  Go.Contains a t = true -> Go.Contains (a +:+ b) t = true.
Proof.
  revert b. induction a as [|c a IH]; intros b H.
  - cbn in H. rewrite orb_false_r in H.
    destruct t; [|discriminate]. destruct b; reflexivity.
  - change (Go.Contains (String c a) t)
      with (String.prefix t (String c a) || Go.Contains a t) in H.
    change (Go.Contains (String c a +:+ b) t)
      with (String.prefix t (String c a +:+ b) || Go.Contains (a +:+ b) t).
    apply orb_true_iff in H as [H|H].
    + rewrite (prefix_app_l t (String c a) b H). reflexivity.
    + rewrite (IH b H). apply orb_true_r.
Qed.

Lemma Contains_app_r (a b t : string) :
  Go.Contains b t = true -> Go.Contains (a +:+ b) t = true.
Proof.
  intros H. induction a as [|c a IH]; [exact H|].
  change (Go.Contains (String c a +:+ b) t)
    with (String.prefix t (String c a +:+ b) || Go.Contains (a +:+ b) t).
  rewrite IH. apply orb_true_r.
Qed.

Lemma Contains_self (t r : string) : Go.Contains (t +:+ r) t = true.
Proof.
  pose proof (prefix_app t r) as H.
  destruct (t +:+ r) as [|c s] eqn:E.
  - change (Go.Contains "" t) with (String.prefix t "" || false).
    now rewrite H.
  - change (Go.Contains (String c s) t)
      with (String.prefix t (String c s) || Go.Contains s t).
    now rewrite H.
Qed.

Lemma append_cons (c : ascii) (s r : string) :
  String c s +:+ r = String c (s +:+ r).
Proof. reflexivity. Qed.

Lemma append_empty_r (s : string) : s +:+ "" = s.
Proof.
  induction s as [|c s IH]; [reflexivity|]. now rewrite append_cons, IH.
Qed.

Lemma append_assoc_string (a b c : string) :
  (a +:+ b) +:+ c = a +:+ (b +:+ c).
Proof.
  induction a as [|x a IH]; [reflexivity|]. now rewrite !append_cons, IH.
Qed.

Lemma concat_empty_cons (x : string) (l : list string) :
  String.concat "" (x :: l) = x +:+ String.concat "" l.
Proof.
  destruct l as [|y l]; [simpl; now rewrite append_empty_r|reflexivity].
Qed.

(** A loop that appends a term per element yields the terms in a row. *)
Lemma fold_append {A} (f : A -> string) (l : list A) (init : string) :
  fold_left (fun q x => q +:+ f x) l init
  = init +:+ String.concat "" (List.map f l).
Proof.
  revert init. induction l as [|x l IH]; intros init.
  - simpl. now rewrite append_empty_r.
  - cbn [fold_left List.map]. rewrite IH, concat_empty_cons.
    apply append_assoc_string.
Qed.

Lemma Contains_concat {A} (f : A -> string) (l : list A) (x : A) :
  In x l -> Go.Contains (String.concat "" (List.map f l)) (f x) = true.
Proof.
  induction l as [|y l IH]; intros Hin; [contradiction|].
  cbn [List.map]. rewrite concat_empty_cons.
  destruct Hin as [->|Hin]; [apply Contains_self|].
  apply Contains_app_r. now apply IH.
Qed.

Lemma prefix_split (t s : string) :
  String.prefix t s = true -> exists post, s = t +:+ post.
Proof.
  revert s. induction t as [|c t IH]; intros s H.
  - exists s. reflexivity.
  - destruct s as [|c' s]; [discriminate|]. simpl in H.
    destruct (ascii_dec c c') as [->|]; [|discriminate].
    destruct (IH s H) as [post ->]. exists post. reflexivity.
Qed.

(** [Go.Contains s t] holds exactly when [t] occurs in [s]. *)
Lemma Contains_iff (s t : string) :
  Go.Contains s t = true <-> exists pre post, s = pre +:+ t +:+ post.
Proof.
  split.
  - induction s as [|c s IH]; intros H.
    + change (Go.Contains "" t) with (String.prefix t "" || false) in H.
      rewrite orb_false_r in H. apply prefix_split in H as [post ->].
      exists "", post. reflexivity.
    + change (Go.Contains (String c s) t)
        with (String.prefix t (String c s) || Go.Contains s t) in H.
      apply orb_true_iff in H as [H|H].
      * apply prefix_split in H as [post ->]. exists "", post. reflexivity.
      * destruct (IH H) as [pre [post ->]].
        exists (String c pre), post. reflexivity.
  - intros [pre [post ->]]. apply Contains_app_r, Contains_self.
Qed.

Lemma Contains_trans (a b t : string) :
  Go.Contains a b = true -> Go.Contains b t = true ->
  Go.Contains a t = true.
Proof.
  rewrite !Contains_iff. intros [p1 [q1 ->]] [p2 [q2 ->]].
  exists (p1 +:+ p2), (q2 +:+ q1).
  now rewrite !append_assoc_string.
Qed.

Lemma fold_left_pointwise {A B} (f g : A -> B -> A) (l : list B) (a : A) :
  (forall x y, f x y = g x y) -> fold_left f l a = fold_left g l a.
Proof.
  intros H. revert a. induction l as [|y l IH]; intros a; cbn;
    [reflexivity|]. now rewrite H, IH.
Qed.

Lemma buildRepoQuery_terms (org : config.Organisation) :
  sync.buildRepoQuery org
  = String.concat ""
      (List.map (fun repo => "repo:" +:+ config.Organisation.Name org
                               +:+ "/" +:+ repo +:+ " ")
         (config.Organisation.Repos org)).
Proof. unfold sync.buildRepoQuery. now rewrite fold_append. Qed.

(** The terms one organisation contributes. *)
Lemma buildOrgQuery_terms (orgs : list config.Organisation) :
  sync.buildOrgQuery orgs
  = String.concat ""
      (List.map
         (fun org =>
            if (length (config.Organisation.Repos org) =? 0)%nat
            then "org:" +:+ config.Organisation.Name org +:+ " "
            else sync.buildRepoQuery org)
         orgs).
Proof.
  unfold sync.buildOrgQuery.
  rewrite (fold_left_pointwise _
             (fun q org =>
                q +:+ (if (length (config.Organisation.Repos org) =? 0)%nat
                       then "org:" +:+ config.Organisation.Name org +:+ " "
                       else sync.buildRepoQuery org)))
    by (intros q org; now destruct (_ =? _)%nat).
  now rewrite fold_append.
Qed.

Section QueryTerms.
Context {W : Type}.
Variable gh : ghClient.GitHubClient W.

(** X8. After a successful membership lookup buildQuery goes on to
    GetRepos. When the settings do not decode it panics with the error
    of the decoding. When they decode, the query is the user clause, the
    scope clause and the since clause in this order, and it contains a
    term "involves:LOGIN " for every member, a term "org:NAME " for every
    configured organisation without repositories and a term
    "repo:NAME/REPO " for every repository of one that lists some. *)
Theorem buildQuery_has_a_term_for_each_scope (cfg : config.Config)
  (w w' : W) (users : list github.User) :
  ghClient.GetMembers gh (config.GetSourceOrganisation cfg) w
  = (inl users, w') ->
  match config.repos cfg with
  | inr err => sync.buildQuery gh cfg w = (Go.Panic err, w')
  | inl orgs =>
      exists q,
        sync.buildQuery gh cfg w = (Go.Ok q, w')
        /\ q = String.concat ""
                 (List.map (fun user => "involves:"
                                          +:+ github.User.Login user
                                          +:+ " ") users)
               +:+ sync.buildOrgQuery orgs
               +:+ sync.buildSinceQuery (config.GetSinceParam cfg)
        /\ (forall user, In user users ->
              Go.Contains q ("involves:" +:+ github.User.Login user +:+ " ")
              = true)
        /\ (forall org,
              In org orgs ->
              config.Organisation.Repos org = [] ->
              Go.Contains q
                ("org:" +:+ config.Organisation.Name org +:+ " ")
              = true)
        /\ (forall org repo,
              In org orgs ->
              In repo (config.Organisation.Repos org) ->
              Go.Contains q
                ("repo:" +:+ config.Organisation.Name org +:+ "/" +:+ repo
                   +:+ " ")
              = true)
  end.
Proof.
  intros H.
  unfold sync.buildQuery, sync.buildUserQuery, config.GetRepos. rewrite H.
  destruct (config.repos cfg) as [orgs|err]; [|reflexivity].
  rewrite fold_append. cbn [append].
  eexists. split; [reflexivity|]. split.
  { now rewrite append_assoc_string. }
  split; [|split].
  - intros user Hin. apply Contains_app_l, Contains_app_l.
    exact (Contains_concat
             (fun user => "involves:" +:+ github.User.Login user +:+ " ")
             users user Hin).
  - intros org Hin Hnil. apply Contains_app_l, Contains_app_r.
    rewrite buildOrgQuery_terms.
    pose proof (Contains_concat
                  (fun org =>
                     if (length (config.Organisation.Repos org) =? 0)%nat
                     then "org:" +:+ config.Organisation.Name org +:+ " "
                     else sync.buildRepoQuery org)
                  orgs org Hin) as Hc.
    cbn beta in Hc. rewrite Hnil in Hc. exact Hc.
  - intros org repo Hin Hrepo. apply Contains_app_l, Contains_app_r.
    rewrite buildOrgQuery_terms.
    pose proof (Contains_concat
                  (fun org =>
                     if (length (config.Organisation.Repos org) =? 0)%nat
                     then "org:" +:+ config.Organisation.Name org +:+ " "
                     else sync.buildRepoQuery org)
                  orgs org Hin) as Hc.
    cbn beta in Hc.
    destruct (config.Organisation.Repos org) as [|r rs] eqn:E;
      [contradiction|].
    cbn [length Nat.eqb] in Hc.
    eapply Contains_trans; [exact Hc|].
    rewrite buildRepoQuery_terms, E.
    exact (Contains_concat
             (fun repo => "repo:" +:+ config.Organisation.Name org
                            +:+ "/" +:+ repo +:+ " ")
             (r :: rs) repo Hrepo).
Qed.

End QueryTerms.

(** The members alice and bob, the organisation acme and the
    repositories x and y of acme2 all have their term; with settings
    that do not decode the same lookup is followed by a panic. *)
Lemma buildQuery_terms_example :
  ghClient.GetMembers remote.gh
    (config.GetSourceOrganisation fixture.cfg) (fixture.world [])
  = (inl [fixture.alice; fixture.bob], fixture.world [])
  /\ (exists q,
        sync.buildQuery remote.gh fixture.cfg (fixture.world [])
        = (Go.Ok q, fixture.world [])
        /\ Go.Contains q "involves:bob " = true
        /\ Go.Contains q "org:acme " = true
        /\ Go.Contains q "repo:acme2/y " = true)
  /\ sync.buildQuery remote.gh fixture.cfgUndecoded (fixture.world [])
     = (Go.Panic "1 error(s) decoding: 'repos' expected a slice",
        fixture.world []).
Proof.
  split; [reflexivity|]. split.
  - pose proof (buildQuery_has_a_term_for_each_scope remote.gh fixture.cfg
                  (fixture.world []) (fixture.world [])
                  [fixture.alice; fixture.bob] eq_refl) as H.
    hnf in H. destruct H as [q [Hq [_ [Hu [Ho Hr]]]]].
    exists q. split; [exact Hq|]. split.
    + apply (Hu fixture.bob). cbn. auto.
    + split.
      * apply (Ho fixture.acme); [cbn; auto|reflexivity].
      * apply (Hr fixture.acme2 "y"); cbn; auto.
  - exact (buildQuery_has_a_term_for_each_scope remote.gh
             fixture.cfgUndecoded (fixture.world []) (fixture.world [])
             [fixture.alice; fixture.bob] eq_refl).
Defined.

(** X9. For every watermark the since term is the civil date and time of
    the watermark followed by the constant text +07:00: neither the UTC
    offset nor the zone name of the watermark is printed. *)
Theorem buildSinceQuery_prints_civil_time_and_constant_offset
  (since : time.Time) :
  sync.buildSinceQuery since
  = "updated:>="
    +:+ time.appendInt (Z.of_nat (time.year since)) 4 +:+ "-"
    +:+ time.appendInt (Z.of_nat (time.month since)) 2 +:+ "-"
    +:+ time.appendInt (Z.of_nat (time.day since)) 2 +:+ "T"
    +:+ time.appendInt (Z.of_nat (time.hour since)) 2 +:+ ":"
    +:+ time.appendInt (Z.of_nat (time.minute since)) 2 +:+ ":"
    +:+ time.appendInt (Z.of_nat (time.second since)) 2 +:+ "+07:00 ".
Proof.
  unfold sync.buildSinceQuery, time.Format.
  let c := eval vm_compute in (time.chunks 0 "2006-01-02T15:04:05+07:00") in
  change (time.chunks 0 "2006-01-02T15:04:05+07:00") with c.
  cbn [List.map time.formatChunk].
  rewrite !concat_empty_cons. cbn [String.concat].
  rewrite !append_assoc_string. reflexivity.
Qed.

(** ** truncate *)

Lemma hasLineFeed_app (a b : string) :
  shape.hasLineFeed (a +:+ b) = shape.hasLineFeed a || shape.hasLineFeed b.
Proof.
  induction a as [|c a IH]; [reflexivity|].
  rewrite append_cons. cbn [shape.hasLineFeed].
  now rewrite IH, orb_assoc.
Qed.

Lemma hasLineFeed_substring (s : string) (n : nat) :
  shape.hasLineFeed s = false ->
  shape.hasLineFeed (substring 0 n s) = false.
Proof.
  revert n. induction s as [|c s IH]; intros [|n] H; try reflexivity.
  cbn [shape.hasLineFeed] in H. apply orb_false_iff in H as [Hc Hs].
  cbn [substring shape.hasLineFeed]. now rewrite Hc, IH.
Qed.

Lemma replaceNewlines_cons (c : ascii) (rest : string) :
  jiraclient.replaceNewlines (String c rest)
  = if Ascii.eqb c (ascii_of_nat 10)
    then "\n" +:+ jiraclient.replaceNewlines rest
    else if Ascii.eqb c (ascii_of_nat 13) then
      match rest with
      | String c' rest' =>
          if Ascii.eqb c' (ascii_of_nat 10)
          then "\n" +:+ jiraclient.replaceNewlines rest'
          else String c (jiraclient.replaceNewlines rest)
      | EmptyString => String c EmptyString
      end
    else String c (jiraclient.replaceNewlines rest).
Proof. destruct rest; reflexivity. Qed.

Lemma replaceNewlines_no_line_feed (s : string) :
  shape.hasLineFeed (jiraclient.replaceNewlines s) = false.
Proof.
  enough (shape.hasLineFeed (jiraclient.replaceNewlines s) = false
          /\ forall c,
               shape.hasLineFeed
                 (jiraclient.replaceNewlines (String c s)) = false)
    as [H _] by exact H.
  induction s as [|c' s [IH1 IH2]].
  - split; [reflexivity|]. intros c. rewrite replaceNewlines_cons.
    destruct (Ascii.eqb c (ascii_of_nat 10)) eqn:E10; [reflexivity|].
    destruct (Ascii.eqb c (ascii_of_nat 13)); cbn; now rewrite E10.
  - split; [apply IH2|]. intros c.
    rewrite replaceNewlines_cons.
    destruct (Ascii.eqb c (ascii_of_nat 10)) eqn:E10.
    + rewrite hasLineFeed_app. exact (IH2 c').
    + destruct (Ascii.eqb c (ascii_of_nat 13)).
      * destruct (Ascii.eqb c' (ascii_of_nat 10)) eqn:E'.
        -- rewrite hasLineFeed_app. exact IH1.
        -- cbn [shape.hasLineFeed]. rewrite E10. exact (IH2 c').
      * cbn [shape.hasLineFeed]. rewrite E10. exact (IH2 c').
Qed.

Lemma length_append (a b : string) :
  String.length (a +:+ b) = (String.length a + String.length b)%nat.
Proof.
  induction a as [|c a IH]; [reflexivity|].
  rewrite append_cons. cbn [String.length]. now rewrite IH.
Qed.

(** X10. truncate, for a bound that is not negative: the result holds no
    line feed; it is "empty" for the empty string; otherwise it is the
    string with its line breaks escaped when that has at most [length]
    bytes, and else the first [length] bytes of it followed by three
    dots, [length] + 3 bytes in all. *)
Theorem truncate_escapes_and_bounds (s : string) (length : Z) :
  (0 <= length)%Z ->
  shape.hasLineFeed (jiraclient.truncate s length) = false
  /\ (s = "" -> jiraclient.truncate s length = "empty")
  /\ (s <> "" ->
      (Go.len (jiraclient.replaceNewlines s) <= length)%Z ->
      jiraclient.truncate s length = jiraclient.replaceNewlines s)
  /\ (s <> "" ->
      (length < Go.len (jiraclient.replaceNewlines s))%Z ->
      exists head,
        jiraclient.truncate s length = head +:+ "..."
        /\ Go.len head = length
        /\ String.prefix head (jiraclient.replaceNewlines s) = true
        /\ Go.len (jiraclient.truncate s length) = (length + 3)%Z).
Proof.
  intros Hn. unfold jiraclient.truncate.
  destruct (String.eqb_spec s "") as [->|Hne].
  - split; [reflexivity|]. split; [reflexivity|].
    split; intros H; now contradiction H.
  - split.
    + destruct (Go.len (jiraclient.replaceNewlines s) <=? length)%Z.
      * apply replaceNewlines_no_line_feed.
      * rewrite hasLineFeed_app, hasLineFeed_substring;
          [reflexivity|apply replaceNewlines_no_line_feed].
    + split; [intros H; contradiction|]. split.
      * intros _ Hle. zcases. reflexivity.
      * intros _ Hlt. zcases.
        exists (substring 0 (Z.to_nat length) (jiraclient.replaceNewlines s)).
        split; [reflexivity|].
        assert (Go.len (substring 0 (Z.to_nat length)
                          (jiraclient.replaceNewlines s)) = length) as Hh.
        { unfold Go.len in *. rewrite substring_0_length; lia. }
        split; [exact Hh|]. split; [apply substring_0_prefix|].
        unfold Go.len in *. rewrite length_append. cbn [String.length]. lia.
Qed.

(** A description of three lines cut to 12 bytes: the first line, the
    escaped break, the second line, the escaped break and two bytes of
    the third, then the dots. *)
Lemma truncate_example :
  (0 <= 12)%Z
  /\ jiraclient.truncate
       ("one" +:+ jiraclient.nl +:+ "two" +:+ jiraclient.cr
          +:+ jiraclient.nl +:+ "three") 12
     = "one\ntwo\nth..."
  /\ shape.hasLineFeed
       (jiraclient.truncate
          ("one" +:+ jiraclient.nl +:+ "two" +:+ jiraclient.cr
             +:+ jiraclient.nl +:+ "three") 12) = false.
Proof.
  split; [lia|]. split; [reflexivity|].
  exact (proj1 (truncate_escapes_and_bounds
                  ("one" +:+ jiraclient.nl +:+ "two" +:+ jiraclient.cr
                     +:+ jiraclient.nl +:+ "three") 12 ltac:(lia))).
Defined.

(** ** LoadJIRAConfig and NewJIRAClient *)

Lemma checkFields_passed (f : config.fields) :
  config.checkFields f = None ->
  config.githubID f <> "" /\ config.githubNumber f <> ""
  /\ config.githubLabels f <> "" /\ config.githubStatus f <> ""
  /\ config.githubReporter f <> "" /\ config.lastUpdate f <> "".
Proof.
  unfold config.checkFields.
  repeat match goal with
         | |- context [String.eqb ?a ""] =>
             destruct (String.eqb_spec a ""); [discriminate|]
         end.
  tauto.
Qed.

Section Loading.
Context {W : Type}.

Lemma getFieldIDs_result (c : config.Config) (client : jira.Client W)
  (st : proc.St W jira.Call) :
  let r := config.getFieldIDs c client st in
  proc.calls r.2
  = proc.calls st
    ++ match jira.NewRequest client jira.GET "/rest/api/2/field" None with
       | inl req => [jira.CDo req]
       | inr _ => []
       end
  /\ (r.1.2 = None -> config.checkFields r.1.1 = None).
Proof.
  unfold config.getFieldIDs, proc.bind, proc.log, proc.exchange, proc.ret.
  cbn.
  destruct (jira.NewRequest client jira.GET "/rest/api/2/field" None)
    as [req|err]; cbn.
  - destruct (jira.DoFields client req (proc.world st)) as [[jf res|res e] w];
      cbn.
    + unfold config.resolveFields.
      destruct (config.checkFields _) eqn:E; cbn; split; auto; discriminate.
    + split; [reflexivity|discriminate].
  - rewrite app_nil_r. split; [reflexivity|discriminate].
Qed.

Lemma LoadJIRAConfig_frame (c : config.Config) (client : jira.Client W)
  (st : proc.St W jira.Call) :
  config.dry_run (config.LoadJIRAConfig c client st).1.1 = config.dry_run c.
Proof.
  unfold config.LoadJIRAConfig, proc.bind, proc.exchange at 1.
  destruct (jira.ProjectGet client (config.jira_project c) (proc.world st))
    as [[proj res|res err] w]; cbn [fst snd].
  - destruct (config.getFieldIDs _ client _) as [[f e] st']. reflexivity.
  - unfold proc.log, proc.ret.
    destruct (jira.Response.Body res); reflexivity.
Qed.

(** X11. LoadJIRAConfig: of the configuration only the project and the
    field IDs can change. A failed project request is the only exchange,
    leaves the configuration as it was and gives an error. After a
    served project request the project is the one received and the
    field metadata request, when it can be built, is the one further
    exchange. A nil error means that the project was served and that the
    six field IDs the check chain tests are not empty. *)
Theorem LoadJIRAConfig_sets_project_and_field_IDs_only (c : config.Config)
  (client : jira.Client W) (st : proc.St W jira.Call) :
  let r := config.LoadJIRAConfig c client st in
  let c' := r.1.1 in
  let get := jira.ProjectGet client (config.jira_project c) (proc.world st) in
  (config.since c' = config.since c
   /\ config.basicAuth c' = config.basicAuth c
   /\ config.jira_project c' = config.jira_project c
   /\ config.dry_run c' = config.dry_run c
   /\ config.repos c' = config.repos c
   /\ config.github_user_source_org c' = config.github_user_source_org c)
  /\ match get.1 with
     | jira.Failure _ _ =>
         c' = c
         /\ (exists err, r.1.2 = Some err)
         /\ proc.calls r.2
            = proc.calls st ++ [jira.CProjectGet (config.jira_project c)]
     | jira.Success proj _ =>
         config.project c' = proj
         /\ proc.calls r.2
            = proc.calls st
              ++ jira.CProjectGet (config.jira_project c)
              :: match jira.NewRequest client jira.GET "/rest/api/2/field"
                         None with
                 | inl req => [jira.CDo req]
                 | inr _ => []
                 end
         /\ (r.1.2 = None ->
             config.githubID (config.fieldIDs c') <> ""
             /\ config.githubNumber (config.fieldIDs c') <> ""
             /\ config.githubLabels (config.fieldIDs c') <> ""
             /\ config.githubStatus (config.fieldIDs c') <> ""
             /\ config.githubReporter (config.fieldIDs c') <> ""
             /\ config.lastUpdate (config.fieldIDs c') <> "")
     end.
Proof.
  cbv zeta.
  remember (config.LoadJIRAConfig c client st) as r eqn:Hr.
  unfold config.LoadJIRAConfig, proc.bind, proc.exchange in Hr.
  destruct (jira.ProjectGet client (config.jira_project c) (proc.world st))
    as [[proj res|res err] w]; cbn [fst snd].
  - match type of Hr with
    | context [config.getFieldIDs ?c1 client ?st1] =>
        pose proof (getFieldIDs_result c1 client st1) as H;
        destruct (config.getFieldIDs c1 client st1) as [[f e] st']
    end.
    cbv zeta in H. cbn in H. destruct H as [Hc He]. subst r. cbn.
    split; [now repeat split|]. split; [reflexivity|]. split.
    + rewrite Hc, <- app_assoc. reflexivity.
    + intros ->. apply checkFields_passed. now apply He.
  - unfold proc.log, proc.ret in Hr.
    destruct (jira.Response.Body res) as [body|err']; subst r; cbn;
      (split; [now repeat split|]); (split; [reflexivity|]); split; eauto.
Qed.

Variable newJIRAHTTPClient : config.Config -> option Go.error.
Variable jira_NewClient : config.Config -> jira.Client W + Go.error.

(** X12. NewJIRAClient: under basic authentication the OAuth handshake
    plays no part. When the handshake or the construction of the library
    client fails, that error is returned, the configuration is as it was
    and nothing is exchanged. Otherwise a client is returned whatever
    LoadJIRAConfig gave: the dry-run one exactly when the configuration
    passed in asks for a dry run, and it carries the library client and
    the configuration as LoadJIRAConfig left it. *)
Theorem NewJIRAClient_builds_client_of_configured_kind
  (cfg : config.Config) (st : proc.St W jira.Call) :
  let r := jiraclient.NewJIRAClient newJIRAHTTPClient jira_NewClient cfg st in
  let oauthErr :=
    if config.basicAuth cfg then None else newJIRAHTTPClient cfg in
  match oauthErr, jira_NewClient cfg with
  | Some err, _ =>
      r.1 = (cfg, inr err) /\ proc.calls r.2 = proc.calls st
  | None, inr err =>
      r.1 = (cfg, inr err) /\ proc.calls r.2 = proc.calls st
  | None, inl client =>
      let loaded :=
        (config.LoadJIRAConfig cfg client
           (proc.mkSt (proc.world st) (proc.calls st)
              (proc.logs st
                 ++ [logrus.Debugf "JIRA clients initialized" []]))).1.1 in
      r.1 = (loaded,
             inl (if config.dry_run cfg
                  then jiraclient.Dryrun (jiraclient.dryrun.mk loaded client)
                  else jiraclient.Real (jiraclient.real.mk loaded client)))
  end.
Proof.
  cbv zeta. unfold jiraclient.NewJIRAClient.
  destruct (config.basicAuth cfg); cbn [negb].
  - destruct (jira_NewClient cfg) as [client|err].
    + unfold proc.bind, proc.log at 1.
      match goal with
      | |- context [config.LoadJIRAConfig cfg client ?st1] =>
          pose proof (LoadJIRAConfig_frame cfg client st1) as H;
          destruct (config.LoadJIRAConfig cfg client st1) as [[c' e] st']
      end.
      cbn in *. unfold config.IsDryRun. rewrite H.
      now destruct (config.dry_run cfg).
    + split; reflexivity.
  - destruct (newJIRAHTTPClient cfg) as [err|]; [split; reflexivity|].
    destruct (jira_NewClient cfg) as [client|err].
    + unfold proc.bind, proc.log at 1.
      match goal with
      | |- context [config.LoadJIRAConfig cfg client ?st1] =>
          pose proof (LoadJIRAConfig_frame cfg client st1) as H;
          destruct (config.LoadJIRAConfig cfg client st1) as [[c' e] st']
      end.
      cbn in *. unfold config.IsDryRun. rewrite H.
      now destruct (config.dry_run cfg).
    + split; reflexivity.
Qed.

End Loading.

(** ** Paging of the live ListIssues *)

Section Paging.
Context {W : Type}.
Variable bo : backoff.BackOff W.
Variable j : @jiraclient.real.realJIRAClient W.
Variable jql : string.
Variable found : list jira.Issue.
Variable Inv : W -> Prop.

Hypothesis serves :
  forall (page : Z) (w : W),
    (0 <= page)%Z -> Inv w ->
    exists res w',
      jira.IssueSearch (jiraclient.real.client j) jql
        (Some (jira.SearchOptions.mk (50 * page) 50)) w
      = (jira.Success
           (firstn 50 (skipn (Z.to_nat (50 * page)) found)) res, w')
      /\ jira.Response.Total res = Z.of_nat (length found)
      /\ Inv w'.

(** The loop of getIssues against a server that serves every page: from
    page [p] on, with the first [p] pages gathered, it ends with all the
    issues after requesting each further page once. *)
Lemma getIssuesFrom_gathers (fuel : nat) :
  forall (p : nat) (total : Z) (st : proc.St W jira.Call),
    Inv (proc.world st) ->
    (1 <= p + fuel)%nat ->
    (length found <= 50 * (p + fuel))%nat ->
    (p = 0%nat /\ total = 1%Z
     \/ (1 <= p)%nat /\ total = Z.of_nat (length found)) ->
    (p <= 1 \/ 50 * (p - 1) < length found)%nat ->
    exists n st',
      (Nat.max 1 p <= n <= p + fuel)%nat
      /\ (length found <= 50 * n)%nat
      /\ (n = 1 \/ 50 * (n - 1) < length found)%nat
      /\ jiraclient.real.getIssuesFrom bo j fuel jql (Z.of_nat p) total
           (firstn (50 * p) found) st
         = (Some (inl found), st')
      /\ proc.calls st'
         = proc.calls st
           ++ shape.pageRuns jql (Z.of_nat p) (repeat 1%nat (n - p))
      /\ proc.logs st' = proc.logs st
      /\ Inv (proc.world st').
Proof using serves.
  induction fuel as [|fuel IH]; intros p total st Hinv Hone Hlen Htot Hprev.
  - assert ((Z.of_nat p * jiraclient.real.maxResults <? total)%Z = false)
      as Hb.
    { unfold jiraclient.real.maxResults.
      destruct Htot as [[-> ->]|[Hp ->]]; [lia|].
      apply Z.ltb_ge. lia. }
    exists p, st. cbn [jiraclient.real.getIssuesFrom]. rewrite Hb.
    rewrite Nat.sub_diag, firstn_all2 by lia. cbn. rewrite app_nil_r.
    repeat split; lia || auto.
  - cbn [jiraclient.real.getIssuesFrom].
    destruct (Z.ltb_spec (Z.of_nat p * jiraclient.real.maxResults) total)
      as [Hlt|Hge]; unfold jiraclient.real.maxResults in *.
    + destruct (serves (Z.of_nat p) (proc.world st) ltac:(lia) Hinv)
        as (res & w' & Hs & Ht & Hi).
      unfold proc.bind at 1. unfold jiraclient.request.
      rewrite (RetryNotify_first_success bo _ _ _ _ _ _ _ _
                 (wrap_success jiraclient.AIssues _ _ _ _ _ Hs)).
      rewrite Ht.
      replace (firstn (50 * p) found
                 ++ firstn 50 (skipn (Z.to_nat (50 * Z.of_nat p)) found))
        with (firstn (50 * Datatypes.S p) found).
      2: { replace (Z.to_nat (50 * Z.of_nat p)) with (50 * p)%nat by lia.
           replace (50 * Datatypes.S p)%nat with (50 * p + 50)%nat by lia.
           symmetry. apply take_take_drop. }
      replace (Z.of_nat p + 1)%Z with (Z.of_nat (Datatypes.S p)) by lia.
      match goal with
      | |- context [jiraclient.real.getIssuesFrom _ _ _ _ _ _ _ ?s] =>
          destruct (IH (Datatypes.S p) (Z.of_nat (length found)) s)
            as (n & st' & Hn & Hcover & Hlast & Hrun & Hcalls & Hlogs & Hw)
      end; cbn [proc.world]; try lia; auto.
      exists n, st'. rewrite Hrun, Hcalls, Hlogs. cbn [proc.calls proc.logs].
      replace (n - p)%nat with (Datatypes.S (n - Datatypes.S p)) by lia.
      cbn [repeat shape.pageRuns]. rewrite <- app_assoc.
      replace (Z.of_nat p + 1)%Z with (Z.of_nat (Datatypes.S p)) by lia.
      repeat split; lia || auto.
    + exists p, st. rewrite Nat.sub_diag, firstn_all2 by lia.
      cbn. rewrite app_nil_r. repeat split; lia || auto.
Qed.

End Paging.

(** X13. The live ListIssues against a server that serves every page
    request of the query with the matching slice of its [found] issues
    and their number: it requests page after page once each, from page
    0 up to the first page that reaches the number of issues (one page
    at least), and returns the client-side filter of all of them, in
    the server's order, logging nothing. *)
Theorem ListIssues_gathers_every_page {W : Type} (bo : backoff.BackOff W)
  (j : @jiraclient.real.realJIRAClient W) (ids : list Z)
  (found : list jira.Issue) (Inv : W -> Prop) (fuel : nat)
  (st : proc.St W jira.Call) :
  Inv (proc.world st) ->
  (forall (page : Z) (w : W),
     (0 <= page)%Z -> Inv w ->
     exists res w',
       jira.IssueSearch (jiraclient.real.client j)
         (jiraclient.listJQL (jiraclient.real.cfg j) ids)
         (Some (jira.SearchOptions.mk (50 * page) 50)) w
       = (jira.Success
            (firstn 50 (skipn (Z.to_nat (50 * page)) found)) res, w')
       /\ jira.Response.Total res = Z.of_nat (length found)
       /\ Inv w') ->
  (1 <= fuel)%nat ->
  (length found <= 50 * fuel)%nat ->
  exists n,
    (1 <= n <= fuel)%nat
    /\ (length found <= 50 * n)%nat
    /\ (n = 1 \/ 50 * (n - 1) < length found)%nat
    /\ (jiraclient.real.ListIssues bo j fuel ids st).1
       = Some (inl (jiraclient.filterIssues (jiraclient.real.cfg j) ids
                      found))
    /\ proc.calls (jiraclient.real.ListIssues bo j fuel ids st).2
       = proc.calls st
         ++ shape.pageRuns (jiraclient.listJQL (jiraclient.real.cfg j) ids)
              0 (repeat 1%nat n)
    /\ proc.logs (jiraclient.real.ListIssues bo j fuel ids st).2
       = proc.logs st.
Proof.
  intros Hinv Hserve Hfuel Hlen.
  destruct (getIssuesFrom_gathers bo j _ found Inv Hserve fuel 0%nat 1%Z st)
    as (n & st' & Hn & Hcover & Hlast & Hrun & Hcalls & Hlogs & _);
    auto; try lia.
  exists n. unfold jiraclient.real.ListIssues, jiraclient.real.getIssues,
    proc.bind.
  change (firstn (50 * 0) found) with (@nil jira.Issue) in Hrun.
  change (Z.of_nat 0) with 0%Z in Hrun, Hcalls. rewrite Hrun. cbn.
  rewrite Hcalls, Hlogs, Nat.sub_0_r. cbn. repeat split; lia || auto.
Qed.

(** The project of 51 mirrored issues is gathered in two pages. *)
Lemma ListIssues_gathers_two_pages :
  exists n,
    (1 <= n <= 2)%nat
    /\ (length fixture.store51 <= 50 * n)%nat
    /\ (n = 1 \/ 50 * (n - 1) < length fixture.store51)%nat
    /\ (jiraclient.real.ListIssues (remote.retries 0) fixture.liveClient 2
          (fixture.idsUpTo 100)
          (remote.start (fixture.world fixture.store51))).1
       = Some (inl (jiraclient.filterIssues
                      (jiraclient.real.cfg fixture.liveClient)
                      (fixture.idsUpTo 100) fixture.store51))
    /\ proc.calls
         (jiraclient.real.ListIssues (remote.retries 0) fixture.liveClient 2
            (fixture.idsUpTo 100)
            (remote.start (fixture.world fixture.store51))).2
       = proc.calls (remote.start (fixture.world fixture.store51))
         ++ shape.pageRuns
              (jiraclient.listJQL (jiraclient.real.cfg fixture.liveClient)
                 (fixture.idsUpTo 100))
              0 (repeat 1%nat n)
    /\ proc.logs
         (jiraclient.real.ListIssues (remote.retries 0) fixture.liveClient 2
            (fixture.idsUpTo 100)
            (remote.start (fixture.world fixture.store51))).2
       = proc.logs (remote.start (fixture.world fixture.store51)).
Proof.
  apply (ListIssues_gathers_every_page (remote.retries 0) fixture.liveClient
           (fixture.idsUpTo 100) fixture.store51
           (fun w => w = fixture.world fixture.store51) 2
           (remote.start (fixture.world fixture.store51))).
  - reflexivity.
  - intros page w _ ->.
    exists (remote.okResponse 51), (fixture.world fixture.store51).
    repeat split.
  - lia.
  - vm_compute. lia.
Defined.

(** ** validateConfig *)

Ltac reduce_checks :=
  cbv beta iota zeta
      delta [validation.validateConfig validation.bind validation.failIf
             validation.Debug validation.GetString validation.setBasicAuth
             validation.getBasicAuth validation.Set_ validation.setSince
             validation.Print validation.fail validation.ret
             validation.c validation.cmdConfig validation.basicAuth
             validation.log validation.since validation.printed
             fst snd negb andb].

Ltac open_state st :=
  destruct st as [[? ? ? ?] ?];
  cbn [validation.c validation.cmdConfig validation.basicAuth
       validation.log validation.since validation.printed] in *.

Ltac split_checks :=
  repeat (match goal with
          | |- context [String.eqb ?a ""] => destruct (String.eqb_spec a "")
          | |- context [match ?o ?p with Some _ => _ | None => _ end] =>
              destruct (o p) eqn:?
          | |- context [match ?f ?l ?v with inl _ => _ | inr _ => _ end] =>
              destruct (f l v) eqn:?
          end; reduce_checks).

(** X14. validateConfig never asks for the password: basic
    authentication is chosen only when both jira-user and jira-secret
    are set, so inside that branch the two emptiness tests cannot
    succeed. Whatever the settings and the surroundings, the answer of
    the terminal plays no part, nothing is printed, the result is never
    the error of a missing user name or password, and the jira-secret
    setting is left as it was. *)
Theorem validateConfig_never_prompts (env : validation.Env)
  (st : validation.St) (answer : string + Go.error) :
  validation.validateConfig (validation.withReadPassword env answer) st
  = validation.validateConfig env st
  /\ validation.printed (validation.validateConfig env st).2
     = validation.printed st
  /\ (validation.validateConfig env st).1 <> inr "Jira username required"
  /\ (validation.validateConfig env st).1 <> inr "JIRA password required"
  /\ viper.GetString
       (validation.cmdConfig
          (validation.c (validation.validateConfig env st).2))
       "jira-secret"
     = viper.GetString (validation.cmdConfig (validation.c st))
         "jira-secret".
Proof.
  open_state st. destruct env as [typed open parseURI parse].
  unfold validation.withReadPassword. reduce_checks.
  cbn [validation.Open validation.ParseRequestURI validation.Parse
       validation.ReadPassword].
  split_checks; repeat split; try discriminate; try reflexivity;
    try contradiction.
  all: unfold viper.GetString, viper.Set_, viper.Viper;
    now rewrite lookup_insert_ne by discriminate.
Qed.

(** X15. validateConfig with an empty `since`: the default date is
    stored in the settings, but the value parsed is the empty string
    read before, so when [time.Parse] rejects the empty string (as it
    does for this layout) validation fails whatever the other settings
    are; and when it fails at the date, the settings hold the default
    that was not used. *)
Theorem validateConfig_rejects_empty_since (env : validation.Env)
  (st : validation.St) (e : Go.error) :
  viper.GetString (validation.cmdConfig (validation.c st)) "since" = "" ->
  validation.Parse env config.dateFormat "" = inr e ->
  (exists err, (validation.validateConfig env st).1 = inr err)
  /\ ((validation.validateConfig env st).1
      = inr "Since date must be in ISO-8601 format" ->
      viper.GetString
        (validation.cmdConfig
           (validation.c (validation.validateConfig env st).2)) "since"
      = validation.defaultSince).
Proof.
  intros Hs Hp. open_state st. reduce_checks.
  split_checks; try congruence; (split; [eauto|]); try discriminate.
  all: intros _; unfold viper.GetString, viper.Set_, viper.Viper;
    now rewrite lookup_insert_eq.
Qed.

(** No `since` among otherwise valid settings. *)
Lemma validateConfig_rejects_empty_since_example :
  (exists err,
     (validation.validateConfig
        (validation.lenient "2020-01-01T00:00:00+0000" fixture.since)
        (validation.fresh
           [("github-token", "t"); ("jira-user", "u"); ("jira-secret", "s");
            ("jira-uri", "https://jira.example.com");
            ("jira-project", "PROJ")])).1 = inr err)
  /\ ((validation.validateConfig
         (validation.lenient "2020-01-01T00:00:00+0000" fixture.since)
         (validation.fresh
            [("github-token", "t"); ("jira-user", "u"); ("jira-secret", "s");
             ("jira-uri", "https://jira.example.com");
             ("jira-project", "PROJ")])).1
      = inr "Since date must be in ISO-8601 format" ->
      viper.GetString
        (validation.cmdConfig
           (validation.c
              (validation.validateConfig
                 (validation.lenient "2020-01-01T00:00:00+0000"
                    fixture.since)
                 (validation.fresh
                    [("github-token", "t"); ("jira-user", "u");
                     ("jira-secret", "s");
                     ("jira-uri", "https://jira.example.com");
                     ("jira-project", "PROJ")])).2)) "since"
      = validation.defaultSince).
Proof.
  apply (validateConfig_rejects_empty_since
           (validation.lenient "2020-01-01T00:00:00+0000" fixture.since)
           (validation.fresh
              [("github-token", "t"); ("jira-user", "u");
               ("jira-secret", "s");
               ("jira-uri", "https://jira.example.com");
               ("jira-project", "PROJ")])
           "parsing time: cannot parse").
  - vm_compute. reflexivity.
  - vm_compute. reflexivity.
Defined.

(** X16. A configuration that validateConfig accepts: the GitHub token,
    the JIRA secret, the JIRA URI and the JIRA project are set, the URI
    was accepted, `since` as read parsed to the date now held; basic
    authentication is in use exactly when a JIRA user is set, and
    without it the access token, the consumer key and a private key
    file that opens are set too. *)
Theorem validateConfig_accepted_settings (env : validation.Env)
  (st : validation.St) :
  (validation.validateConfig env st).1 = inl tt ->
  let v := validation.cmdConfig (validation.c st) in
  let c' := validation.c (validation.validateConfig env st).2 in
  viper.GetString v "github-token" <> ""
  /\ viper.GetString v "jira-secret" <> ""
  /\ viper.GetString v "jira-uri" <> ""
  /\ validation.ParseRequestURI env (viper.GetString v "jira-uri") = None
  /\ viper.GetString v "jira-project" <> ""
  /\ validation.Parse env config.dateFormat (viper.GetString v "since")
     = inl (validation.since c')
  /\ validation.basicAuth c'
     = negb (String.eqb (viper.GetString v "jira-user") "")
  /\ (validation.basicAuth c' = false ->
      viper.GetString v "jira-token" <> ""
      /\ viper.GetString v "jira-consumer-key" <> ""
      /\ viper.GetString v "jira-private-key-path" <> ""
      /\ validation.Open env (viper.GetString v "jira-private-key-path")
         = None).
Proof.
  open_state st. reduce_checks.
  split_checks; try discriminate; intros _; try contradiction;
    repeat split; auto; try congruence.
Qed.

(** Settings for basic authentication that pass. *)
Lemma validateConfig_accepted_settings_example :
  (validation.validateConfig
     (validation.lenient "2020-01-01T00:00:00+0000" fixture.since)
     (validation.fresh
        [("github-token", "t"); ("jira-user", "u"); ("jira-secret", "s");
         ("jira-uri", "https://jira.example.com"); ("jira-project", "PROJ");
         ("since", "2020-01-01T00:00:00+0000")])).1 = inl tt
  /\ validation.basicAuth
       (validation.c
          (validation.validateConfig
             (validation.lenient "2020-01-01T00:00:00+0000" fixture.since)
             (validation.fresh
                [("github-token", "t"); ("jira-user", "u");
                 ("jira-secret", "s");
                 ("jira-uri", "https://jira.example.com");
                 ("jira-project", "PROJ");
                 ("since", "2020-01-01T00:00:00+0000")])).2)
     = negb (String.eqb
               (viper.GetString
                  (validation.cmdConfig
                     (validation.c
                        (validation.fresh
                           [("github-token", "t"); ("jira-user", "u");
                            ("jira-secret", "s");
                            ("jira-uri", "https://jira.example.com");
                            ("jira-project", "PROJ");
                            ("since", "2020-01-01T00:00:00+0000")])))
                  "jira-user") "").
Proof.
  assert ((validation.validateConfig
             (validation.lenient "2020-01-01T00:00:00+0000" fixture.since)
             (validation.fresh
                [("github-token", "t"); ("jira-user", "u");
                 ("jira-secret", "s");
                 ("jira-uri", "https://jira.example.com");
                 ("jira-project", "PROJ");
                 ("since", "2020-01-01T00:00:00+0000")])).1 = inl tt) as H
    by (vm_compute; reflexivity).
  split; [exact H|].
  exact (proj1 (proj2 (proj2 (proj2 (proj2 (proj2 (proj2
           (validateConfig_accepted_settings _ _ H)))))))).
Defined.

(** ** Sync *)

Section Run.
Context {S : Type}.
Variable jClient : jiraclient.JIRAClient S.
Variable CompareComments :
  config.Config -> github.Issue -> jira.Issue -> S -> option Go.error * S.
Variable Now : S -> time.Time.
Variable gh : ghClient.GitHubClient S.

(** X17. Sync fails only at the GitHub lookup and search and at the
    batch lookup in JIRA. A panic or an error of getGitHubIssues is its
    result, with no call of the JIRA client and nothing logged; when no
    GitHub issue is found it returns nil without a call; otherwise the
    batch lookup is made, its error is the result with no call after
    it, and once it has succeeded the result is nil whatever the
    operations on the single issues return. *)
Theorem Sync_fails_only_at_search_or_listing (cfg : config.Config)
  (st : proc.St S sync.Invocation) :
  let r := sync.Sync jClient CompareComments Now gh cfg st in
  match sync.getGitHubIssues gh cfg (proc.world st) with
  | (Go.Panic v, _) =>
      r.1 = Go.Panic v
      /\ proc.calls r.2 = proc.calls st /\ proc.logs r.2 = proc.logs st
  | (Go.Err e, _) =>
      r.1 = Go.Err e
      /\ proc.calls r.2 = proc.calls st /\ proc.logs r.2 = proc.logs st
  | (Go.Ok [], _) => r.1 = Go.Ok tt /\ proc.calls r.2 = proc.calls st
  | (Go.Ok ghIssues, s) =>
      let ids := List.map github.Issue.ID ghIssues in
      match jiraclient.ListIssues jClient ids s with
      | (inr err, _) =>
          r.1 = Go.Err err
          /\ proc.calls r.2 = proc.calls st ++ [sync.ListIssues ids]
      | (inl _, _) => r.1 = Go.Ok tt
      end
  end.
Proof.
  cbv zeta.
  remember (sync.Sync jClient CompareComments Now gh cfg st) as r eqn:Hr.
  unfold sync.Sync, proc.bind, proc.lift, proc.ret in Hr.
  destruct (sync.getGitHubIssues gh cfg (proc.world st))
    as [[ghIssues|e|v] s]; try (subst r; repeat split; reflexivity).
  destruct ghIssues as [|g rest]; [subst r; repeat split; reflexivity|].
  rewrite (CompareIssues_unfold jClient CompareComments Now cfg (g :: rest)
             _ ltac:(discriminate)) in Hr.
  cbn [proc.world] in Hr.
  destruct (jiraclient.ListIssues jClient _ s) as [[jiraIssues|err] s'];
    subst r; [reflexivity|split; reflexivity].
Qed.

End Run.
